(** * Roku deep-link tester: beacon monitor, wait coordinator, test sequencer,
      RASP validator and RASP text entry

    A shallow embedding of [lib/tester.js], [lib/rasp-validator.js] and
    [lib/rasp-runner.js].

    Conventions of the embedding.
    - A JavaScript string is a [string]; the characters are taken to be ASCII
      (code points below 128), which is where [trim], [\s], [\d],
      [toUpperCase] and iteration by code point are modelled exactly.
    - A JavaScript [Set] of beacon names is a [gset string]; plain objects
      used as maps ([beaconTimings], [process.env]) are [gmap]s.
    - JavaScript numbers that only ever hold millisecond counts are [Z];
      the validator's duration arithmetic is done on binary64 floats
      ([PrimFloat]), as the interpreter does it.
    - The event loop is explicit.  Every suspension point of the source
      (an awaited HTTP request, a [setTimeout]) consumes one [Turn] of the
      environment: the telnet chunks that were delivered to the ['data']
      handler while the code was suspended, the outcome of the awaited
      operation and the wall clock at resumption.  Code between two
      suspension points runs to completion and reads one clock value.
    - Console output ([log], [ora] spinners) is not modelled. *)

From Stdlib Require Import ZArith Floats String Ascii List Bool Lia.
From stdpp Require Import gmap strings pretty.
Import ListNotations.

#[local] Set Warnings "-inexact-float,-register-all,-clear-no-such-hyp".
#[local] Open Scope string_scope.
#[local] Open Scope Z_scope.

(* ===================================================================== *)
(** * JavaScript built-ins used by the sources *)
(* ===================================================================== *)

Module Js.

(** [\d] *)
Definition isDigit (c : ascii) : bool :=
  let n := nat_of_ascii c in (48 <=? n)%nat && (n <=? 57)%nat.

(** [\s], and the characters removed by [String.prototype.trim] *)
Definition isSpace (c : ascii) : bool :=
  let n := nat_of_ascii c in
  ((9 <=? n)%nat && (n <=? 13)%nat) || (n =? 32)%nat.

Definition isLower (c : ascii) : bool :=
  let n := nat_of_ascii c in (97 <=? n)%nat && (n <=? 122)%nat.

Definition isUpper (c : ascii) : bool :=
  let n := nat_of_ascii c in (65 <=? n)%nat && (n <=? 90)%nat.

Definition isAlnum (c : ascii) : bool := isDigit c || isLower c || isUpper c.


Definition lowerChar (c : ascii) : ascii :=
  if isUpper c then ascii_of_nat (nat_of_ascii c + 32) else c.

Fixpoint mapChars (f : ascii -> ascii) (s : string) : string :=
  match s with
  | EmptyString => EmptyString
  | String c s' => String (f c) (mapChars f s')
  end.

Definition toLowerCase : string -> string := mapChars lowerChar.


(** [s.includes(needle)] *)
Fixpoint includes (s needle : string) : bool :=
  String.prefix needle s ||
  match s with
  | EmptyString => false
  | String _ s' => includes s' needle
  end.

(** the rest of [s] after the prefix [p], when [s] starts with [p] *)
Fixpoint stripPrefix (p s : string) : option string :=
  match p, s with
  | EmptyString, _ => Some s
  | String a p', String b s' =>
      if Ascii.eqb a b then stripPrefix p' s' else None
  | String _ _, EmptyString => None
  end.

Fixpoint dropWhile (f : ascii -> bool) (s : string) : string :=
  match s with
  | EmptyString => EmptyString
  | String c s' => if f c then dropWhile f s' else s
  end.

Fixpoint takeWhile (f : ascii -> bool) (s : string) : string :=
  match s with
  | EmptyString => EmptyString
  | String c s' => if f c then String c (takeWhile f s') else EmptyString
  end.

Fixpoint revString (s acc : string) : string :=
  match s with
  | EmptyString => acc
  | String c s' => revString s' (String c acc)
  end.

(** [s.trim()] *)
Definition trim (s : string) : string :=
  let s1 := dropWhile isSpace s in
  revString (dropWhile isSpace (revString s1 EmptyString)) EmptyString.

(** the number denoted by a run of decimal digits *)
Fixpoint digitsValue (s : string) (acc : Z) : Z :=
  match s with
  | EmptyString => acc
  | String c s' => digitsValue s' (10 * acc + (Z.of_nat (nat_of_ascii c) - 48))
  end.

(** [a.join(sep)] on an array of strings *)
Fixpoint join (sep : string) (l : list string) : string :=
  match l with
  | [] => ""
  | [x] => x
  | x :: l' => x ++ sep ++ join sep l'
  end.

(** [a.includes(x)] on an array of strings *)
Definition arrayIncludes (a : list string) (x : string) : bool :=
  existsb (String.eqb x) a.

(** [s] between double quotes *)
Definition quoted (s : string) : string :=
  String (ascii_of_nat 34) (s ++ String (ascii_of_nat 34) EmptyString).

(** [`${n}`] for an integer-valued number *)
Definition showZ (n : Z) : string := pretty n.

End Js.

(* ===================================================================== *)
(** * lib/tester.js : class RokuDeepLinkTester *)
(* ===================================================================== *)

Module Tester.
Import Js.

(** ** Data *)

(** [contentType] / [detectedContentType]: ['VOD'], ['Live'] ([null] is [None]) *)
Inductive ContentType := VOD | Live.

(** the option object handed to the constructor, as far as the class reads it *)
Record Options := {
  opt_content : string;
  opt_type : string;
  opt_wait : Z;                      (* parseInt(options.wait) *)
  opt_signedIn : bool;
  opt_script : option string;
  opt_launchOnly : bool;
  opt_inputOnly : bool;
  opt_expectBeacon : option string;
}.

(** the object resolved by the two wait functions; a field that the source
    leaves out of the object literal is [None] *)
Record WaitResult := {
  w_passed : bool;
  w_duration : Z;
  w_error : option string;
  w_playbackStarted : option bool;
  w_contentType : option ContentType;
  w_beaconsReceived : list string;
}.

(** an entry of [this.testResults] *)
Record TestResult := {
  testName : string;
  command : string;
  passed : bool;
  error : option string;
  expectedBeacons : option (list string);
  resultTimings : option (gmap string (option Z));
  resultDetectedContentType : option ContentType;
  duration : option Z;
  playbackStarted : option bool;
  contentType : option ContentType;
  beaconsReceivedList : option (list string);
  recentTelnetLogs : option (list string);
}.

(** what the code asks of the outside world at a suspension point *)
Inductive Effect :=
| EConnect                                              (* net.Socket connect, port 8085 *)
| EDisconnect                                           (* telnetClient.end() *)
| ERunScript (path : string)                            (* new RaspRunner(ip, path).execute() *)
| ECommand (cmd : string) (params : list (string * string))  (* POST /launch/<app>?.. or /input?.. *)
| EKeypress (key : string)                              (* POST /keypress/<key> *)
| ESleep (ms : Z).                                      (* setTimeout(resolve, ms) *)

(** how an awaited operation ended: the promise resolved, or it rejected
    with an [Error] carrying [message] (for a request: a non-2xx status, a
    network failure or the request's own timeout) *)
Inductive Reply :=
| Accepted
| Rejected (message : string).

(** one suspension of the code, seen from the environment *)
Record Turn := {
  arrived : list string;   (* telnet chunks handed to the 'data' handler meanwhile *)
  reply : Reply;           (* outcome of the awaited operation, when there is one *)
  resumedAt : Z;           (* Date.now() once the code runs again *)
}.

(** the fields of the tester object, with the clock and the list of
    effects issued so far *)
Record Tester := {
  options : Options;
  beaconsReceived : gset string;
  beaconTimings : gmap string (option Z);
  detectedContentType : option ContentType;
  testResults : list TestResult;
  signInDuration : option Z;
  telnetLogBuffer : list string;
  clock : Z;
  issued : list Effect;
}.

Definition contentId (t : Tester) : string := opt_content (options t).
Definition mediaType (t : Tester) : string := opt_type (options t).
Definition waitTime (t : Tester) : Z := opt_wait (options t) * 1000.
Definition isSignedIn (t : Tester) : bool := opt_signedIn (options t).
Definition maxLogBuffer : nat := 50.

Definition newTester (o : Options) (now : Z) : Tester :=
  {| options := o; beaconsReceived := ∅; beaconTimings := ∅;
     detectedContentType := None; testResults := []; signInDuration := None;
     telnetLogBuffer := []; clock := now; issued := [] |}.

Definition setBeacons (r : gset string) (g : gmap string (option Z)) (t : Tester) : Tester :=
  {| options := options t; beaconsReceived := r; beaconTimings := g;
     detectedContentType := detectedContentType t; testResults := testResults t;
     signInDuration := signInDuration t; telnetLogBuffer := telnetLogBuffer t;
     clock := clock t; issued := issued t |}.

Definition setDetectedContentType (c : option ContentType) (t : Tester) : Tester :=
  {| options := options t; beaconsReceived := beaconsReceived t;
     beaconTimings := beaconTimings t;
     detectedContentType := c; testResults := testResults t;
     signInDuration := signInDuration t; telnetLogBuffer := telnetLogBuffer t;
     clock := clock t; issued := issued t |}.

Definition setTestResults (l : list TestResult) (t : Tester) : Tester :=
  {| options := options t; beaconsReceived := beaconsReceived t;
     beaconTimings := beaconTimings t;
     detectedContentType := detectedContentType t; testResults := l;
     signInDuration := signInDuration t; telnetLogBuffer := telnetLogBuffer t;
     clock := clock t; issued := issued t |}.

Definition setSignInDuration (d : option Z) (t : Tester) : Tester :=
  {| options := options t; beaconsReceived := beaconsReceived t;
     beaconTimings := beaconTimings t;
     detectedContentType := detectedContentType t; testResults := testResults t;
     signInDuration := d; telnetLogBuffer := telnetLogBuffer t;
     clock := clock t; issued := issued t |}.

Definition setTelnetLogBuffer (b : list string) (t : Tester) : Tester :=
  {| options := options t; beaconsReceived := beaconsReceived t;
     beaconTimings := beaconTimings t;
     detectedContentType := detectedContentType t; testResults := testResults t;
     signInDuration := signInDuration t; telnetLogBuffer := b;
     clock := clock t; issued := issued t |}.

Definition setClock (now : Z) (t : Tester) : Tester :=
  {| options := options t; beaconsReceived := beaconsReceived t;
     beaconTimings := beaconTimings t;
     detectedContentType := detectedContentType t; testResults := testResults t;
     signInDuration := signInDuration t; telnetLogBuffer := telnetLogBuffer t;
     clock := now; issued := issued t |}.

Definition issue (e : Effect) (t : Tester) : Tester :=
  {| options := options t; beaconsReceived := beaconsReceived t;
     beaconTimings := beaconTimings t;
     detectedContentType := detectedContentType t; testResults := testResults t;
     signInDuration := signInDuration t; telnetLogBuffer := telnetLogBuffer t;
     clock := clock t; issued := (issued t ++ [e])%list |}.

(** ** The beacon stream monitor *)

(** the regular expression [<timingType>\((\d+)\s*ms\)] tried at the very
    start of [s]; [\d+] and [\s*] are greedy and the three character
    classes that follow one another are disjoint, so no backtracking can
    find a match that the greedy scan misses *)
Definition matchTimingHere (timingType s : string) : option Z :=
  match stripPrefix (timingType ++ "(") s with
  | None => None
  | Some rest =>
      let digits := takeWhile isDigit rest in
      match digits with
      | EmptyString => None
      | _ =>
          let after := dropWhile isSpace (dropWhile isDigit rest) in
          if String.prefix "ms)" after then Some (digitsValue digits 0) else None
      end
  end.

(** [extractTiming(logData, timingType)]: the leftmost match, [null] without one *)
Fixpoint extractTiming (logData timingType : string) : option Z :=
  match matchTimingHere timingType logData with
  | Some n => Some n
  | None =>
      match logData with
      | EmptyString => None
      | String _ rest => extractTiming rest timingType
      end
  end.

(** [this.beaconsReceived.add(name); this.beaconTimings[name] = timing] *)
Definition recordBeacon (name : string) (timing : option Z) (t : Tester) : Tester :=
  setBeacons ({[name]} ∪ beaconsReceived t) (<[name := timing]> (beaconTimings t)) t.

(** [telnetLogBuffer.push(logData)], then [shift()] past [maxLogBuffer] entries *)
Definition pushLog (logData : string) (t : Tester) : Tester :=
  let b := (telnetLogBuffer t ++ [logData])%list in
  setTelnetLogBuffer (if (maxLogBuffer <? length b)%nat then tl b else b) t.

(** the ['data'] handler installed by [connectTelnet] *)
Definition onTelnetData (data : string) (t : Tester) : Tester :=
  let logData := trim data in
  match logData with
  | EmptyString => t
  | _ =>
      let t := pushLog logData t in
      let t :=
        if includes logData "AppLaunchComplete" then
          if includes logData "Duration(" && includes logData "ms)" then
            recordBeacon "AppLaunchComplete" (extractTiming logData "Duration") t
          else t
        else t in
      let t :=
        if includes logData "AppDialogInitiate" then
          setBeacons ({["AppDialogInitiate"]} ∪ beaconsReceived t) (beaconTimings t) t
        else t in
      let t :=
        if includes logData "VODStartInitiate" then
          recordBeacon "VODStartInitiate" (extractTiming logData "TimeBase") t
        else t in
      let t :=
        if includes logData "VODStartComplete" then
          recordBeacon "VODStartComplete" (extractTiming logData "Duration") t
        else t in
      let t :=
        if includes logData "LiveStartInitiate" then
          recordBeacon "LiveStartInitiate" (extractTiming logData "TimeBase") t
        else t in
      let t :=
        if includes logData "LiveStartComplete" then
          recordBeacon "LiveStartComplete" (extractTiming logData "Duration") t
        else t in
      t
  end.

(** ** The event loop *)

(** what running a piece of asynchronous code against a finite script of
    turns leads to: it returns, it throws, or it is still suspended when
    the script ends *)
Inductive Outcome (A : Type) :=
| Done (a : A) (t : Tester) (rest : list Turn)
| Threw (message : string) (t : Tester) (rest : list Turn)
| Starved.
Arguments Done {A} a t rest.
Arguments Threw {A} message t rest.
Arguments Starved {A}.

Definition M (A : Type) : Type := Tester -> list Turn -> Outcome A.

Definition pure {A} (a : A) : M A := fun t env => Done a t env.
#[export] Instance M_ret : MRet M := @pure.
#[export] Instance M_bind : MBind M := fun A B f m t env =>
  match m t env with
  | Done a t' rest => f a t' rest
  | Threw msg t' rest => Threw msg t' rest
  | Starved => Starved
  end.

Definition get : M Tester := fun t env => Done t t env.
Definition modify (f : Tester -> Tester) : M unit := fun t env => Done tt (f t) env.
Definition throw {A} (message : string) : M A := fun t env => Threw message t env.

(** the ['data'] handler runs once per chunk, then the code resumes *)
Definition deliver (turn : Turn) (t : Tester) : Tester :=
  setClock (resumedAt turn) (fold_left (fun t d => onTelnetData d t) (arrived turn) t).

(** the timer between two runs of [checkBeacons]:
    [setTimeout(checkBeacons, 500)] *)
Definition tick (turn : Turn) (t : Tester) : Tester :=
  deliver turn (issue (ESleep 500) t).

(** the tester after several such timers, when nothing else touches it *)
Definition ticks (turns : list Turn) (t : Tester) : Tester :=
  fold_left (fun t turn => tick turn t) turns t.

(** suspend on [e] *)
Definition await (e : Effect) : M Reply := fun t env =>
  match env with
  | [] => Starved
  | turn :: rest => Done (reply turn) (deliver turn (issue e t)) rest
  end.

Definition isAccepted (r : Reply) : bool :=
  match r with Accepted => true | Rejected _ => false end.

(** [await new Promise(resolve => setTimeout(resolve, ms))] *)
Definition sleep (ms : Z) : M unit := _ ← await (ESleep ms); pure tt.

(** ** The command dispatcher *)

(** [sendEcpCommand(command, params)]: a failed request is caught and
    reported as [false] *)
Definition sendEcpCommand (cmd : string) (params : list (string * string)) : M bool :=
  r ← await (ECommand cmd params); pure (isAccepted r).

(** [sendEcpKeypress(key)] *)
Definition sendEcpKeypress (key : string) : M bool :=
  r ← await (EKeypress key); pure (isAccepted r).

(** ** The beacon wait coordinator *)

(** [this.beaconsReceived.has(beacon) && !initialBeacons.has(beacon)] *)
Definition isFresh (t : Tester) (initialBeacons : gset string) (beacon : string) : bool :=
  bool_decide (beacon ∈ beaconsReceived t) && negb (bool_decide (beacon ∈ initialBeacons)).

Definition BEACON_GRACE_PERIOD : Z := 2000.

(** truthiness of [allBeaconsFoundAt], which is [null] or a number *)
Definition isSet (allBeaconsFoundAt : option Z) : bool :=
  match allBeaconsFoundAt with
  | Some n => negb (n =? 0)
  | None => false
  end.

(** one run of [checkBeacons] inside [waitForBeacons]: the object it
    resolves with, if it resolves, and the value of [allBeaconsFoundAt]
    it leaves behind *)
Definition checkBeaconsExact (expectedBeacons : list string) (initialBeacons : gset string)
    (startTime timeout : Z) (allBeaconsFoundAt : option Z) (t : Tester)
    : option WaitResult * option Z :=
  let newBeacons := List.filter (isFresh t initialBeacons) expectedBeacons in
  let elapsed := clock t - startTime in
  let allFound := (length newBeacons =? length expectedBeacons)%nat in
  let foundAt :=
    if allFound then
      (if isSet allBeaconsFoundAt then allBeaconsFoundAt else Some (clock t))
    else allBeaconsFoundAt in
  if allFound && (BEACON_GRACE_PERIOD <=? clock t - default 0 foundAt) then
    (Some {| w_passed := true; w_duration := clock t - startTime; w_error := None;
             w_playbackStarted := None; w_contentType := None;
             w_beaconsReceived := newBeacons |}, foundAt)
  else if timeout <=? elapsed then
    let missingBeacons :=
      List.filter (fun beacon => negb (bool_decide (beacon ∈ beaconsReceived t)))
                  expectedBeacons in
    (Some {| w_passed := false; w_duration := elapsed;
             w_error := Some ("Timeout after " ++ showZ elapsed ++ "ms. Missing: "
                              ++ join ", " missingBeacons);
             w_playbackStarted := None; w_contentType := None;
             w_beaconsReceived := newBeacons |}, foundAt)
  else (None, foundAt).

(** [checkBeacons(); ... setTimeout(checkBeacons, 500)] *)
Fixpoint pollExact (expectedBeacons : list string) (initialBeacons : gset string)
    (startTime timeout : Z) (allBeaconsFoundAt : option Z)
    (t : Tester) (env : list Turn) {struct env} : Outcome WaitResult :=
  match checkBeaconsExact expectedBeacons initialBeacons startTime timeout
                          allBeaconsFoundAt t with
  | (Some r, _) => Done r t env
  | (None, foundAt) =>
      match env with
      | [] => Starved
      | turn :: rest =>
          pollExact expectedBeacons initialBeacons startTime timeout foundAt
                    (tick turn t) rest
      end
  end.

(** [waitForBeacons(testName, expectedBeacons, timeout)] *)
Definition waitForBeacons (testName : string) (expectedBeacons : list string)
    (timeout : Z) : M WaitResult := fun t env =>
  pollExact expectedBeacons (beaconsReceived t) (clock t) timeout None t env.

(** [getFoundBeacons(expectedBeacons, initialBeacons)] *)
Definition getFoundBeacons (expectedBeacons : list string) (initialBeacons : gset string)
    (t : Tester) : list string :=
  let has b := bool_decide (b ∈ beaconsReceived t) in
  let found :=
    if arrayIncludes expectedBeacons "AppLaunchComplete"
       && has "AppLaunchComplete"
       && negb (bool_decide ("AppLaunchComplete" ∈ initialBeacons))
    then ["AppLaunchComplete"] else [] in
  if arrayIncludes expectedBeacons "VideoPlaybackStart" then
    if has "VODStartInitiate" && has "VODStartComplete" then
      (found ++ ["VODStartInitiate"; "VODStartComplete"])%list
    else if has "LiveStartInitiate" && has "LiveStartComplete" then
      (found ++ ["LiveStartInitiate"; "LiveStartComplete"])%list
    else found
  else found.

(** the video part of one run of [checkBeacons] inside
    [waitForBeaconsWithSmartDetection]: the locals [videoPlaybackFound],
    [playbackStarted], [contentType], recomputed from their initial values
    on every run *)
Definition checkVideo (expectedBeacons : list string) (initialBeacons : gset string)
    (t : Tester) : bool * bool * option ContentType :=
  if arrayIncludes expectedBeacons "VideoPlaybackStart" then
    let vodInitiate := isFresh t initialBeacons "VODStartInitiate" in
    let vodComplete := isFresh t initialBeacons "VODStartComplete" in
    let liveInitiate := isFresh t initialBeacons "LiveStartInitiate" in
    let liveComplete := isFresh t initialBeacons "LiveStartComplete" in
    if vodInitiate && vodComplete then (true, true, Some VOD)
    else if liveInitiate && liveComplete then (true, true, Some Live)
    else (false, false, None)
  else (true, false, None).

(** one run of [checkBeacons] inside [waitForBeaconsWithSmartDetection] *)
Definition checkBeaconsSmart (expectedBeacons : list string) (initialBeacons : gset string)
    (startTime timeout : Z) (t : Tester) : option WaitResult * Tester :=
  let elapsed := clock t - startTime in
  let appLaunchFound :=
    if arrayIncludes expectedBeacons "AppLaunchComplete"
    then isFresh t initialBeacons "AppLaunchComplete" else true in
  let '(videoPlaybackFound, playbackStarted, contentType) :=
    checkVideo expectedBeacons initialBeacons t in
  let t := match contentType with
           | Some c => setDetectedContentType (Some c) t
           | None => t
           end in
  if appLaunchFound && videoPlaybackFound then
    (Some {| w_passed := true; w_duration := clock t - startTime; w_error := None;
             w_playbackStarted := Some playbackStarted; w_contentType := contentType;
             w_beaconsReceived := getFoundBeacons expectedBeacons initialBeacons t |}, t)
  else if timeout <=? elapsed then
    let missing :=
      ((if arrayIncludes expectedBeacons "AppLaunchComplete" && negb appLaunchFound
        then ["AppLaunchComplete"] else []) ++
       (if arrayIncludes expectedBeacons "VideoPlaybackStart" && negb videoPlaybackFound
        then ["Video playback beacons (VOD or Live)"] else []))%list in
    (Some {| w_passed := false; w_duration := elapsed;
             w_error := Some ("Timeout after " ++ showZ elapsed ++ "ms. Missing: "
                              ++ join ", " missing);
             w_playbackStarted := None; w_contentType := None;
             w_beaconsReceived := getFoundBeacons expectedBeacons initialBeacons t |}, t)
  else (None, t).

Fixpoint pollSmart (expectedBeacons : list string) (initialBeacons : gset string)
    (startTime timeout : Z) (t : Tester) (env : list Turn) {struct env}
    : Outcome WaitResult :=
  match checkBeaconsSmart expectedBeacons initialBeacons startTime timeout t with
  | (Some r, t') => Done r t' env
  | (None, t') =>
      match env with
      | [] => Starved
      | turn :: rest =>
          pollSmart expectedBeacons initialBeacons startTime timeout
                    (tick turn t') rest
      end
  end.

(** [waitForBeaconsWithSmartDetection(testName, expectedBeacons, timeout)] *)
Definition waitForBeaconsWithSmartDetection (testName : string)
    (expectedBeacons : list string) (timeout : Z) : M WaitResult := fun t env =>
  pollSmart expectedBeacons (beaconsReceived t) (clock t) timeout t env.

(** ** The test sequencer *)

(** [this.beaconsReceived.clear(); this.beaconTimings = {}] *)
Definition clearBeacons (t : Tester) : Tester := setBeacons ∅ ∅ t.

(** truthiness of an option that is a string or missing *)
Definition isGiven (o : option string) : bool :=
  match o with
  | Some EmptyString | None => false
  | Some _ => true
  end.

Definition isVideoType (mediaType : string) : bool :=
  String.eqb mediaType "movie" || String.eqb mediaType "episode".

(** the list [requiredBeacons] built at the top of [runDeepLinkTest] *)
Definition requiredBeacons (cmd : string) (t : Tester) : list string :=
  ((if String.eqb cmd "launch" then ["AppLaunchComplete"] else []) ++
   (if isVideoType (mediaType t) then ["VideoPlaybackStart"] else []) ++
   (if isGiven (opt_expectBeacon (options t))
    then [default "" (opt_expectBeacon (options t))] else []))%list.

Definition pushResult (r : TestResult) (t : Tester) : Tester :=
  setTestResults (testResults t ++ [r])%list t.

Definition failedToSend (testName cmd : string) : TestResult :=
  {| testName := testName; command := cmd; passed := false;
     error := Some "Failed to send ECP command";
     expectedBeacons := None; resultTimings := None;
     resultDetectedContentType := None; duration := None;
     playbackStarted := None; contentType := None;
     beaconsReceivedList := None; recentTelnetLogs := None |}.

(** [{ testName, command, expectedBeacons, beaconTimings,
       detectedContentType, ...result }]; the entry keeps a reference to
    the timing object in use, [resultTimings] is that object's content when
    the entry is built *)
Definition mkTestResult (testName cmd : string) (required : list string)
    (t : Tester) (result : WaitResult) : TestResult :=
  {| testName := testName; command := cmd; passed := w_passed result;
     error := w_error result;
     expectedBeacons := Some required;
     resultTimings := Some (beaconTimings t);
     resultDetectedContentType := detectedContentType t;
     duration := Some (w_duration result);
     playbackStarted := w_playbackStarted result;
     contentType := w_contentType result;
     beaconsReceivedList := Some (w_beaconsReceived result);
     recentTelnetLogs := None |}.

(** [runDeepLinkTest(testName, command)] *)
Definition runDeepLinkTest (testName cmd : string) : M TestResult :=
  t ← get;
  let required := requiredBeacons cmd t in
  _ ← modify clearBeacons;
  let params := [("contentId", contentId t); ("mediaType", mediaType t)] in
  commandSent ← sendEcpCommand cmd params;
  if negb commandSent then
    let result := failedToSend testName cmd in
    _ ← modify (pushResult result);
    pure result
  else
    result ← waitForBeaconsWithSmartDetection testName required (waitTime t);
    t' ← get;
    let testResult := mkTestResult testName cmd required t' result in
    _ ← modify (pushResult testResult);
    pure testResult.

(** [runInputTest()] *)
Definition runInputTest : M unit :=
  t ← get;
  if negb (isSignedIn t) then
    _ ← sendEcpKeypress "Home";
    _ ← sleep 2000;
    _ ← modify clearBeacons;
    normalLaunchSuccess ← sendEcpCommand "launch" [];
    if negb normalLaunchSuccess then pure tt
    else
      launchResult ← waitForBeacons "Normal Launch" ["AppLaunchComplete"]
                                    (Z.min (waitTime t) 30000);
      if negb (w_passed launchResult) then pure tt
      else
        _ ← sleep 2000;
        _ ← runDeepLinkTest "Deep Link Input Test" "input";
        pure tt
  else
    _ ← sleep 2000;
    _ ← runDeepLinkTest "Deep Link Input Test" "input";
    pure tt.

(** the second half of [runDeepLinkTests]: [if (!this.options.launchOnly)
    await this.runInputTest()] *)
Definition inputPhase : M unit :=
  t ← get;
  if negb (opt_launchOnly (options t)) then runInputTest else pure tt.

(** [runDeepLinkTests()] *)
Definition runDeepLinkTests : M unit :=
  _ ← sleep 3000;
  t ← get;
  if negb (opt_inputOnly (options t)) then
    launchResult ← runDeepLinkTest "Deep Link Launch Test" "launch";
    if negb (passed launchResult)
       && bool_decide (error launchResult = Some "Failed to send ECP command")
    then pure tt
    else _ ← sleep 3000; inputPhase
  else inputPhase.

(** [connectTelnet()]: resolves once the socket is connected, rejects on a
    socket error or after ten seconds *)
Definition connectTelnet : M unit :=
  r ← await EConnect;
  match r with
  | Accepted => pure tt
  | Rejected message => throw message
  end.

(** [handleSignIn()]; the RASP run is one awaited call whose outcome the
    environment decides *)
Definition handleSignIn : M unit :=
  t ← get;
  let startTime := clock t in
  _ ← ((if isGiven (opt_script (options t)) then
         r ← await (ERunScript (default "" (opt_script (options t))));
         match r with
         | Accepted => pure tt
         | Rejected message => throw message
         end
       else
         throw "Signed-in mode requires a RASP script. Use --script path/to/signin.rasp")
        : M unit);
  t' ← get;
  _ ← modify (setSignInDuration (Some (clock t' - startTime)));
  sleep 3000.

(** the object built by [formatResults], without its echo of the
    configuration *)
Record Report := {
  success : bool;
  totalTests : nat;
  passedTests : nat;
  failedTests : nat;
  tests : list TestResult;
  reportSignInDuration : option Z;
}.

(** [a.slice(-n)] *)
Definition lastN {A} (n : nat) (a : list A) : list A := skipn (length a - n) a.

Definition withLogs (logs : list string) (r : TestResult) : TestResult :=
  {| testName := testName r; command := command r; passed := passed r;
     error := error r; expectedBeacons := expectedBeacons r;
     resultTimings := resultTimings r;
     resultDetectedContentType := resultDetectedContentType r;
     duration := duration r; playbackStarted := playbackStarted r;
     contentType := contentType r; beaconsReceivedList := beaconsReceivedList r;
     recentTelnetLogs := Some logs |}.

(** [formatResults(overrideSuccess = null)] *)
Definition formatResults (overrideSuccess : option bool) (t : Tester) : Report :=
  let passedTests := length (List.filter passed (testResults t)) in
  let totalTests := length (testResults t) in
  let success :=
    match overrideSuccess with
    | Some b => b
    | None => (passedTests =? totalTests)%nat && (0 <? totalTests)%nat
    end in
  let testsWithLogs :=
    map (fun test =>
           if negb (passed test) && (0 <? length (telnetLogBuffer t))%nat
           then withLogs (lastN 10 (telnetLogBuffer t)) test
           else test)
        (testResults t) in
  {| success := success; totalTests := totalTests; passedTests := passedTests;
     failedTests := totalTests - passedTests; tests := testsWithLogs;
     reportSignInDuration := signInDuration t |}.

(** the [try] block of [runTests] *)
Definition runTestsBody : M unit :=
  _ ← connectTelnet;
  t ← get;
  _ ← ((if isSignedIn t then handleSignIn else pure tt) : M unit);
  runDeepLinkTests.

(** [runTests()]: [try { ... } catch { return formatResults(false) }
    finally { disconnectTelnet() } return formatResults()] *)
Definition runTests : M Report := fun t env =>
  match runTestsBody t env with
  | Done _ t' rest =>
      let t' := issue EDisconnect t' in Done (formatResults None t') t' rest
  | Threw _ t' rest =>
      let t' := issue EDisconnect t' in Done (formatResults (Some false) t') t' rest
  | Starved => Starved
  end.

End Tester.

(* ===================================================================== *)
(** * JavaScript values, as [YAML.parse] returns them *)
(* ===================================================================== *)

Module JsValue.
Import Js.

Inductive Value :=
| VUndefined
| VNull
| VBool (b : bool)
| VNum (x : float)
| VStr (s : string)
| VArr (items : list Value)
| VObj (fields : list (string * Value)).

(** a computation that may end in a thrown [Error] *)
Inductive Completion (A : Type) :=
| Normal (a : A)
| Abrupt (message : string).
Arguments Normal {A} a.
Arguments Abrupt {A} message.

(** the number nearest to an integer *)
Definition ofZ (z : Z) : float := SF2Prim (binary_normalize prec emax z 0 false).

(** the integer a number is equal to, when it is one *)
Definition toInteger (x : float) : option Z :=
  match Prim2SF x with
  | S754_zero _ => Some 0
  | S754_finite s m e =>
      let z := if (0 <=? e) then Z.pos m * 2 ^ e
               else if (Z.pos m mod 2 ^ (- e) =? 0) then Z.pos m / 2 ^ (- e) else 0 in
      if (0 <=? e) || (Z.pos m mod 2 ^ (- e) =? 0)
      then Some (if s then - z else z) else None
  | _ => None
  end.

(** [Math.ceil] *)
Definition Math_ceil (x : float) : float :=
  match Prim2SF x with
  | S754_finite s m e =>
      if (0 <=? e) then x
      else
        let q := Z.pos m / 2 ^ (- e) in
        if (Z.pos m mod 2 ^ (- e) =? 0) then x
        else if s then PrimFloat.opp (ofZ q) else ofZ (q + 1)
  | _ => x
  end.

(** truthiness *)
Definition truthy (v : Value) : bool :=
  match v with
  | VUndefined | VNull => false
  | VBool b => b
  | VNum x => negb (PrimFloat.is_zero x || PrimFloat.is_nan x)
  | VStr s => negb (String.eqb s "")
  | VArr _ | VObj _ => true
  end.

(** [typeof v] *)
Definition typeof (v : Value) : string :=
  match v with
  | VUndefined => "undefined"
  | VNull | VArr _ | VObj _ => "object"
  | VBool _ => "boolean"
  | VNum _ => "number"
  | VStr _ => "string"
  end.

(** [v[key]] on a value that is neither [null] nor [undefined], for a key
    that is not the name of a method; a YAML mapping has no duplicate keys *)
Fixpoint lookupField (fields : list (string * Value)) (key : string) : Value :=
  match fields with
  | [] => VUndefined
  | (k, v) :: rest => if String.eqb k key then v else lookupField rest key
  end.

(** [v[key]]; reading a property of [null] or [undefined] is a [TypeError]
    (the message is V8's) *)
Definition getProp (v : Value) (key : string) : Completion Value :=
  match v with
  | VUndefined =>
      Abrupt ("Cannot read properties of undefined (reading '" ++ key ++ "')")
  | VNull => Abrupt ("Cannot read properties of null (reading '" ++ key ++ "')")
  | VObj fields => Normal (lookupField fields key)
  | VStr s =>
      Normal (if String.eqb key "length"
              then VNum (ofZ (Z.of_nat (String.length s))) else VUndefined)
  | VArr items =>
      Normal (if String.eqb key "length"
              then VNum (ofZ (Z.of_nat (length items))) else VUndefined)
  | VBool _ | VNum _ => Normal VUndefined
  end.

(** [Object.keys(v)] for an object or an array *)
Definition keys (v : Value) : list string :=
  match v with
  | VObj fields => map fst fields
  | VArr items => map (fun i => showZ (Z.of_nat i)) (seq 0 (length items))
  | _ => []
  end.

Section Conversions.

(** [Number::toString] on the finite numbers that are not integers of
    magnitude at most 2^53, and [StringToNumber]: both are the
    interpreter's, and are left open *)
Variable numberToStringOther : float -> string.
Variable stringToNumber : string -> float.

(** [Number::toString(x)], radix 10 *)
Definition numberToString (x : float) : string :=
  if PrimFloat.is_nan x then "NaN"
  else if PrimFloat.eqb x PrimFloat.infinity then "Infinity"
  else if PrimFloat.eqb x PrimFloat.neg_infinity then "-Infinity"
  else match toInteger x with
       | Some z => if (Z.abs z <=? 2 ^ 53) then showZ z else numberToStringOther x
       | None => numberToStringOther x
       end.

(** [String(v)]; an array joins its elements with commas, [null] and
    [undefined] elements giving the empty string *)
Fixpoint toString (v : Value) : string :=
  match v with
  | VUndefined => "undefined"
  | VNull => "null"
  | VBool b => if b then "true" else "false"
  | VNum x => numberToString x
  | VStr s => s
  | VArr items =>
      join "," (map (fun item => match item with
                                 | VUndefined | VNull => ""
                                 | _ => toString item
                                 end) items)
  | VObj _ => "[object Object]"
  end.

(** [Number(v)] *)
Definition toNumber (v : Value) : float :=
  match v with
  | VUndefined => PrimFloat.nan
  | VNull => 0%float
  | VBool b => if b then 1%float else 0%float
  | VNum x => x
  | VStr s => stringToNumber s
  | VArr _ | VObj _ => stringToNumber (toString v)
  end.

(** [a + b] *)
Definition add (a b : Value) : Value :=
  let isString v := match v with VStr _ | VArr _ | VObj _ => true | _ => false end in
  if isString a || isString b then VStr (toString a ++ toString b)
  else VNum (toNumber a + toNumber b)%float.

(** [a * b] *)
Definition mul (a b : Value) : Value := VNum (toNumber a * toNumber b)%float.

(** the value of a digit in radix 10 or 16 *)
Definition digitOf (radix : Z) (c : ascii) : option Z :=
  let n := Z.of_nat (nat_of_ascii c) in
  if isDigit c then Some (n - 48)
  else if (radix =? 16) && (97 <=? n) && (n <=? 102) then Some (n - 87)
  else if (radix =? 16) && (65 <=? n) && (n <=? 70) then Some (n - 55)
  else None.

(** the longest run of digits at the start of [s]: its value, and
    whether it is non-empty *)
Fixpoint readDigits (radix : Z) (s : string) (acc : Z) (seen : bool) : Z * bool :=
  match s with
  | EmptyString => (acc, seen)
  | String c s' =>
      match digitOf radix c with
      | Some d => readDigits radix s' (radix * acc + d) true
      | None => (acc, seen)
      end
  end.

(** [parseInt(v)] without a radix argument *)
Definition parseInt (v : Value) : float :=
  let s := dropWhile isSpace (toString v) in
  let negative := String.prefix "-" s in
  let s := if String.prefix "-" s || String.prefix "+" s
           then String.substring 1 (String.length s - 1) s else s in
  let hex := String.prefix "0x" s || String.prefix "0X" s in
  let s := if hex then String.substring 2 (String.length s - 2) s else s in
  let '(n, seen) := readDigits (if hex then 16 else 10) s 0 false in
  if seen then (if negative then PrimFloat.opp (ofZ n) else ofZ n)
  else PrimFloat.nan.

End Conversions.

End JsValue.

(* ===================================================================== *)
(** * lib/rasp-validator.js : class RaspValidator *)
(* ===================================================================== *)

Module RaspValidator.
Import Js JsValue.

Definition validStepTypes : list string := ["launch"; "press"; "text"; "pause"].

Definition validKeys : list string :=
  ["ok"; "up"; "down"; "left"; "right"; "home"; "back"; "replay"; "info";
   "backspace"; "search"; "enter"; "select"; "play"; "rev"; "fwd"].

(** [errors.push(message)] *)
Definition pushTo (errors : list string) (message : string) : list string :=
  (errors ++ [message])%list.

(** [s.match(/^[A-Za-z0-9]$/)] *)
Definition isSingleAlnum (s : string) : bool :=
  match s with
  | String c EmptyString => isAlnum c
  | _ => false
  end.

(** what [readFile] and [YAML.parse] hand to [validate] *)
Inductive Loaded :=
| FileNotFound                       (* error.code === 'ENOENT' *)
| LoadFailed (message : string)      (* any other read or parse error *)
| Parsed (script : Value).

Record ValidationResult := {
  valid : bool;
  errors : list string;
  stepCount : nat;
  estimatedDuration : float;
}.

Section Validator.

Variable numberToStringOther : float -> string.
Variable stringToNumber : string -> float.

Abbreviation toNumber := (JsValue.toNumber numberToStringOther stringToNumber).
Abbreviation add := (JsValue.add numberToStringOther stringToNumber).
Abbreviation mul := (JsValue.mul numberToStringOther stringToNumber).
Abbreviation parseInt := (JsValue.parseInt numberToStringOther).

(** [validateParams(params, errors)]; [params] is truthy here *)
Definition validateParams (params : Value) (errors : list string) : list string :=
  let field k := match getProp params k with Normal v => v | Abrupt _ => VUndefined end in
  let errors :=
    if truthy (field "rasp_version")
       && negb (String.eqb (typeof (field "rasp_version")) "number")
    then pushTo errors "rasp_version must be a number" else errors in
  let errors :=
    if truthy (field "default_keypress_wait")
       && negb (String.eqb (typeof (field "default_keypress_wait")) "number")
    then pushTo errors "default_keypress_wait must be a number" else errors in
  if truthy (field "channels")
     && negb (String.eqb (typeof (field "channels")) "object")
  then pushTo errors "channels must be an object" else errors.

(** the state threaded through [steps.forEach]: the shared [errors]
    array and the local [totalDuration] *)
Definition stepLabel (index : nat) : string :=
  "Step " ++ showZ (Z.of_nat index + 1).

(** the callback of [steps.forEach] in [validateSteps], at position
    [index] of [count] steps *)
Definition validateStep (defaultWait : Value) (count index : nat) (step : Value)
    (errors : list string) (totalDuration : Value)
    : list string * Completion Value :=
  let push msg := pushTo errors (stepLabel index ++ msg) in
  if negb (truthy step) || negb (String.eqb (typeof step) "object") then
    (push ": Must be an object", Normal totalDuration)
  else
    let stepKeys := keys step in
    if negb (length stepKeys =? 1)%nat then
      (push ": Must contain exactly one action", Normal totalDuration)
    else
      let stepType := hd "" stepKeys in
      let stepValue := match step with
                       | VObj fields => lookupField fields stepType
                       | VArr items => hd VUndefined items
                       | _ => VUndefined
                       end in
      if negb (arrayIncludes validStepTypes stepType) then
        (push (": Unknown step type " ++ quoted stepType), Normal totalDuration)
      else
        let isBadString :=
          negb (truthy stepValue) || negb (String.eqb (typeof stepValue) "string") in
        let afterSwitch : list string * Completion Value :=
          if String.eqb stepType "launch" then
            (if isBadString then push ": launch requires a string channel ID" else errors,
             Normal (add totalDuration (VNum 3)))
          else if String.eqb stepType "press" then
            (if isBadString then push ": press requires a string key name"
             else
               let key := match stepValue with VStr s => s | _ => "" end in
               if negb (arrayIncludes validKeys (toLowerCase key))
                  && negb (isSingleAlnum key)
               then push (": " ++ quoted key ++ " is not a valid key")
               else errors,
             Normal (add totalDuration (VNum 0.1)))
          else if String.eqb stepType "text" then
            let errors' :=
              if isBadString then push ": text requires a string value" else errors in
            match getProp stepValue "length" with
            | Abrupt message => (errors', Abrupt message)
            | Normal len => (errors', Normal (add totalDuration (mul len (VNum 0.05))))
            end
          else (* pause *)
            let pauseSeconds := parseInt stepValue in
            if PrimFloat.is_nan pauseSeconds || PrimFloat.ltb pauseSeconds 0 then
              (push ": pause requires a positive number of seconds", Normal totalDuration)
            else (errors, Normal (add totalDuration (VNum pauseSeconds))) in
        match afterSwitch with
        | (errors', Normal total) =>
            (errors',
             Normal (if (index <? count - 1)%nat then add total defaultWait else total))
        | thrown => thrown
        end.

(** [steps.forEach(...)]: a throwing callback ends the iteration *)
Fixpoint forEachStep (defaultWait : Value) (count index : nat) (steps : list Value)
    (errors : list string) (totalDuration : Value) : list string * Completion Value :=
  match steps with
  | [] => (errors, Normal totalDuration)
  | step :: rest =>
      match validateStep defaultWait count index step errors totalDuration with
      | (errors', Normal total) =>
          forEachStep defaultWait count (S index) rest errors' total
      | thrown => thrown
      end
  end.

(** [validateSteps(steps, errors, params = {})]: the [errors] array as
    the call leaves it, and the returned estimate or the thrown error *)
Definition validateSteps (steps : list Value) (errors : list string) (params : Value)
    : list string * Completion float :=
  let params := match params with VUndefined => VObj [] | _ => params end in
  match getProp params "default_keypress_wait" with
  | Abrupt message => (errors, Abrupt message)
  | Normal wait =>
      let defaultWait := if truthy wait then wait else VNum 1 in
      match forEachStep defaultWait (length steps) 0 steps errors (VNum 0) with
      | (errors', Normal total) => (errors', Normal (Math_ceil (toNumber total)))
      | (errors', Abrupt message) => (errors', Abrupt message)
      end
  end.

Definition mkResult (errors : list string) (stepCount : nat) (estimate : float)
    : ValidationResult :=
  {| valid := (length errors =? 0)%nat; errors := errors;
     stepCount := stepCount; estimatedDuration := estimate |}.

(** [validate(scriptPath)], given what loading the file produced *)
Definition validate (scriptPath : string) (loaded : Loaded) : ValidationResult :=
  match loaded with
  | FileNotFound => mkResult ["Script file not found: " ++ scriptPath] 0 0
  | LoadFailed message => mkResult ["Failed to parse YAML: " ++ message] 0 0
  | Parsed script =>
      if negb (truthy script) then
        {| valid := false; errors := ["Script file is empty or invalid YAML"];
           stepCount := 0; estimatedDuration := 0 |}
      else
        let prop k := match getProp script k with Normal v => v | Abrupt _ => VUndefined end in
        let errors :=
          if truthy (prop "params") then validateParams (prop "params") [] else [] in
        if negb (truthy (prop "steps")) then
          mkResult (pushTo errors ("Script must contain a " ++ quoted "steps" ++ " section")) 0 0
        else
          match prop "steps" with
          | VArr steps =>
              match validateSteps steps errors (prop "params") with
              | (errors', Normal estimate) => mkResult errors' (length steps) estimate
              | (errors', Abrupt message) =>
                  mkResult (pushTo errors' ("Failed to parse YAML: " ++ message))
                           (length steps) 0
              end
          | _ => mkResult (pushTo errors (quoted "steps" ++ " must be an array")) 0 0
          end
  end.

End Validator.

End RaspValidator.

(* ===================================================================== *)
(** * lib/rasp-runner.js : RaspRunner.enterText *)
(* ===================================================================== *)

Module RaspRunner.
Import Js.
Import Tester (Effect, EKeypress, ESleep, Reply, Accepted, Rejected).

(** a run of the runner's asynchronous code against a finite script of
    replies, one reply per suspension point ([issued] lists the requests
    and timers started so far) *)
Inductive Outcome :=
| Done (issued : list Effect) (rest : list Reply)
| Threw (message : string) (issued : list Effect) (rest : list Reply)
| Starved.

Definition hexDigit (n : nat) : ascii :=
  ascii_of_nat (if (n <? 10)%nat then 48 + n else 55 + n).

(** [encodeURIComponent(char)] for one ASCII character *)
Definition encodeURIComponent (c : ascii) : string :=
  let n := nat_of_ascii c in
  if isAlnum c || existsb (Ascii.eqb c) (list_ascii_of_string "-_.!~*'()")
  then String c EmptyString
  else String "%" (String (hexDigit (n / 16)) (String (hexDigit (n mod 16)) EmptyString)).



(** the loop [for (const char of actualText)]: one request per character,
    then a 50 ms timer *)
Fixpoint sendCharacters (actualText : string) (issued : list Effect) (env : list Reply)
    : Outcome :=
  match actualText with
  | EmptyString => Done issued env
  | String char rest =>
      let issued := (issued ++ [EKeypress ("Lit_" ++ encodeURIComponent char)%string])%list in
      match env with
      | [] => Starved
      | Rejected message :: env => Threw message issued env
      | Accepted :: env =>
          let issued := (issued ++ [ESleep 50])%list in
          match env with
          | [] => Starved
          | _ :: env => sendCharacters rest issued env
          end
      end
  end.


End RaspRunner.

(* ===================================================================== *)
(** * Reading a run: what was heard, and concrete runs *)
(* ===================================================================== *)

Module Runs.
Import Js Tester JsValue.

Definition defaultOptions : Options :=
  {| opt_content := "1234"; opt_type := "movie"; opt_wait := 30;
     opt_signedIn := false; opt_script := None; opt_launchOnly := false;
     opt_inputOnly := false; opt_expectBeacon := None |}.

(** a tester just constructed, at clock value 1000 *)
Definition freshTester : Tester := newTester defaultOptions 1000.

(** the categories the ['data'] handler adds for one chunk *)
Definition announced (data : string) : gset string :=
  beaconsReceived (onTelnetData data freshTester).

(** the categories added by the chunks of one turn, and of several *)
Definition heardIn (turn : Turn) : gset string :=
  ⋃ (map announced (arrived turn)).

Definition heard (turns : list Turn) : gset string :=
  ⋃ (map heardIn turns).

(** every required category is in the received set and not in the baseline *)
Definition allFresh (t : Tester) (initialBeacons : gset string)
    (expectedBeacons : list string) : bool :=
  forallb (isFresh t initialBeacons) expectedBeacons.

(** the success condition of the smart wait at one run of [checkBeacons]:
    [appLaunchFound && videoPlaybackFound] *)
Definition smartSatisfied (t : Tester) (initialBeacons : gset string)
    (expectedBeacons : list string) : bool :=
  (if arrayIncludes expectedBeacons "AppLaunchComplete"
   then isFresh t initialBeacons "AppLaunchComplete" else true)
  && fst (fst (checkVideo expectedBeacons initialBeacons t)).

(** both beacons of the VOD pair, or of the Live pair, are fresh *)
Definition vodPair (t : Tester) (initialBeacons : gset string) : bool :=
  isFresh t initialBeacons "VODStartInitiate"
  && isFresh t initialBeacons "VODStartComplete".

Definition livePair (t : Tester) (initialBeacons : gset string) : bool :=
  isFresh t initialBeacons "LiveStartInitiate"
  && isFresh t initialBeacons "LiveStartComplete".

(** two testers agree on the fields the ['data'] handler never writes *)
Definition sameFrame (t1 t2 : Tester) : Prop :=
  options t1 = options t2 /\ detectedContentType t1 = detectedContentType t2 /\
  testResults t1 = testResults t2 /\ signInDuration t1 = signInDuration t2 /\
  clock t1 = clock t2 /\ issued t1 = issued t2.

(** a turn in which nothing fails *)
Definition quiet (now : Z) (chunks : list string) : Turn :=
  {| arrived := chunks; reply := Accepted; resumedAt := now |}.

(** the script [launch: X, pause: 5, press: ok, text: ab], without a
    [params] section *)
Definition fourSteps : Value :=
  VObj [("steps",
         VArr [VObj [("launch", VStr "X")]; VObj [("pause", VNum 5)];
               VObj [("press", VStr "ok")]; VObj [("text", VStr "ab")]])].

(** a [text] step without a value, followed by a step of an unknown kind:
    the YAML document with the two steps [- text:] and [- invalid: x] *)
Definition nullTextThenUnknown : Value :=
  VObj [("steps", VArr [VObj [("text", VNull)]; VObj [("invalid", VStr "x")]])].

(** the Live pair completes before the launch beacon, the VOD pair with it *)
Definition liveThenVod : list Turn :=
  [ quiet 1500 ["LiveStartInitiate TimeBase(10 ms)"; "LiveStartComplete Duration(20 ms)"];
    quiet 2000 ["VODStartInitiate TimeBase(10 ms)"; "VODStartComplete Duration(20 ms)";
                "AppLaunchComplete Duration(2000 ms)"] ].

(** the warm-up of the input test when the launch beacon is delivered
    while the plain launch request is still awaited: key press, pause,
    launch request, then a poll timer that fires after the deadline *)
Definition beaconDuringLaunchRequest : list Turn :=
  [ quiet 1100 []; quiet 3100 [];
    quiet 3400 ["AppLaunchComplete Duration(2000 ms)"];
    quiet 33400 [] ].

(** a launch beacon, an unrelated beacon during the grace period, and
    poll timers every 500 ms *)
Definition graceRun : list Turn :=
  [ quiet 1500 ["AppLaunchComplete Duration(2000 ms)"]; quiet 2000 [];
    quiet 2500 ["VODStartComplete Duration(12 ms)"]; quiet 3000 [];
    quiet 3500 []; quiet 4000 [] ].

End Runs.


(* ===================================================================== *)
(** * lib/tester.js : sendEcpText *)
(* ===================================================================== *)

Module TesterText.
Import Js Tester.

(** [sendEcpText(text)]: one request per character, each followed by a
    100 ms timer; the first failed request is caught and ends the loop with
    [false] *)
Fixpoint sendEcpText (text : string) : M bool :=
match text with
| EmptyString => pure true
| String char rest =>
    r ← await (EKeypress ("Lit_" ++ RaspRunner.encodeURIComponent char));
    match r with
    | Accepted => _ ← sleep 100; sendEcpText rest
    | Rejected _ => pure false
    end
end.

End TesterText.

(* ===================================================================== *)
(** * lib/rasp-runner.js : RaspRunner.pressKey *)
(* ===================================================================== *)

Module RaspKeys.
Import Js.
Import Tester (Effect, EKeypress, ESleep, Reply, Accepted, Rejected).

(** the object literal [keyMappings] *)
Definition keyMappings : list (string * string) :=
[("ok", "Select"); ("up", "Up"); ("down", "Down"); ("left", "Left");
 ("right", "Right"); ("home", "Home"); ("back", "Back");
 ("replay", "InstantReplay"); ("info", "Info"); ("backspace", "Backspace");
 ("search", "Search"); ("enter", "Enter")].

Fixpoint ownEntry (entries : list (string * string)) (name : string) : option string :=
match entries with
| [] => None
| (k, v) :: rest => if String.eqb k name then Some v else ownEntry rest name
end.

(** [`${keyMappings[name]}`] for a name that is looked up after
    [toLowerCase]: an entry of the literal, or one of the two members with a
    lower-case name that the literal inherits from [Object.prototype] (the
    constructor function and the prototype object, as V8 prints them);
    every other name gives [undefined] *)
Definition mappedKey (name : string) : option string :=
match ownEntry keyMappings name with
| Some v => Some v
| None =>
    if String.eqb name "constructor" then Some "function Object() { [native code] }"
    else if String.eqb name "__proto__" then Some "[object Object]"
    else None
end.

(** [keyMappings[key.toLowerCase()] || key], as it is printed into the URL *)
Definition actualKey (key : string) : string :=
default key (mappedKey (toLowerCase key)).

(** [pressKey(key)] for a string [key]: one request, whose failure is thrown *)
Definition pressKey (key : string) (issued : list Effect) (env : list Reply)
  : RaspRunner.Outcome :=
let issued := (issued ++ [EKeypress (actualKey key)])%list in
match env with
| [] => RaspRunner.Starved
| Accepted :: env => RaspRunner.Done issued env
| Rejected message :: env => RaspRunner.Threw message issued env
end.

End RaspKeys.

(* ===================================================================== *)
(** * bin/roku-deep-link.js : the checks before a run *)
(* ===================================================================== *)

Module Cli.
Import Js.

(** [\d{1,3}] at the start of [s]: what is left after the longest run of at
    most three digits, when there is at least one.  What follows the group
    in the pattern is a dot or the end of the input, so taking fewer digits
    than the longest run can never lead to a match. *)
Definition matchOctet (s : string) : option string :=
match s with
| String a r1 =>
    if isDigit a then
      match r1 with
      | String b r2 =>
          if isDigit b then
            match r2 with
            | String c r3 => if isDigit c then Some r3 else Some r2
            | EmptyString => Some r2
            end
          else Some r1
      | EmptyString => Some r1
      end
    else None
| EmptyString => None
end.

(** a literal dot at the start of [s] *)
Definition matchDot (s : string) : option string :=
match s with
| String c rest => if Ascii.eqb c "." then Some rest else None
| EmptyString => None
end.

(** [/^\d{1,3}\.\d{1,3}\.\d{1,3}\.\d{1,3}$/.test(ip)] *)
Definition ipRegexTest (ip : string) : bool :=
match matchOctet ip with
| Some s1 =>
  match matchDot s1 with
  | Some s2 =>
    match matchOctet s2 with
    | Some s3 =>
      match matchDot s3 with
      | Some s4 =>
        match matchOctet s4 with
        | Some s5 =>
          match matchDot s5 with
          | Some s6 =>
            match matchOctet s6 with
            | Some EmptyString => true
            | _ => false
            end
          | None => false
          end
        | None => false
        end
      | None => false
      end
    | None => false
    end
  | None => false
  end
| None => false
end.

(** the two checks of the main action that end the process with code 1
    before any test runs: [--signed-in] without [--script], and an address
    the pattern refuses *)
Definition preflight (signedIn : bool) (script : option string) (ip : string) : bool :=
negb (signedIn && negb (Tester.isGiven script)) && ipRegexTest ip.

End Cli.

(* ===================================================================== *)
(** * Shapes used to state properties *)
(* ===================================================================== *)

Module Shapes.
Import Js Tester JsValue.

(** every character of [s] satisfies [f] *)
Fixpoint allChars (f : ascii -> bool) (s : string) : bool :=
match s with
| EmptyString => true
| String c s' => f c && allChars f s'
end.

(** a text of ASCII characters only: on these, a string of bytes and a
    JavaScript string are the same sequence of characters, and
    [toLowerCase] and [toUpperCase] change nothing but the 26 letters *)
Definition asciiText (s : string) : bool :=
allChars (fun c => (nat_of_ascii c <? 128)%nat) s.

(** the categories the ['data'] handler can add *)
Definition vocabulary : gset string :=
{[ "AppLaunchComplete"; "AppDialogInitiate"; "VODStartInitiate";
   "VODStartComplete"; "LiveStartInitiate"; "LiveStartComplete" ]}.

(** every category with a timing is in the received set *)
Definition timingsWithinReceived (t : Tester) : Prop :=
dom (beaconTimings t) ⊆ beaconsReceived t.

(** an outcome whose tester has at most [k] more test results than [t],
    the earlier ones untouched *)
Definition addsAtMost {A} (k : nat) (t : Tester) (o : Outcome A) : Prop :=
match o with
| Done _ t' _ | Threw _ t' _ =>
    options t' = options t /\
    exists added, testResults t' = (testResults t ++ added)%list /\ (length added <= k)%nat
| Starved => True
end.

(** the requests and timers of sending [text] one character at a time,
    each character followed by a pause of [ms] *)
Definition typed (ms : Z) (text : string) : list Effect :=
flat_map (fun c => [EKeypress ("Lit_" ++ RaspRunner.encodeURIComponent c); ESleep ms])
         (list_ascii_of_string text).

(** one to three decimal digits *)
Definition octetLike (s : string) : Prop :=
(1 <= String.length s <= 3)%nat /\ allChars isDigit s = true.

(** a step in the form the script grammar intends: a record with the one
    key launch, press, text or pause, whose value is a non-empty string
    (for press: a known key name or a single letter or digit), or for pause
    a value that [parseInt] reads as a number that is not negative *)
Definition wellFormedStep (numberToStringOther : float -> string) (step : Value) : Prop :=
match step with
| VObj [(kind, VStr s)] =>
    s <> "" /\
    (kind = "launch" \/ kind = "text" \/
     (kind = "press" /\
      (arrayIncludes RaspValidator.validKeys (toLowerCase s) = true
       \/ RaspValidator.isSingleAlnum s = true)) \/
     (kind = "pause" /\
      PrimFloat.is_nan (parseInt numberToStringOther (VStr s)) = false /\
      PrimFloat.ltb (parseInt numberToStringOther (VStr s)) 0 = false))
| VObj [(kind, v)] =>
    kind = "pause" /\
    PrimFloat.is_nan (parseInt numberToStringOther v) = false /\
    PrimFloat.ltb (parseInt numberToStringOther v) 0 = false
| _ => False
end.

(** a [params] section in the form the script grammar intends: absent, or
    a record whose [rasp_version] and [default_keypress_wait] are absent or
    numbers and whose [channels] is absent or a record *)
Definition wellFormedParams (params : Value) : Prop :=
match params with
| VUndefined => True
| VObj fields =>
    (lookupField fields "rasp_version" = VUndefined
     \/ exists x, lookupField fields "rasp_version" = VNum x) /\
    (lookupField fields "default_keypress_wait" = VUndefined
     \/ exists x, lookupField fields "default_keypress_wait" = VNum x) /\
    (lookupField fields "channels" = VUndefined
     \/ exists channels, lookupField fields "channels" = VObj channels)
| _ => False
end.

End Shapes.

(* ===================================================================== *)
(** * Properties *)
(* ===================================================================== *)

Import Js Tester JsValue Runs.

(** ** The validator *)

(** C7: the four-step script [launch: X, pause: 5, press: ok, text: ab]
    without params has four steps and an estimated duration of
    ceil(3 + 1 + 5 + 1 + 0.1 + 1 + 0.1) = 12 seconds: launch 3 s, pause its
    5 s, press 0.1 s, text 0.05 s for each of its two characters, and the
    default 1 s once for each of the three gaps; it is valid. *)
Theorem C7_four_step_estimate :
  forall (numberToStringOther : float -> string) (stringToNumber : string -> float)
         (scriptPath : string),
    let r := RaspValidator.validate numberToStringOther stringToNumber scriptPath
               (RaspValidator.Parsed fourSteps) in
    RaspValidator.stepCount r = 4%nat /\
    RaspValidator.estimatedDuration r
      = Math_ceil (3 + 1 + 5 + 1 + 0.1 + 1 + 2 * 0.05)%float /\
    RaspValidator.estimatedDuration r = 12%float /\
    RaspValidator.valid r = true /\
    RaspValidator.errors r = [].
Proof.
  intros f g p. vm_compute. repeat split; reflexivity.
Qed.

(** C8 (evaluation at the failing script): with a [text] step whose value is
    null followed by a step of unknown kind, validation reports the first
    step, then fails on reading the length of null; the second step, which
    on its own is reported as an unknown step type, is never examined. *)
Theorem C8_null_text_ends_validation :
  forall (numberToStringOther : float -> string) (stringToNumber : string -> float)
         (scriptPath : string),
    RaspValidator.errors
      (RaspValidator.validate numberToStringOther stringToNumber scriptPath
         (RaspValidator.Parsed nullTextThenUnknown))
    = ["Step 1: text requires a string value";
       "Failed to parse YAML: Cannot read properties of null (reading 'length')"]
    /\ fst (RaspValidator.validateStep numberToStringOther stringToNumber (VNum 1) 2 1
              (VObj [("invalid", VStr "x")]) [] (VNum 0))
       = ["Step 2: Unknown step type " ++ quoted "invalid"].
Proof.
  intros f g p. vm_compute. split; reflexivity.
Qed.

(** ** The run-level result *)

Lemma filter_all_length {A} (f : A -> bool) (l : list A) :
  (length (List.filter f l) =? length l)%nat = forallb f l.
Proof.
  assert (Hle : forall l', (length (List.filter f l') <= length l')%nat).
  { induction l' as [|x l' IH]; simpl; [lia|]. destruct (f x); simpl; lia. }
  induction l as [|a l IH]; simpl; [reflexivity|].
  destruct (f a); simpl; [exact IH|].
  apply Nat.eqb_neq. specialize (Hle l). lia.
Qed.

Lemma formatResults_success (t : Tester) :
  success (formatResults None t) = true <->
  testResults t <> [] /\ (forall r, In r (testResults t) -> passed r = true).
Proof.
  unfold formatResults; simpl. rewrite andb_true_iff, filter_all_length, forallb_forall.
  rewrite Nat.ltb_lt. split.
  - intros [Hall Hlen]. split; [|exact Hall].
    intros E. rewrite E in Hlen. simpl in Hlen. lia.
  - intros [Hne Hall]. split; [exact Hall|].
    destruct (testResults t); [congruence|simpl; lia].
Qed.

(** C10: when a run returns its report, the success flag is false if the
    run was aborted by an exception; otherwise it is true exactly when at
    least one phase result was accumulated and every accumulated result
    passed.  In particular a run without any phase result reports failure.
    A run that is not cut short by the end of the environment script always
    returns a report. *)
Theorem C10_run_success_flag :
  forall (t : Tester) (env : list Turn) (report : Report) (t' : Tester) (rest : list Turn),
    runTests t env = Done report t' rest ->
    ((exists message tb restb, runTestsBody t env = Threw message tb restb) ->
       success report = false) /\
    ((exists tb restb, runTestsBody t env = Done tt tb restb) ->
       (success report = true <->
        testResults t' <> [] /\ forall r, In r (testResults t') -> passed r = true)) /\
    (testResults t' = [] -> success report = false) /\
    totalTests report = length (testResults t') /\
    (runTestsBody t env <> Starved).
Proof.
  intros t env report t' rest H. unfold runTests in H.
  destruct (runTestsBody t env) as [[] tb restb|message tb restb|] eqn:E;
    [| |discriminate]; inversion H; subst; clear H.
  - split; [|split; [|split; [|split]]].
    + intros (m & tb' & r' & Habs). discriminate.
    + intros _. apply formatResults_success.
    + intros Hnil. destruct (success (formatResults None (issue EDisconnect tb))) eqn:S;
        [|reflexivity].
      apply formatResults_success in S. destruct S as [S _]. contradiction.
    + reflexivity.
    + discriminate.
  - split; [|split; [|split; [|split]]].
    + intros _. reflexivity.
    + intros (tb' & r' & Habs). discriminate.
    + intros _. reflexivity.
    + reflexivity.
    + discriminate.
Qed.

Lemma C10_run_success_flag_witness :
  exists report t' rest,
    runTests freshTester
      [quiet 1100 []; quiet 4100 [];
       {| arrived := []; reply := Rejected "refused"; resumedAt := 4200 |}]
    = Done report t' rest
    /\ totalTests report = length (testResults t')
    /\ (testResults t' = [] -> success report = false).
Proof.
  destruct (runTests freshTester
              [quiet 1100 []; quiet 4100 [];
               {| arrived := []; reply := Rejected "refused"; resumedAt := 4200 |}])
    as [report t' rest| |] eqn:E; [|vm_compute in E; discriminate ..].
  exists report, t', rest. split; [reflexivity|].
  pose proof (C10_run_success_flag _ _ _ _ _ E) as (_ & _ & Hnil & Htotal & _).
  split; assumption.
Defined.

(** ** Text entry of the RASP runner *)

Lemma prefix_split (p s : string) :
  String.prefix p s = true -> exists r, s = p ++ r.
Proof.
  revert s. induction p as [|a p IH]; intros s H.
  - exists s. reflexivity.
  - destruct s as [|b s]; [discriminate|]. simpl in H.
    destruct (ascii_dec a b) as [Hab|Hab]; [|discriminate]. subst b.
    destruct (IH _ H) as [r Hr]. exists r. subst s. reflexivity.
Qed.






(** ** The beacon stream monitor *)








Lemma if_nested {A} (a b : bool) (x y : A) :
  (if a then (if b then x else y) else y) = if a && b then x else y.
Proof. destruct a, b; reflexivity. Qed.

Lemma received_if_record (b : bool) (name : string) (timing : option Z) (t : Tester) :
  beaconsReceived (if b then recordBeacon name timing t else t)
  = (if b then {[name]} else ∅) ∪ beaconsReceived t.
Proof. destruct b; simpl; set_solver. Qed.

Lemma received_if_add (b : bool) (name : string) (t : Tester) :
  beaconsReceived
    (if b then setBeacons ({[name]} ∪ beaconsReceived t) (beaconTimings t) t else t)
  = (if b then {[name]} else ∅) ∪ beaconsReceived t.
Proof. destruct b; simpl; set_solver. Qed.

(** the received set after one chunk, as a union *)
Lemma received_after_chunk (data : string) (t : Tester) :
  beaconsReceived (onTelnetData data t) =
  match trim data with
  | EmptyString => beaconsReceived t
  | logData =>
      (if includes logData "LiveStartComplete" then {["LiveStartComplete"]} else ∅) ∪
      ((if includes logData "LiveStartInitiate" then {["LiveStartInitiate"]} else ∅) ∪
       ((if includes logData "VODStartComplete" then {["VODStartComplete"]} else ∅) ∪
        ((if includes logData "VODStartInitiate" then {["VODStartInitiate"]} else ∅) ∪
         ((if includes logData "AppDialogInitiate" then {["AppDialogInitiate"]} else ∅) ∪
          ((if includes logData "AppLaunchComplete"
               && (includes logData "Duration(" && includes logData "ms)")
            then {["AppLaunchComplete"]} else ∅) ∪ beaconsReceived t)))))
  end.
Proof.
  unfold onTelnetData. destruct (trim data) as [|c s]; [reflexivity|].
  cbv zeta. rewrite !received_if_record, received_if_add, if_nested, received_if_record.
  reflexivity.
Qed.

(** what the handler does to the received set depends on the chunk only *)
Lemma beaconsReceived_onTelnetData (data : string) (t : Tester) :
  beaconsReceived (onTelnetData data t) = beaconsReceived t ∪ announced data.
Proof.
  unfold announced. rewrite !received_after_chunk.
  destruct (trim data) as [|c s]; [set_solver|].
  cbv zeta. cbn [beaconsReceived freshTester newTester].
  rewrite (right_id_L ∅ (∪)), (comm_L (∪) (beaconsReceived t)).
  rewrite <- !(assoc_L (∪)). reflexivity.
Qed.

Lemma elem_of_if_singleton (b : bool) (x y : string) :
  x ∈ (if b then {[y]} else ∅ : gset string) <-> b = true /\ x = y.
Proof. destruct b; set_solver. Qed.




(** ** Delivering chunks and polling *)

Lemma sameFrame_refl (t : Tester) : sameFrame t t.
Proof. repeat split. Qed.

Lemma sameFrame_trans (t1 t2 t3 : Tester) :
  sameFrame t1 t2 -> sameFrame t2 t3 -> sameFrame t1 t3.
Proof. unfold sameFrame. intuition congruence. Qed.

Lemma sameFrame_if (b : bool) (t1 t2 t : Tester) :
  sameFrame t1 t -> sameFrame t2 t -> sameFrame (if b then t1 else t2) t.
Proof. destruct b; trivial. Qed.

Lemma sameFrame_recordBeacon (name : string) (timing : option Z) (t : Tester) :
  sameFrame (recordBeacon name timing t) t.
Proof. repeat split. Qed.

Lemma onTelnetData_frame (data : string) (t : Tester) :
  sameFrame (onTelnetData data t) t.
Proof.
  unfold onTelnetData. destruct (trim data) as [|c s]; [apply sameFrame_refl|].
  cbv zeta.
  repeat (first [ apply sameFrame_if | apply sameFrame_refl
                | eapply sameFrame_trans; [apply sameFrame_recordBeacon|]
                | match goal with
                  | |- sameFrame (setBeacons _ _ ?u) _ =>
                      apply (sameFrame_trans _ u); [repeat split|]
                  | |- sameFrame (pushLog _ ?u) _ => repeat split
                  end ]).
Qed.

Lemma fold_onTelnetData_frame (chunks : list string) (t : Tester) :
  sameFrame (fold_left (fun t d => onTelnetData d t) chunks t) t.
Proof.
  revert t. induction chunks as [|d chunks IH]; intros t; simpl.
  - apply sameFrame_refl.
  - eapply sameFrame_trans; [apply IH|apply onTelnetData_frame].
Qed.

Lemma fold_onTelnetData_received (chunks : list string) (t : Tester) :
  beaconsReceived (fold_left (fun t d => onTelnetData d t) chunks t)
  = beaconsReceived t ∪ ⋃ (map announced chunks).
Proof.
  revert t. induction chunks as [|d chunks IH]; intros t; simpl.
  - set_solver.
  - rewrite IH, beaconsReceived_onTelnetData. set_solver.
Qed.

Lemma beaconsReceived_deliver (turn : Turn) (t : Tester) :
  beaconsReceived (deliver turn t) = beaconsReceived t ∪ heardIn turn.
Proof. unfold deliver, heardIn. simpl. apply fold_onTelnetData_received. Qed.

Lemma clock_deliver (turn : Turn) (t : Tester) : clock (deliver turn t) = resumedAt turn.
Proof. reflexivity. Qed.

Lemma testResults_deliver (turn : Turn) (t : Tester) :
  testResults (deliver turn t) = testResults t.
Proof. unfold deliver. simpl. apply fold_onTelnetData_frame. Qed.

Lemma options_deliver (turn : Turn) (t : Tester) : options (deliver turn t) = options t.
Proof. unfold deliver. simpl. apply fold_onTelnetData_frame. Qed.

Lemma issued_deliver (turn : Turn) (t : Tester) : issued (deliver turn t) = issued t.
Proof. unfold deliver. simpl. apply fold_onTelnetData_frame. Qed.

Lemma beaconsReceived_tick (turn : Turn) (t : Tester) :
  beaconsReceived (tick turn t) = beaconsReceived t ∪ heardIn turn.
Proof. unfold tick. rewrite beaconsReceived_deliver. reflexivity. Qed.

Lemma ticks_app (p q : list Turn) (t : Tester) : ticks (p ++ q) t = ticks q (ticks p t).
Proof. unfold ticks. apply fold_left_app. Qed.

Lemma beaconsReceived_ticks (turns : list Turn) (t : Tester) :
  beaconsReceived (ticks turns t) = beaconsReceived t ∪ heard turns.
Proof.
  revert t. induction turns as [|turn turns IH]; intros t.
  - unfold heard. simpl. set_solver.
  - change (ticks (turn :: turns) t) with (ticks turns (tick turn t)).
    rewrite IH, beaconsReceived_tick. unfold heard. simpl. set_solver.
Qed.

Lemma allFound_allFresh (t : Tester) (B : gset string) (expected : list string) :
  (length (List.filter (isFresh t B) expected) =? length expected)%nat
  = allFresh t B expected.
Proof. apply filter_all_length. Qed.

Lemma filter_all {A} (f : A -> bool) (l : list A) :
  forallb f l = true -> List.filter f l = l.
Proof.
  induction l as [|a l IH]; simpl; [reflexivity|].
  destruct (f a); simpl; [|discriminate]. intros H. rewrite IH; trivial.
Qed.

(** ** The exact-mode wait *)

(** once set, the grace start is never written again, whatever the tester
    holds at a later run of [checkBeacons] *)
Lemma grace_start_kept (expected : list string) (B : gset string)
    (startTime timeout g : Z) (t : Tester) :
  g <> 0 ->
  snd (checkBeaconsExact expected B startTime timeout (Some g) t) = Some g.
Proof.
  intros Hg. unfold checkBeaconsExact.
  assert (isSet (Some g) = true) as Hs
    by (simpl; apply negb_true_iff, Z.eqb_neq, Hg).
  rewrite Hs.
  repeat match goal with |- context [if ?b then _ else _] => destruct b end;
    reflexivity.
Qed.

(** a passing exact-mode poll: the turns it used, the first run that saw
    every category fresh, and the time that passed since *)
Lemma pollExact_passed (expected : list string) (B : gset string) (startTime timeout : Z) :
  forall (env : list Turn) (foundAt : option Z) (t : Tester)
         (r : WaitResult) (t' : Tester) (rest : list Turn),
    0 < clock t -> Forall (fun turn => 0 < resumedAt turn) env ->
    pollExact expected B startTime timeout foundAt t env = Done r t' rest ->
    w_passed r = true ->
    exists used,
      env = (used ++ rest)%list /\ t' = ticks used t /\
      w_duration r = clock t' - startTime /\
      w_beaconsReceived r = expected /\
      allFresh t' B expected = true /\
      if isSet foundAt then BEACON_GRACE_PERIOD <= clock t' - default 0 foundAt
      else exists before after,
          used = (before ++ after)%list /\
          allFresh (ticks before t) B expected = true /\
          (forall p q, before = (p ++ q)%list -> q <> [] ->
                       allFresh (ticks p t) B expected = false) /\
          BEACON_GRACE_PERIOD <= clock t' - clock (ticks before t).
Proof.
  induction env as [|turn env IH]; intros foundAt t r t' rest Hpos Henv Hrun Hpass.
  - simpl in Hrun. unfold checkBeaconsExact in Hrun.
    rewrite allFound_allFresh in Hrun.
    destruct (allFresh t B expected) eqn:Hall; simpl in Hrun.
    + destruct (isSet foundAt) eqn:Hset.
      * destruct (BEACON_GRACE_PERIOD <=? clock t - default 0 foundAt) eqn:Hg.
        -- inversion Hrun; subst; clear Hrun. exists []. simpl.
           rewrite (filter_all _ _ Hall). repeat split; trivial. lia.
        -- destruct (timeout <=? clock t - startTime); [|discriminate].
           inversion Hrun; subst. discriminate.
      * simpl in Hrun.
        destruct (BEACON_GRACE_PERIOD <=? clock t - clock t) eqn:Hg;
          [unfold BEACON_GRACE_PERIOD in Hg; lia|].
        destruct (timeout <=? clock t - startTime); [|discriminate].
        inversion Hrun; subst. discriminate.
    + destruct (timeout <=? clock t - startTime); [|discriminate].
      inversion Hrun; subst. discriminate.
  - simpl in Hrun. unfold checkBeaconsExact in Hrun.
    rewrite allFound_allFresh in Hrun.
    inversion Henv as [|? ? Hturn Henv']; subst.
    assert (Hpos' : 0 < clock (tick turn t)) by exact Hturn.
    destruct (allFresh t B expected) eqn:Hall; simpl in Hrun.
    + destruct (isSet foundAt) eqn:Hset.
      * destruct (BEACON_GRACE_PERIOD <=? clock t - default 0 foundAt) eqn:Hg.
        -- inversion Hrun; subst; clear Hrun. exists []. simpl.
           rewrite (filter_all _ _ Hall). repeat split; trivial. lia.
        -- destruct (timeout <=? clock t - startTime);
             [inversion Hrun; subst; discriminate|].
           destruct (IH _ _ _ _ _ Hpos' Henv' Hrun Hpass)
             as (used & -> & -> & Hd & Hb & Hf & Hgrace).
           rewrite Hset in Hgrace.
           exists (turn :: used). repeat split; trivial.
      * simpl in Hrun.
        destruct (BEACON_GRACE_PERIOD <=? clock t - clock t) eqn:Hg;
          [unfold BEACON_GRACE_PERIOD in Hg; lia|].
        destruct (timeout <=? clock t - startTime);
          [inversion Hrun; subst; discriminate|].
        destruct (IH _ _ _ _ _ Hpos' Henv' Hrun Hpass)
          as (used & -> & -> & Hd & Hb & Hf & Hgrace).
        assert (isSet (Some (clock t)) = true) as Hs
          by (simpl; apply negb_true_iff, Z.eqb_neq; lia).
        rewrite Hs in Hgrace. simpl in Hgrace.
        exists (turn :: used). repeat split; trivial.
        exists [], (turn :: used). repeat split; trivial.
        intros p q Hpq Hq. destruct p; [simpl in Hpq; congruence|discriminate].
    + destruct (timeout <=? clock t - startTime);
        [inversion Hrun; subst; discriminate|].
      destruct (IH _ _ _ _ _ Hpos' Henv' Hrun Hpass)
        as (used & -> & -> & Hd & Hb & Hf & Hgrace).
      exists (turn :: used). repeat split; trivial.
      destruct (isSet foundAt); [exact Hgrace|].
      destruct Hgrace as (before & after & -> & Hfirst & Hnone & Hg).
      exists (turn :: before), after. repeat split; trivial.
      intros p q Hpq Hq. destruct p as [|turn' p].
      * exact Hall.
      * simpl in Hpq. inversion Hpq; subst. apply (Hnone p q); trivial.
Qed.

(** the run of [checkBeacons] that first sees every category fresh records
    its own clock value as the grace start *)
Lemma grace_start_recorded (expected : list string) (B : gset string)
    (startTime timeout : Z) (t : Tester) :
  allFresh t B expected = true ->
  snd (checkBeaconsExact expected B startTime timeout None t) = Some (clock t).
Proof.
  intros Hall. unfold checkBeaconsExact. rewrite allFound_allFresh, Hall. simpl.
  repeat match goal with |- context [if ?b then _ else _] => destruct b end;
    reflexivity.
Qed.

(** C2: when an exact-mode wait returns passed=true, there is a first run
    of [checkBeacons] at which every required category was in the received
    set and not in the baseline; that run recorded its clock value as the
    grace start, no later run overwrites a recorded grace start whatever
    has arrived in the meantime, at least 2000 ms lie between that instant
    and the return, and the reported duration is the time elapsed since the
    wait began. *)
Theorem C2_exact_wait_grace_period :
  forall (testName : string) (expected : list string) (timeout : Z)
         (t : Tester) (env : list Turn)
         (r : WaitResult) (t' : Tester) (rest : list Turn),
    0 < clock t ->
    Forall (fun turn => 0 < resumedAt turn) env ->
    waitForBeacons testName expected timeout t env = Done r t' rest ->
    w_passed r = true ->
    exists before after,
      env = (before ++ after ++ rest)%list /\
      allFresh (ticks before t) (beaconsReceived t) expected = true /\
      (forall p q, before = (p ++ q)%list -> q <> [] ->
                   allFresh (ticks p t) (beaconsReceived t) expected = false) /\
      snd (checkBeaconsExact expected (beaconsReceived t) (clock t) timeout None
             (ticks before t)) = Some (clock (ticks before t)) /\
      (forall (later : Tester) (g : Z),
          g <> 0 ->
          snd (checkBeaconsExact expected (beaconsReceived t) (clock t) timeout
                 (Some g) later) = Some g) /\
      t' = ticks after (ticks before t) /\
      2000 <= clock t' - clock (ticks before t) /\
      w_duration r = clock t' - clock t.
Proof.
  intros testName expected timeout t env r t' rest Hpos Henv Hrun Hpass.
  unfold waitForBeacons in Hrun.
  destruct (pollExact_passed _ _ _ _ _ _ _ _ _ _ Hpos Henv Hrun Hpass)
    as (used & -> & -> & Hd & _ & _ & before & after & -> & Hfirst & Hnone & Hg).
  exists before, after. rewrite <- app_assoc, ticks_app.
  rewrite ticks_app in Hd, Hg.
  split; [reflexivity|]. split; [exact Hfirst|]. split; [exact Hnone|].
  split; [apply grace_start_recorded, Hfirst|].
  split; [intros later g Hg0; apply grace_start_kept, Hg0|].
  split; [reflexivity|]. split; [exact Hg|exact Hd].
Qed.

Lemma C2_exact_wait_grace_period_witness :
  exists r t' rest before after,
    waitForBeacons "Normal Launch" ["AppLaunchComplete"] 30000 freshTester graceRun
    = Done r t' rest
    /\ graceRun = (before ++ after ++ rest)%list
    /\ 2000 <= clock t' - clock (ticks before freshTester)
    /\ w_duration r = clock t' - clock freshTester.
Proof.
  destruct (waitForBeacons "Normal Launch" ["AppLaunchComplete"] 30000 freshTester graceRun)
    as [r t' rest| |] eqn:E; [|vm_compute in E; discriminate ..].
  assert (Hpass : w_passed r = true)
    by (vm_compute in E; inversion E; reflexivity).
  assert (Hpos : 0 < clock freshTester) by reflexivity.
  assert (Henv : Forall (fun turn => 0 < resumedAt turn) graceRun)
    by (unfold graceRun; repeat constructor).
  destruct (C2_exact_wait_grace_period _ _ _ _ _ _ _ _ Hpos Henv E Hpass)
    as (before & after & Henv' & _ & _ & _ & _ & _ & Hg & Hd).
  exists r, t', rest, before, after. repeat split; assumption.
Defined.

(** what an exact-mode wait reports when it does not pass: the deadline was
    reached, the found list holds the fresh categories, and the list after
    [Missing:] holds the required categories that are not in the received
    set, whether or not they are in the baseline *)
Lemma pollExact_timed_out (expected : list string) (B : gset string)
    (startTime timeout : Z) :
  forall (env : list Turn) (foundAt : option Z) (t : Tester)
         (r : WaitResult) (t' : Tester) (rest : list Turn),
    pollExact expected B startTime timeout foundAt t env = Done r t' rest ->
    w_passed r = false ->
    timeout <= clock t' - startTime /\
    r = {| w_passed := false; w_duration := clock t' - startTime;
           w_error :=
             Some ("Timeout after " ++ showZ (clock t' - startTime) ++ "ms. Missing: "
                   ++ join ", "
                        (List.filter
                           (fun beacon => negb (bool_decide (beacon ∈ beaconsReceived t')))
                           expected));
           w_playbackStarted := None; w_contentType := None;
           w_beaconsReceived := List.filter (isFresh t' B) expected |}.
Proof.
  induction env as [|turn env IH]; intros foundAt t r t' rest Hrun Hfail;
    simpl in Hrun; unfold checkBeaconsExact in Hrun;
    destruct (timeout <=? clock t - startTime) eqn:Hlate;
    repeat match type of Hrun with
           | context [if ?b then _ else _] => destruct b
           end;
    try discriminate;
    try (inversion Hrun; subst; simpl in Hfail; discriminate);
    try (inversion Hrun; subst; split; [apply Z.leb_le, Hlate|reflexivity]).
  all: eapply IH; eassumption.
Qed.

(** C5 (evaluation at the failing run): the launch beacon is delivered
    while the plain launch request of the input-test warm-up is awaited, so
    it is part of the baseline of the wait that follows.  The wait times
    out: AppLaunchComplete is required and was not freshly observed, the
    found list is empty, and the list after [Missing:] is empty too. *)
Theorem C5_stale_beacon_not_listed_missing :
  exists t' rest,
    let t := deliver (quiet 3400 ["AppLaunchComplete Duration(2000 ms)"])
               (clearBeacons freshTester) in
    beaconsReceived t = {["AppLaunchComplete"]} /\
    waitForBeacons "Normal Launch" ["AppLaunchComplete"] 30000 t [quiet 33400 []]
    = Done {| w_passed := false; w_duration := 30000;
              w_error := Some "Timeout after 30000ms. Missing: ";
              w_playbackStarted := None; w_contentType := None;
              w_beaconsReceived := [] |} t' rest /\
    isFresh t' (beaconsReceived t) "AppLaunchComplete" = false /\
    List.filter (fun b => negb (isFresh t' (beaconsReceived t) b)) ["AppLaunchComplete"]
    = ["AppLaunchComplete"] /\
    (exists t'' rest'',
        runInputTest freshTester beaconDuringLaunchRequest = Done tt t'' rest''
        /\ testResults t'' = []).
Proof.
  eexists _, _. cbv zeta.
  split; [vm_compute; reflexivity|].
  split; [vm_compute; reflexivity|].
  split; [vm_compute; reflexivity|].
  split; [vm_compute; reflexivity|].
  eexists _, _. split; vm_compute; reflexivity.
Qed.

(** ** Freshness *)

Lemma isFresh_ext (t1 t2 : Tester) (B : gset string) (b : string) :
  beaconsReceived t1 = beaconsReceived t2 -> isFresh t1 B b = isFresh t2 B b.
Proof. unfold isFresh. intros ->. reflexivity. Qed.

Lemma isFresh_true (t : Tester) (B : gset string) (b : string) :
  isFresh t B b = true <-> b ∈ beaconsReceived t /\ b ∉ B.
Proof.
  unfold isFresh. rewrite andb_true_iff, negb_true_iff, bool_decide_eq_true,
    bool_decide_eq_false. reflexivity.
Qed.

Lemma isFresh_baseline (t : Tester) (B : gset string) (b : string) :
  b ∈ B -> isFresh t B b = false.
Proof.
  intros H. destruct (isFresh t B b) eqn:E; [|reflexivity].
  apply isFresh_true in E. tauto.
Qed.

Lemma isFresh_mono (t1 t2 : Tester) (B : gset string) (b : string) :
  beaconsReceived t1 ⊆ beaconsReceived t2 ->
  isFresh t1 B b = true -> isFresh t2 B b = true.
Proof. rewrite !isFresh_true. set_solver. Qed.

Lemma checkVideo_ext (expected : list string) (B : gset string) (t1 t2 : Tester) :
  beaconsReceived t1 = beaconsReceived t2 ->
  checkVideo expected B t1 = checkVideo expected B t2.
Proof.
  intros H. unfold checkVideo.
  rewrite !(isFresh_ext t1 t2 B _ H). reflexivity.
Qed.

Lemma smartSatisfied_ext (expected : list string) (B : gset string) (t1 t2 : Tester) :
  beaconsReceived t1 = beaconsReceived t2 ->
  smartSatisfied t1 B expected = smartSatisfied t2 B expected.
Proof.
  intros H. unfold smartSatisfied.
  rewrite (checkVideo_ext _ _ _ _ H), (isFresh_ext t1 t2 B _ H). reflexivity.
Qed.

(** the content type computed by one run of [checkBeacons]: VOD first *)
Lemma checkVideo_contentType (expected : list string) (B : gset string) (t : Tester) :
  arrayIncludes expected "VideoPlaybackStart" = true ->
  checkVideo expected B t
  = if vodPair t B then (true, true, Some VOD)
    else if livePair t B then (true, true, Some Live)
    else (false, false, None).
Proof. intros H. unfold checkVideo, vodPair, livePair. rewrite H. reflexivity. Qed.

(** ** The smart wait *)

Lemma checkBeaconsSmart_received (expected : list string) (B : gset string)
    (startTime timeout : Z) (t : Tester) :
  beaconsReceived (snd (checkBeaconsSmart expected B startTime timeout t))
  = beaconsReceived t.
Proof.
  unfold checkBeaconsSmart.
  destruct (checkVideo expected B t) as [[found started] [c|]];
    repeat match goal with |- context [if ?b then _ else _] => destruct b end;
    reflexivity.
Qed.

Lemma checkBeaconsSmart_result (expected : list string) (B : gset string)
    (startTime timeout : Z) (t : Tester) :
  match fst (checkBeaconsSmart expected B startTime timeout t) with
  | Some r =>
      w_passed r = smartSatisfied t B expected /\
      (w_passed r = true -> w_contentType r = snd (checkVideo expected B t))
  | None => smartSatisfied t B expected = false
  end.
Proof.
  unfold checkBeaconsSmart, smartSatisfied.
  destruct (checkVideo expected B t) as [[found started] c]. simpl.
  destruct ((if arrayIncludes expected "AppLaunchComplete"
             then isFresh t B "AppLaunchComplete" else true) && found) eqn:E.
  - simpl. split; [reflexivity|]. reflexivity.
  - destruct (timeout <=? clock t - startTime); simpl.
    + split; [reflexivity|discriminate].
    + reflexivity.
Qed.

(** a smart-mode poll that returns: the turns it used, the received set it
    ended on, and the runs of [checkBeacons] before the last *)
Lemma pollSmart_done (expected : list string) (B : gset string) (startTime timeout : Z) :
  forall (env : list Turn) (t : Tester) (r : WaitResult) (t' : Tester) (rest : list Turn),
    pollSmart expected B startTime timeout t env = Done r t' rest ->
    exists used,
      env = (used ++ rest)%list /\
      beaconsReceived t' = beaconsReceived (ticks used t) /\
      w_passed r = smartSatisfied t' B expected /\
      (w_passed r = true -> w_contentType r = snd (checkVideo expected B t')) /\
      (forall p q, used = (p ++ q)%list -> q <> [] ->
                   smartSatisfied (ticks p t) B expected = false).
Proof.
  induction env as [|turn env IH]; intros t r t' rest Hrun; simpl in Hrun;
    pose proof (checkBeaconsSmart_result expected B startTime timeout t) as Hres;
    pose proof (checkBeaconsSmart_received expected B startTime timeout t) as Hrec;
    destruct (checkBeaconsSmart expected B startTime timeout t) as [[r0|] t1];
    simpl in Hres, Hrec; try discriminate.
  - inversion Hrun; subst. exists []. simpl.
    rewrite (smartSatisfied_ext _ _ _ _ Hrec), (checkVideo_ext _ _ _ _ Hrec).
    destruct Hres as [H1 H2]. repeat split; trivial.
    intros p q Hpq Hq. destruct p; simpl in Hpq; congruence.
  - inversion Hrun; subst. exists []. simpl.
    rewrite (smartSatisfied_ext _ _ _ _ Hrec), (checkVideo_ext _ _ _ _ Hrec).
    destruct Hres as [H1 H2]. repeat split; trivial.
    intros p q Hpq Hq. destruct p; simpl in Hpq; congruence.
  - destruct (IH _ _ _ _ Hrun) as (used & -> & Hrcv & Hp & Hc & Hnone).
    assert (Hsame : forall p, beaconsReceived (ticks p (tick turn t1))
                              = beaconsReceived (ticks (turn :: p) t)).
    { intros p. change (ticks (turn :: p) t) with (ticks p (tick turn t)).
      rewrite !beaconsReceived_ticks, !beaconsReceived_tick, Hrec. reflexivity. }
    exists (turn :: used). split; [reflexivity|].
    split; [rewrite Hrcv; apply Hsame|].
    split; [exact Hp|]. split; [exact Hc|].
    intros p q Hpq Hq. destruct p as [|turn' p].
    + exact Hres.
    + simpl in Hpq. inversion Hpq; subst.
      rewrite <- (smartSatisfied_ext _ _ _ _ (Hsame p)). apply (Hnone p q); trivial.
Qed.

Lemma received_ticks_mono (p q : list Turn) (t : Tester) :
  beaconsReceived (ticks p t) ⊆ beaconsReceived (ticks (p ++ q) t).
Proof. rewrite ticks_app, (beaconsReceived_ticks q). set_solver. Qed.

(** C1 (as the code has it): every run of [checkBeacons] recomputes the
    content type from the received set and the baseline, the VOD pair
    first.  A passing smart wait that requires video reports the content
    type of its last run: VOD when the VOD pair is fresh then, Live when
    only the Live pair is.  If the VOD pair was complete at any earlier run
    the result is VOD; and when the launch beacon is not required, no pair
    was complete at any earlier run, so the pair completed first decides. *)
Theorem C1_smart_content_type :
  forall (testName : string) (expected : list string) (timeout : Z)
         (t : Tester) (env : list Turn)
         (r : WaitResult) (t' : Tester) (rest : list Turn),
    arrayIncludes expected "VideoPlaybackStart" = true ->
    waitForBeaconsWithSmartDetection testName expected timeout t env = Done r t' rest ->
    w_passed r = true ->
    let B := beaconsReceived t in
    w_contentType r = (if vodPair t' B then Some VOD
                       else if livePair t' B then Some Live else None) /\
    vodPair t' B || livePair t' B = true /\
    (forall before after,
        env = (before ++ after ++ rest)%list ->
        vodPair (ticks before t) B = true -> w_contentType r = Some VOD) /\
    (arrayIncludes expected "AppLaunchComplete" = false ->
     forall before after,
       env = (before ++ after ++ rest)%list -> after <> [] ->
       vodPair (ticks before t) B = false /\ livePair (ticks before t) B = false).
Proof.
  intros testName expected timeout t env r t' rest Hvideo Hrun Hpass B.
  unfold waitForBeaconsWithSmartDetection in Hrun.
  destruct (pollSmart_done _ _ _ _ _ _ _ _ _ Hrun)
    as (used & -> & Hrcv & Hsat & Hc & Hnone).
  fold B in Hsat, Hc, Hnone.
  specialize (Hc Hpass). rewrite Hpass in Hsat. symmetry in Hsat.
  rewrite (checkVideo_contentType _ _ _ Hvideo) in Hc.
  unfold smartSatisfied in Hsat. rewrite (checkVideo_contentType _ _ _ Hvideo) in Hsat.
  apply andb_true_iff in Hsat as [Hlaunch Hfound].
  assert (Hused : forall before after,
             (used ++ rest)%list = (before ++ after ++ rest)%list ->
             used = (before ++ after)%list).
  { intros before after H. rewrite app_assoc in H. apply app_inv_tail in H. exact H. }
  split; [|split; [|split]].
  - rewrite Hc. destruct (vodPair t' B); [reflexivity|].
    destruct (livePair t' B); reflexivity.
  - destruct (vodPair t' B); [reflexivity|].
    destruct (livePair t' B); [reflexivity|]. simpl in Hfound. discriminate.
  - intros before after Henv Hvod. apply Hused in Henv. subst used.
    assert (Hvod' : vodPair t' B = true).
    { unfold vodPair in *. apply andb_true_iff in Hvod as [H1 H2].
      apply andb_true_iff. split.
      - apply (isFresh_mono (ticks before t)); [|exact H1].
        rewrite Hrcv. apply received_ticks_mono.
      - apply (isFresh_mono (ticks before t)); [|exact H2].
        rewrite Hrcv. apply received_ticks_mono. }
    rewrite Hc, Hvod'. reflexivity.
  - intros Hno before after Henv Hafter. apply Hused in Henv. subst used.
    specialize (Hnone before after eq_refl Hafter).
    unfold smartSatisfied in Hnone. rewrite Hno in Hnone.
    rewrite (checkVideo_contentType _ _ _ Hvideo) in Hnone. simpl in Hnone.
    destruct (vodPair (ticks before t) B); [discriminate|].
    destruct (livePair (ticks before t) B); [discriminate|]. split; reflexivity.
Qed.

Lemma C1_smart_content_type_witness :
  exists r t' rest,
    waitForBeaconsWithSmartDetection "Deep Link Launch Test"
      ["AppLaunchComplete"; "VideoPlaybackStart"] 30000 freshTester liveThenVod
    = Done r t' rest
    /\ w_contentType r
       = (if vodPair t' (beaconsReceived freshTester) then Some VOD
          else if livePair t' (beaconsReceived freshTester) then Some Live else None).
Proof.
  destruct (waitForBeaconsWithSmartDetection "Deep Link Launch Test"
              ["AppLaunchComplete"; "VideoPlaybackStart"] 30000 freshTester liveThenVod)
    as [r t' rest| |] eqn:E; [|vm_compute in E; discriminate ..].
  assert (Hpass : w_passed r = true) by (vm_compute in E; inversion E; reflexivity).
  exists r, t', rest. split; [reflexivity|].
  exact (proj1 (C1_smart_content_type "Deep Link Launch Test"
                  ["AppLaunchComplete"; "VideoPlaybackStart"] 30000 freshTester
                  liveThenVod r t' rest eq_refl E Hpass)).
Defined.

(** C1 (counterexample to the claim as stated): the launch beacon is
    required and late.  At the first poll after the start the Live pair is
    complete and the VOD pair is not, so that run computes Live and stores it
    as the detected content type; at the next poll the VOD pair and the
    launch beacon have arrived too, and the wait returns VOD. *)
Lemma C1_live_then_vod_counterexample :
  let expected := ["AppLaunchComplete"; "VideoPlaybackStart"] in
  let t1 := tick (quiet 1500 ["LiveStartInitiate TimeBase(10 ms)";
                              "LiveStartComplete Duration(20 ms)"]) freshTester in
  checkVideo expected ∅ t1 = (true, true, Some Live)
  /\ vodPair t1 ∅ = false
  /\ fst (checkBeaconsSmart expected ∅ 1000 30000 t1) = None
  /\ detectedContentType (snd (checkBeaconsSmart expected ∅ 1000 30000 t1)) = Some Live
  /\ exists r t',
       waitForBeaconsWithSmartDetection "Deep Link Launch Test" expected 30000
         freshTester liveThenVod = Done r t' []
       /\ w_passed r = true /\ w_contentType r = Some VOD
       /\ detectedContentType t' = Some VOD.
Proof.
  cbv zeta. split; [vm_compute; reflexivity|]. split; [vm_compute; reflexivity|].
  split; [vm_compute; reflexivity|]. split; [vm_compute; reflexivity|].
  eexists _, _. split; [vm_compute; reflexivity|]. repeat split.
Qed.

(** ** Baselines and phases *)

Lemma pollExact_done (expected : list string) (B : gset string) (startTime timeout : Z) :
  forall (env : list Turn) (foundAt : option Z) (t : Tester)
         (r : WaitResult) (t' : Tester) (rest : list Turn),
    pollExact expected B startTime timeout foundAt t env = Done r t' rest ->
    exists used,
      env = (used ++ rest)%list /\ t' = ticks used t /\
      (w_passed r = true -> allFresh t' B expected = true).
Proof.
  induction env as [|turn env IH]; intros foundAt t r t' rest Hrun; simpl in Hrun;
    unfold checkBeaconsExact in Hrun; rewrite allFound_allFresh in Hrun;
    destruct (allFresh t B expected) eqn:Hall; simpl in Hrun;
    repeat match type of Hrun with
           | context [if ?b then _ else _] => destruct b
           end;
    try discriminate;
    try (inversion Hrun; subst; exists []; repeat split; trivial; discriminate).
  all: destruct (IH _ _ _ _ _ Hrun) as (used & -> & -> & Hp);
    exists (turn :: used); repeat split; trivial.
Qed.

Lemma allFresh_forall (t : Tester) (B : gset string) (expected : list string) :
  allFresh t B expected = true ->
  forall b, In b expected -> b ∈ beaconsReceived t /\ b ∉ B.
Proof.
  unfold allFresh. rewrite forallb_forall. intros H b Hb.
  apply isFresh_true, H, Hb.
Qed.

Lemma tick_frame (turn : Turn) (t : Tester) :
  testResults (tick turn t) = testResults t /\
  options (tick turn t) = options t /\
  issued (tick turn t) = (issued t ++ [ESleep 500])%list.
Proof.
  unfold tick. rewrite testResults_deliver, options_deliver, issued_deliver.
  repeat split.
Qed.

Lemma ticks_frame (turns : list Turn) (t : Tester) :
  testResults (ticks turns t) = testResults t /\
  options (ticks turns t) = options t /\
  issued (ticks turns t) = (issued t ++ repeat (ESleep 500) (length turns))%list.
Proof.
  revert t. induction turns as [|turn turns IH]; intros t.
  - simpl. rewrite app_nil_r. repeat split.
  - change (ticks (turn :: turns) t) with (ticks turns (tick turn t)).
    destruct (IH (tick turn t)) as (-> & -> & ->).
    destruct (tick_frame turn t) as (-> & -> & ->).
    rewrite <- app_assoc. repeat split.
Qed.

(** C4: for a wait started with baseline B, a category in B is never seen
    as fresh by any run of [checkBeacons], whatever arrives afterwards; so
    when an exact or smart wait passes, no category it counted is in B, and
    each of them was announced by a chunk delivered after the baseline was
    taken.  A test phase clears the received set first: its outcome does
    not depend on the beacons received before it. *)
Theorem C4_baseline_members_never_count :
  forall (testName cmd : string) (expected : list string) (timeout : Z)
         (t : Tester) (env : list Turn) (c : string),
    c ∈ beaconsReceived t ->
    (forall later, isFresh later (beaconsReceived t) c = false) /\
    (forall r t' rest,
        waitForBeacons testName expected timeout t env = Done r t' rest ->
        w_passed r = true ->
        ~ In c expected /\
        exists used,
          env = (used ++ rest)%list /\
          forall b, In b expected -> (b ∉ beaconsReceived t) /\ (b ∈ heard used)) /\
    (forall r t' rest,
        waitForBeaconsWithSmartDetection testName expected timeout t env
        = Done r t' rest ->
        w_passed r = true ->
        exists used,
          env = (used ++ rest)%list /\
          (arrayIncludes expected "AppLaunchComplete" = true ->
           c <> "AppLaunchComplete" /\ ("AppLaunchComplete" ∈ heard used)) /\
          (arrayIncludes expected "VideoPlaybackStart" = true ->
           (w_contentType r = Some VOD /\
            c <> "VODStartInitiate" /\ c <> "VODStartComplete" /\
            ("VODStartInitiate" ∈ heard used) /\ ("VODStartComplete" ∈ heard used))
           \/
           (w_contentType r = Some Live /\
            c <> "LiveStartInitiate" /\ c <> "LiveStartComplete" /\
            ("LiveStartInitiate" ∈ heard used) /\ ("LiveStartComplete" ∈ heard used)))) /\
    (forall X Y,
        runDeepLinkTest testName cmd (setBeacons X Y t) env
        = runDeepLinkTest testName cmd t env).
Proof.
  intros testName cmd expected timeout t env c Hc.
  assert (Hcount : forall t' used b,
             beaconsReceived t' = beaconsReceived (ticks used t) ->
             isFresh t' (beaconsReceived t) b = true ->
             c <> b /\ (b ∉ beaconsReceived t) /\ (b ∈ heard used)).
  { intros t' used b Hrcv Hb. apply isFresh_true in Hb as [Hin Hout].
    rewrite Hrcv, beaconsReceived_ticks in Hin.
    split; [congruence|]. split; [exact Hout|]. set_solver. }
  split; [|split; [|split]].
  - intros later. apply isFresh_baseline, Hc.
  - intros r t' rest Hrun Hpass. unfold waitForBeacons in Hrun.
    destruct (pollExact_done _ _ _ _ _ _ _ _ _ _ Hrun) as (used & -> & -> & Hall).
    specialize (Hall Hpass). unfold allFresh in Hall. rewrite forallb_forall in Hall.
    split.
    + intros Hin. destruct (Hcount _ used c eq_refl (Hall _ Hin)) as [Hne _]. congruence.
    + exists used. split; [reflexivity|]. intros b Hb.
      destruct (Hcount _ used b eq_refl (Hall _ Hb)) as (_ & H1 & H2). split; assumption.
  - intros r t' rest Hrun Hpass. unfold waitForBeaconsWithSmartDetection in Hrun.
    destruct (pollSmart_done _ _ _ _ _ _ _ _ _ Hrun)
      as (used & -> & Hrcv & Hsat & Hct & _).
    specialize (Hct Hpass). rewrite Hpass in Hsat. symmetry in Hsat.
    unfold smartSatisfied in Hsat. apply andb_true_iff in Hsat as [Hlaunch Hfound].
    exists used. split; [reflexivity|]. split.
    + intros Hreq. rewrite Hreq in Hlaunch.
      destruct (Hcount _ used _ Hrcv Hlaunch) as (H1 & _ & H3). split; assumption.
    + intros Hreq. rewrite (checkVideo_contentType _ _ _ Hreq) in Hct, Hfound.
      destruct (vodPair t' (beaconsReceived t)) eqn:Hvod.
      * left. unfold vodPair in Hvod. apply andb_true_iff in Hvod as [Hi Hcm].
        destruct (Hcount _ used _ Hrcv Hi) as (? & _ & ?).
        destruct (Hcount _ used _ Hrcv Hcm) as (? & _ & ?). repeat split; assumption.
      * destruct (livePair t' (beaconsReceived t)) eqn:Hlive; [|discriminate].
        right. unfold livePair in Hlive. apply andb_true_iff in Hlive as [Hi Hcm].
        destruct (Hcount _ used _ Hrcv Hi) as (? & _ & ?).
        destruct (Hcount _ used _ Hrcv Hcm) as (? & _ & ?). repeat split; assumption.
  - intros X Y. reflexivity.
Qed.

Lemma C4_baseline_members_never_count_witness :
  isFresh (ticks graceRun (ticks graceRun freshTester))
          (beaconsReceived (ticks graceRun freshTester)) "AppLaunchComplete" = false.
Proof.
  assert (Hin : "AppLaunchComplete" ∈ beaconsReceived (ticks graceRun freshTester))
    by (vm_compute; reflexivity).
  exact (proj1 (C4_baseline_members_never_count "Normal Launch" "launch"
                  ["AppLaunchComplete"] 30000 (ticks graceRun freshTester) graceRun
                  "AppLaunchComplete" Hin)
               (ticks graceRun (ticks graceRun freshTester))).
Defined.

(** ** The warm-up of the input test *)

(** an exact-mode wait returns at the latest at the first run of
    [checkBeacons] past the deadline *)
Lemma pollExact_returns (expected : list string) (B : gset string) (startTime timeout : Z) :
  forall (env : list Turn) (foundAt : option Z) (t : Tester),
    timeout <= clock t - startTime \/
    Exists (fun turn => timeout <= resumedAt turn - startTime) env ->
    pollExact expected B startTime timeout foundAt t env <> Starved.
Proof.
  induction env as [|turn env IH]; intros foundAt t Hlate; simpl;
    unfold checkBeaconsExact;
    destruct (timeout <=? clock t - startTime) eqn:Hnow;
    repeat match goal with |- context [if ?b then _ else _] => destruct b end;
    try discriminate.
  all: try (destruct Hlate as [Hlate|Hlate];
            [apply Z.leb_gt in Hnow; lia|inversion Hlate]; fail).
  all: apply IH; destruct Hlate as [Hlate|Hlate];
    [apply Z.leb_gt in Hnow; lia|];
    inversion Hlate; subst; [left; exact H0|right; assumption].
Qed.

(** C6: on the path for an app that is not signed in, the input test first
    sends the Home key, pauses 2000 ms, clears the received set, sends a
    launch command without parameters and waits in exact mode for
    AppLaunchComplete with the timeout min(wait time, 30000 ms); what the
    wait starts from is only what arrived during the launch request.  If
    the launch request fails, or if that wait does not pass, the run of the
    input test ends there: the list of test results is the one it started
    with, and no input command was sent.  The wait returns as soon as a
    poll runs past its deadline. *)
Theorem C6_input_test_warm_up :
  forall (t : Tester) (press pause launch : Turn) (env : list Turn),
    isSignedIn t = false ->
    let t1 := deliver press (issue (EKeypress "Home") t) in
    let t2 := deliver pause (issue (ESleep 2000) t1) in
    let t3 := deliver launch (issue (ECommand "launch" []) (clearBeacons t2)) in
    beaconsReceived t3 = heardIn launch /\
    issued t3 = (issued t ++ [EKeypress "Home"; ESleep 2000; ECommand "launch" []])%list /\
    (reply launch <> Accepted ->
     runInputTest t (press :: pause :: launch :: env) = Done tt t3 env /\
     testResults t3 = testResults t) /\
    (reply launch = Accepted ->
     forall r tw rest,
       waitForBeacons "Normal Launch" ["AppLaunchComplete"]
                      (Z.min (waitTime t) 30000) t3 env = Done r tw rest ->
       w_passed r = false ->
       runInputTest t (press :: pause :: launch :: env) = Done tt tw rest /\
       testResults tw = testResults t /\
       exists polls,
         issued tw = (issued t ++ [EKeypress "Home"; ESleep 2000; ECommand "launch" []]
                               ++ repeat (ESleep 500) polls)%list) /\
    (reply launch = Accepted ->
     waitForBeacons "Normal Launch" ["AppLaunchComplete"]
                    (Z.min (waitTime t) 30000) t3 env = Starved ->
     runInputTest t (press :: pause :: launch :: env) = Starved) /\
    (reply launch = Accepted ->
     Exists (fun turn => Z.min (waitTime t) 30000 <= resumedAt turn - resumedAt launch) env ->
     waitForBeacons "Normal Launch" ["AppLaunchComplete"]
                    (Z.min (waitTime t) 30000) t3 env <> Starved).
Proof.
  intros t press pause launch env Hsigned t1 t2 t3.
  assert (Hissued : issued t3
                    = (issued t ++ [EKeypress "Home"; ESleep 2000; ECommand "launch" []])%list).
  { subst t3 t2 t1. rewrite issued_deliver. cbn [issued issue clearBeacons setBeacons].
    rewrite issued_deliver. cbn [issued issue]. rewrite issued_deliver. cbn [issued issue].
    rewrite <- !app_assoc. reflexivity. }
  assert (Hresults : testResults t3 = testResults t).
  { subst t3 t2 t1. rewrite testResults_deliver. cbn [testResults issue clearBeacons setBeacons].
    rewrite testResults_deliver. cbn [testResults issue]. rewrite testResults_deliver.
    reflexivity. }
  assert (Hrun : runInputTest t (press :: pause :: launch :: env)
                 = if negb (isAccepted (reply launch)) then Done tt t3 env
                   else match waitForBeacons "Normal Launch" ["AppLaunchComplete"]
                                             (Z.min (waitTime t) 30000) t3 env with
                        | Done launchResult tw rest =>
                            (if negb (w_passed launchResult) then pure tt
                             else (_ ← sleep 2000;
                                   _ ← runDeepLinkTest "Deep Link Input Test" "input";
                                   pure tt)) tw rest
                        | Threw message tw rest => Threw message tw rest
                        | Starved => Starved
                        end).
  { unfold runInputTest. unfold mbind, M_bind, get. rewrite Hsigned.
    unfold sendEcpKeypress, sendEcpCommand, sleep, await, modify, mbind, M_bind, pure.
    cbn [negb]. destruct (reply launch); cbn [isAccepted negb]; reflexivity. }
  split; [|split; [exact Hissued|split; [|split; [|split]]]].
  - subst t3. rewrite beaconsReceived_deliver. cbn [beaconsReceived issue clearBeacons setBeacons].
    set_solver.
  - intros Hrej. rewrite Hrun. destruct (reply launch); [congruence|].
    split; [reflexivity|exact Hresults].
  - intros Hacc r tw rest Hwait Hfail. rewrite Hrun, Hacc, Hwait, Hfail.
    split; [reflexivity|].
    unfold waitForBeacons in Hwait.
    destruct (pollExact_done _ _ _ _ _ _ _ _ _ _ Hwait) as (used & -> & -> & _).
    destruct (ticks_frame used t3) as (-> & _ & ->).
    split; [exact Hresults|]. exists (length used). rewrite Hissued, <- app_assoc.
    reflexivity.
  - intros Hacc Hwait. rewrite Hrun, Hacc, Hwait. reflexivity.
  - intros Hacc Hlate. unfold waitForBeacons. apply pollExact_returns. right. exact Hlate.
Qed.

Lemma C6_input_test_warm_up_witness :
  exists t',
    runInputTest freshTester
      (quiet 1100 [] :: quiet 3100 []
       :: {| arrived := []; reply := Rejected "refused"; resumedAt := 3200 |}
       :: [])
    = Done tt t' []
    /\ testResults t' = testResults freshTester.
Proof.
  eexists.
  apply (proj1 (proj2 (proj2 (C6_input_test_warm_up freshTester (quiet 1100 [])
                                (quiet 3100 [])
                                {| arrived := []; reply := Rejected "refused";
                                   resumedAt := 3200 |} [] eq_refl)))).
  discriminate.
Defined.

(* ===================================================================== *)
(** * Further properties *)
(* ===================================================================== *)

Import Shapes.

#[local] Arguments String.append : simpl nomatch.

(** ** Timing fields *)










(** ** What the monitor can record *)

Lemma announced_vocabulary (data : string) : announced data ⊆ vocabulary.
Proof.
  intros x. unfold announced. rewrite received_after_chunk.
  destruct (trim data) as [|c s]; [set_solver|].
  cbv zeta. cbn [beaconsReceived freshTester newTester].
  rewrite !elem_of_union, !elem_of_if_singleton. unfold vocabulary.
  intros H. rewrite elem_of_empty in H.
  repeat rewrite elem_of_union. rewrite !elem_of_singleton. intuition.
Qed.

Lemma heardIn_vocabulary (turn : Turn) : heardIn turn ⊆ vocabulary.
Proof.
  unfold heardIn. induction (arrived turn) as [|d l IH]; simpl; [set_solver|].
  pose proof (announced_vocabulary d). set_solver.
Qed.

Lemma heard_vocabulary (turns : list Turn) : heard turns ⊆ vocabulary.
Proof.
  unfold heard. induction turns as [|turn l IH]; simpl; [set_solver|].
  pose proof (heardIn_vocabulary turn). set_solver.
Qed.

(** X2: the handler only ever adds to the received set, and only the six
    fixed categories.  So after a clear the received set stays within those
    six however many chunks arrive, and a category outside them can never be
    fresh at any poll of a wait. *)
Theorem X2_only_the_fixed_categories :
  forall (data : string) (t : Tester) (turns : list Turn) (c : string),
    beaconsReceived t ⊆ beaconsReceived (onTelnetData data t) /\
    beaconsReceived (onTelnetData data t) ⊆ beaconsReceived t ∪ vocabulary /\
    beaconsReceived (ticks turns (clearBeacons t)) ⊆ vocabulary /\
    (c ∉ vocabulary -> isFresh (ticks turns t) (beaconsReceived t) c = false).
Proof.
  intros data t turns c.
  pose proof (announced_vocabulary data) as Ha.
  pose proof (heard_vocabulary turns) as Hh.
  split; [|split; [|split]].
  - rewrite beaconsReceived_onTelnetData. set_solver.
  - rewrite beaconsReceived_onTelnetData. set_solver.
  - rewrite beaconsReceived_ticks. cbn [beaconsReceived clearBeacons setBeacons]. set_solver.
  - intros Hc. destruct (isFresh (ticks turns t) (beaconsReceived t) c) eqn:E; [|reflexivity].
    apply isFresh_true in E as [Hin Hout]. rewrite beaconsReceived_ticks in Hin. set_solver.
Qed.

(** ** Timings *)

Lemma timings_if_record (b : bool) (name : string) (timing : option Z) (t : Tester)
    (k : string) :
  beaconTimings (if b then recordBeacon name timing t else t) !! k
  = if b && String.eqb name k then Some timing else beaconTimings t !! k.
Proof.
  destruct b; [|reflexivity]. cbn [andb recordBeacon setBeacons beaconTimings].
  destruct (String.eqb_spec name k) as [->|Hne].
  - apply lookup_insert_eq.
  - apply lookup_insert_ne, Hne.
Qed.

Lemma timings_if_add (b : bool) (name : string) (t : Tester) :
  beaconTimings
    (if b then setBeacons ({[name]} ∪ beaconsReceived t) (beaconTimings t) t else t)
  = beaconTimings t.
Proof. destruct b; reflexivity. Qed.

(** the timing of [k] after one chunk *)
Lemma timings_after_chunk (data : string) (t : Tester) (k : string) :
  beaconTimings (onTelnetData data t) !! k =
  let logData := trim data in
  if includes logData "LiveStartComplete" && String.eqb "LiveStartComplete" k
  then Some (extractTiming logData "Duration")
  else if includes logData "LiveStartInitiate" && String.eqb "LiveStartInitiate" k
  then Some (extractTiming logData "TimeBase")
  else if includes logData "VODStartComplete" && String.eqb "VODStartComplete" k
  then Some (extractTiming logData "Duration")
  else if includes logData "VODStartInitiate" && String.eqb "VODStartInitiate" k
  then Some (extractTiming logData "TimeBase")
  else if includes logData "AppLaunchComplete"
          && (includes logData "Duration(" && includes logData "ms)")
          && String.eqb "AppLaunchComplete" k
  then Some (extractTiming logData "Duration")
  else beaconTimings t !! k.
Proof.
  unfold onTelnetData. cbv zeta. destruct (trim data) as [|c s] eqn:E.
  - reflexivity.
  - rewrite !timings_if_record, timings_if_add, if_nested, timings_if_record.
    reflexivity.
Qed.

Lemma within_if_record (b : bool) (name : string) (timing : option Z) (t : Tester) :
  timingsWithinReceived t ->
  timingsWithinReceived (if b then recordBeacon name timing t else t).
Proof.
  unfold timingsWithinReceived. destruct b; [|trivial].
  cbn [recordBeacon setBeacons beaconTimings beaconsReceived].
  rewrite dom_insert_L. set_solver.
Qed.

Lemma within_if_add (b : bool) (name : string) (t : Tester) :
  timingsWithinReceived t ->
  timingsWithinReceived
    (if b then setBeacons ({[name]} ∪ beaconsReceived t) (beaconTimings t) t else t).
Proof.
  unfold timingsWithinReceived. destruct b; [|trivial].
  cbn [setBeacons beaconTimings beaconsReceived]. set_solver.
Qed.

Lemma within_onTelnetData (data : string) (t : Tester) :
  timingsWithinReceived t -> timingsWithinReceived (onTelnetData data t).
Proof.
  intros H. unfold onTelnetData. cbv zeta. destruct (trim data) as [|c s]; [exact H|].
  repeat apply within_if_record. apply within_if_add.
  rewrite if_nested. apply within_if_record. exact H.
Qed.

(** X3: every category that has a timing is in the received set: this holds
    for a new tester and after a clear, and the handler and the delivery of
    a turn keep it.  The handler never gives AppDialogInitiate a timing: its
    entry is what it was before the chunk. *)
Theorem X3_timings_within_received :
  forall (o : Options) (now : Z) (data : string) (turn : Turn) (t : Tester),
    timingsWithinReceived (newTester o now) /\
    timingsWithinReceived (clearBeacons t) /\
    (timingsWithinReceived t -> timingsWithinReceived (onTelnetData data t)) /\
    (timingsWithinReceived t -> timingsWithinReceived (deliver turn t)) /\
    beaconTimings (onTelnetData data t) !! "AppDialogInitiate"
    = beaconTimings t !! "AppDialogInitiate".
Proof.
  intros o now data turn t. split; [|split; [|split; [|split]]].
  - unfold timingsWithinReceived. cbn. set_solver.
  - unfold timingsWithinReceived. cbn. set_solver.
  - apply within_onTelnetData.
  - intros H. unfold deliver.
    assert (Hfold : forall l u, timingsWithinReceived u ->
                                timingsWithinReceived
                                  (fold_left (fun t d => onTelnetData d t) l u)).
    { induction l as [|d l IH]; intros u Hu; [exact Hu|].
      simpl. apply IH, within_onTelnetData, Hu. }
    apply (Hfold (arrived turn)) in H. exact H.
  - rewrite timings_after_chunk. cbv zeta.
    rewrite !andb_false_r. reflexivity.
Qed.

Lemma X3_timings_within_received_witness :
  timingsWithinReceived
    (onTelnetData "VODStartComplete Duration(12 ms)" (clearBeacons freshTester)).
Proof.
  apply (proj1 (proj2 (proj2 (X3_timings_within_received defaultOptions 0
                                "VODStartComplete Duration(12 ms)" (quiet 0 [])
                                (clearBeacons freshTester))))).
  apply (proj1 (proj2 (X3_timings_within_received defaultOptions 0 "" (quiet 0 [])
                         freshTester))).
Defined.

(** X4: a chunk that names VODStartInitiate, VODStartComplete,
    LiveStartInitiate or LiveStartComplete replaces that category's timing by
    what the chunk carries (TimeBase for the Initiate beacons, Duration for
    the Complete ones; null when the chunk has no such field), whatever the
    timing was before; a chunk that does not name the category leaves its
    timing alone. *)
Theorem X4_latest_timing_wins :
  forall (data : string) (t : Tester),
    let logData := trim data in
    let after := beaconTimings (onTelnetData data t) in
    after !! "VODStartInitiate"
    = (if includes logData "VODStartInitiate"
       then Some (extractTiming logData "TimeBase")
       else beaconTimings t !! "VODStartInitiate") /\
    after !! "VODStartComplete"
    = (if includes logData "VODStartComplete"
       then Some (extractTiming logData "Duration")
       else beaconTimings t !! "VODStartComplete") /\
    after !! "LiveStartInitiate"
    = (if includes logData "LiveStartInitiate"
       then Some (extractTiming logData "TimeBase")
       else beaconTimings t !! "LiveStartInitiate") /\
    after !! "LiveStartComplete"
    = (if includes logData "LiveStartComplete"
       then Some (extractTiming logData "Duration")
       else beaconTimings t !! "LiveStartComplete").
Proof.
  intros data t logData after. subst after.
  repeat split; rewrite timings_after_chunk; cbv zeta; fold logData;
    cbn [String.eqb Ascii.eqb Bool.eqb];
    rewrite ?andb_false_r, ?andb_true_r; reflexivity.
Qed.

(** ** The log buffer *)

Lemma buffer_if_record (b : bool) (name : string) (timing : option Z) (t : Tester) :
  telnetLogBuffer (if b then recordBeacon name timing t else t) = telnetLogBuffer t.
Proof. destruct b; reflexivity. Qed.

Lemma buffer_if_add (b : bool) (name : string) (t : Tester) :
  telnetLogBuffer
    (if b then setBeacons ({[name]} ∪ beaconsReceived t) (beaconTimings t) t else t)
  = telnetLogBuffer t.
Proof. destruct b; reflexivity. Qed.

Lemma buffer_after_chunk (data : string) (t : Tester) :
  telnetLogBuffer (onTelnetData data t) =
  match trim data with
  | EmptyString => telnetLogBuffer t
  | logData => telnetLogBuffer (pushLog logData t)
  end.
Proof.
  unfold onTelnetData. cbv zeta. destruct (trim data) as [|c s]; [reflexivity|].
  rewrite !buffer_if_record, buffer_if_add, if_nested, buffer_if_record. reflexivity.
Qed.

(** X5: a chunk that is empty once trimmed changes nothing at all.  Any
    other chunk becomes the last entry of the log buffer, every earlier
    entry keeps its order, and a buffer of at most 50 entries stays at most
    50 long, the oldest entry being dropped when it was full. *)
Theorem X5_log_buffer_bounded :
  forall (data : string) (t : Tester),
    (trim data = "" -> onTelnetData data t = t) /\
    (trim data <> "" ->
     last (telnetLogBuffer (onTelnetData data t)) = Some (trim data) /\
     ((length (telnetLogBuffer t) <= 50)%nat ->
      (length (telnetLogBuffer (onTelnetData data t)) <= 50)%nat) /\
     ((length (telnetLogBuffer t) < 50)%nat ->
      telnetLogBuffer (onTelnetData data t) = (telnetLogBuffer t ++ [trim data])%list) /\
     ((length (telnetLogBuffer t) = 50)%nat ->
      telnetLogBuffer (onTelnetData data t)
      = (tl (telnetLogBuffer t) ++ [trim data])%list)).
Proof.
  intros data t. split.
  - intros H. unfold onTelnetData. rewrite H. reflexivity.
  - intros Hne. rewrite buffer_after_chunk.
    destruct (trim data) as [|c s] eqn:E; [congruence|].
    generalize (String c s). intros x.
    unfold pushLog, maxLogBuffer. cbn [telnetLogBuffer setTelnetLogBuffer].
    rewrite length_app. cbn [length].
    destruct (telnetLogBuffer t) as [|y l].
    + cbn. split; [reflexivity|]. split; [intros; lia|].
      split; [reflexivity|]. intros; lia.
    + cbn [length app tl].
      change (y :: l ++ [x])%list with ((y :: l) ++ [x])%list.
      destruct (50 <? S (length l) + 1)%nat eqn:Hfull.
      * apply Nat.ltb_lt in Hfull. cbn [tl app]. split; [apply last_snoc|].
        split; [intros; rewrite length_app; cbn; lia|].
        split; [intros; lia|]. reflexivity.
      * apply Nat.ltb_ge in Hfull. split; [apply last_snoc|].
        split; [intros; rewrite length_app; cbn [length]; lia|].
        split; [reflexivity|]. intros; lia.
Qed.

Lemma X5_log_buffer_bounded_witness :
  last (telnetLogBuffer (onTelnetData " hello " freshTester)) = Some (trim " hello ").
Proof.
  apply (proj2 (X5_log_buffer_bounded " hello " freshTester)). discriminate.
Defined.

(** ** More on the two waits *)

(** X6: an exact-mode wait that does not pass returns at a poll at or past
    its deadline; it reports the time elapsed since it began, the required
    categories that are fresh as the found list, and after [Missing:] the
    required categories that are not in the received set at all. *)
Theorem X6_exact_wait_timeout_report :
  forall (testName : string) (expected : list string) (timeout : Z)
         (t : Tester) (env : list Turn)
         (r : WaitResult) (t' : Tester) (rest : list Turn),
    waitForBeacons testName expected timeout t env = Done r t' rest ->
    w_passed r = false ->
    timeout <= clock t' - clock t /\
    w_duration r = clock t' - clock t /\
    w_beaconsReceived r = List.filter (isFresh t' (beaconsReceived t)) expected /\
    w_error r
    = Some ("Timeout after " ++ showZ (clock t' - clock t) ++ "ms. Missing: "
            ++ join ", "
                 (List.filter (fun beacon => negb (bool_decide (beacon ∈ beaconsReceived t')))
                              expected)).
Proof.
  intros testName expected timeout t env r t' rest Hrun Hfail.
  unfold waitForBeacons in Hrun.
  destruct (pollExact_timed_out _ _ _ _ _ _ _ _ _ _ Hrun Hfail) as [Hlate ->].
  repeat split; trivial.
Qed.

Lemma X6_exact_wait_timeout_report_witness :
  exists r t' rest,
    waitForBeacons "Normal Launch" ["AppLaunchComplete"] 30000 freshTester
      [quiet 31000 ["VODStartComplete Duration(12 ms)"]] = Done r t' rest
    /\ 30000 <= clock t' - clock freshTester.
Proof.
  destruct (waitForBeacons "Normal Launch" ["AppLaunchComplete"] 30000 freshTester
              [quiet 31000 ["VODStartComplete Duration(12 ms)"]])
    as [r t' rest| |] eqn:E; [|vm_compute in E; discriminate ..].
  assert (Hfail : w_passed r = false) by (vm_compute in E; inversion E; reflexivity).
  exists r, t', rest. split; [reflexivity|].
  exact (proj1 (X6_exact_wait_timeout_report _ _ _ _ _ _ _ _ E Hfail)).
Defined.

Lemma pollSmart_returns (expected : list string) (B : gset string) (startTime timeout : Z) :
  forall (env : list Turn) (t : Tester),
    timeout <= clock t - startTime \/
    Exists (fun turn => timeout <= resumedAt turn - startTime) env ->
    pollSmart expected B startTime timeout t env <> Starved.
Proof.
  induction env as [|turn env IH]; intros t Hlate; simpl; unfold checkBeaconsSmart;
    destruct (checkVideo expected B t) as [[found started] c];
    destruct (timeout <=? clock t - startTime) eqn:Hnow;
    repeat match goal with |- context [if ?b then _ else _] => destruct b end;
    try discriminate; apply Z.leb_gt in Hnow.
  all: try (destruct Hlate as [Hlate|Hlate]; [lia|inversion Hlate]; fail).
  all: apply IH; destruct Hlate as [Hlate|Hlate]; [lia|];
    inversion Hlate; subst; [left; assumption|right; assumption].
Qed.

Lemma pollExact_never_throws (expected : list string) (B : gset string)
    (startTime timeout : Z) :
  forall (env : list Turn) (foundAt : option Z) (t : Tester) message t' rest,
    pollExact expected B startTime timeout foundAt t env <> Threw message t' rest.
Proof.
  induction env as [|turn env IH]; intros foundAt t message t' rest; simpl;
    destruct (checkBeaconsExact expected B startTime timeout foundAt t) as [[r|] f];
    try discriminate. apply IH.
Qed.

Lemma pollSmart_never_throws (expected : list string) (B : gset string)
    (startTime timeout : Z) :
  forall (env : list Turn) (t : Tester) message t' rest,
    pollSmart expected B startTime timeout t env <> Threw message t' rest.
Proof.
  induction env as [|turn env IH]; intros t message t' rest; simpl;
    destruct (checkBeaconsSmart expected B startTime timeout t) as [[r|] t1];
    try discriminate. apply IH.
Qed.

(** X7: neither wait ever throws, and neither outlives its deadline: if the
    environment script holds a turn that resumes at or past the deadline,
    the wait returns a result. *)
Theorem X7_waits_return_by_the_deadline :
  forall (testName : string) (expected : list string) (timeout : Z)
         (t : Tester) (env : list Turn),
    Exists (fun turn => timeout <= resumedAt turn - clock t) env ->
    (exists r t' rest, waitForBeacons testName expected timeout t env = Done r t' rest) /\
    (exists r t' rest,
        waitForBeaconsWithSmartDetection testName expected timeout t env = Done r t' rest).
Proof.
  intros testName expected timeout t env Hlate. split.
  - unfold waitForBeacons.
    pose proof (pollExact_returns expected (beaconsReceived t) (clock t) timeout env None t
                  (or_intror Hlate)) as Hs.
    pose proof (pollExact_never_throws expected (beaconsReceived t) (clock t) timeout env
                  None t) as Ht.
    destruct (pollExact _ _ _ _ _ _ _) as [r t' rest|m t' rest|];
      [eauto|exfalso; eapply Ht; reflexivity|congruence].
  - unfold waitForBeaconsWithSmartDetection.
    pose proof (pollSmart_returns expected (beaconsReceived t) (clock t) timeout env t
                  (or_intror Hlate)) as Hs.
    pose proof (pollSmart_never_throws expected (beaconsReceived t) (clock t) timeout env t)
      as Ht.
    destruct (pollSmart _ _ _ _ _ _) as [r t' rest|m t' rest|];
      [eauto|exfalso; eapply Ht; reflexivity|congruence].
Qed.

Lemma X7_waits_return_by_the_deadline_witness :
  exists r t' rest,
    waitForBeacons "Normal Launch" ["AppLaunchComplete"] 30000 freshTester
      [quiet 1500 []; quiet 31000 []] = Done r t' rest.
Proof.
  apply (X7_waits_return_by_the_deadline "Normal Launch" ["AppLaunchComplete"] 30000
           freshTester [quiet 1500 []; quiet 31000 []]).
  apply Exists_cons_tl, Exists_cons_hd. vm_compute. discriminate.
Defined.

Lemma checkBeaconsSmart_markers (e1 e2 : list string) (B : gset string)
    (startTime timeout : Z) (t : Tester) :
  arrayIncludes e1 "AppLaunchComplete" = arrayIncludes e2 "AppLaunchComplete" ->
  arrayIncludes e1 "VideoPlaybackStart" = arrayIncludes e2 "VideoPlaybackStart" ->
  checkBeaconsSmart e1 B startTime timeout t = checkBeaconsSmart e2 B startTime timeout t.
Proof.
  intros H1 H2. unfold checkBeaconsSmart, checkVideo, getFoundBeacons.
  rewrite H1, H2. reflexivity.
Qed.

(** X8: the smart wait reads its list of expected beacons only to see
    whether it holds the two markers AppLaunchComplete and
    VideoPlaybackStart: two lists that agree on both give the same outcome,
    so any other entry (a custom expected beacon) is never waited for. *)
Theorem X8_smart_wait_reads_two_markers :
  forall (name1 name2 : string) (e1 e2 : list string) (timeout : Z)
         (t : Tester) (env : list Turn),
    arrayIncludes e1 "AppLaunchComplete" = arrayIncludes e2 "AppLaunchComplete" ->
    arrayIncludes e1 "VideoPlaybackStart" = arrayIncludes e2 "VideoPlaybackStart" ->
    waitForBeaconsWithSmartDetection name1 e1 timeout t env
    = waitForBeaconsWithSmartDetection name2 e2 timeout t env.
Proof.
  intros name1 name2 e1 e2 timeout t env H1 H2.
  unfold waitForBeaconsWithSmartDetection.
  generalize (beaconsReceived t) (clock t). intros B startTime.
  revert t. induction env as [|turn env IH]; intros t; simpl;
    rewrite (checkBeaconsSmart_markers e1 e2 _ _ _ _ H1 H2);
    destruct (checkBeaconsSmart e2 B startTime timeout t) as [[r|] t1];
    try reflexivity. apply IH.
Qed.

Lemma X8_smart_wait_reads_two_markers_witness :
  waitForBeaconsWithSmartDetection "Deep Link Launch Test"
    ["AppLaunchComplete"; "AppCustomEvent"] 30000 freshTester liveThenVod
  = waitForBeaconsWithSmartDetection "Deep Link Launch Test"
      ["AppLaunchComplete"] 30000 freshTester liveThenVod.
Proof.
  apply X8_smart_wait_reads_two_markers; reflexivity.
Defined.

Lemma checkBeaconsSmart_clock (expected : list string) (B : gset string)
    (startTime timeout : Z) (t : Tester) :
  clock (snd (checkBeaconsSmart expected B startTime timeout t)) = clock t.
Proof.
  unfold checkBeaconsSmart.
  destruct (checkVideo expected B t) as [[found started] [c|]];
    repeat match goal with |- context [if ?b then _ else _] => destruct b end;
    reflexivity.
Qed.

Lemma checkBeaconsSmart_report (expected : list string) (B : gset string)
    (startTime timeout : Z) (t : Tester) :
  match fst (checkBeaconsSmart expected B startTime timeout t) with
  | Some r =>
      w_duration r = clock t - startTime /\
      (w_passed r = true -> w_error r = None) /\
      (w_passed r = false ->
       timeout <= clock t - startTime /\ w_contentType r = None /\
       w_error r
       = Some ("Timeout after " ++ showZ (clock t - startTime) ++ "ms. Missing: "
               ++ join ", "
                    ((if arrayIncludes expected "AppLaunchComplete"
                         && negb (isFresh t B "AppLaunchComplete")
                      then ["AppLaunchComplete"] else []) ++
                     (if arrayIncludes expected "VideoPlaybackStart"
                         && negb (vodPair t B || livePair t B)
                      then ["Video playback beacons (VOD or Live)"] else []))%list))
  | None => True
  end.
Proof.
  unfold checkBeaconsSmart, checkVideo, vodPair, livePair.
  destruct (arrayIncludes expected "AppLaunchComplete");
    destruct (arrayIncludes expected "VideoPlaybackStart");
    destruct (isFresh t B "AppLaunchComplete");
    destruct (isFresh t B "VODStartInitiate" && isFresh t B "VODStartComplete");
    destruct (isFresh t B "LiveStartInitiate" && isFresh t B "LiveStartComplete");
    cbn [andb orb negb fst snd];
    try (split; [reflexivity|split; [reflexivity|discriminate]]);
    destruct (timeout <=? clock t - startTime) eqn:Hlate; cbn [fst]; trivial;
    (split; [reflexivity|split; [discriminate|]]); intros _;
    (split; [apply Z.leb_le, Hlate|split; reflexivity]).
Qed.

Lemma pollSmart_last_check (expected : list string) (B : gset string)
    (startTime timeout : Z) :
  forall (env : list Turn) (t : Tester) (r : WaitResult) (t' : Tester) (rest : list Turn),
    pollSmart expected B startTime timeout t env = Done r t' rest ->
    exists tq,
      beaconsReceived tq = beaconsReceived t' /\ clock tq = clock t' /\
      checkBeaconsSmart expected B startTime timeout tq = (Some r, t').
Proof.
  induction env as [|turn env IH]; intros t r t' rest Hrun; simpl in Hrun;
    pose proof (checkBeaconsSmart_received expected B startTime timeout t) as Hr;
    pose proof (checkBeaconsSmart_clock expected B startTime timeout t) as Hc;
    destruct (checkBeaconsSmart expected B startTime timeout t) as [[r0|] t1] eqn:E;
    try discriminate;
    try (inversion Hrun; subst; exists t; simpl in Hr, Hc; auto; fail).
  apply (IH _ _ _ _ Hrun).
Qed.

(** X9: the smart wait has no grace period.  It passes at the first poll at
    which every requested condition holds, no earlier poll having seen them
    all; a wait that does not pass returns at a poll at or past its deadline
    with no content type and an error that names the unmet conditions.
    Either way the duration is the time elapsed since the wait began. *)
Theorem X9_smart_wait_resolves_at_once :
  forall (testName : string) (expected : list string) (timeout : Z)
         (t : Tester) (env : list Turn)
         (r : WaitResult) (t' : Tester) (rest : list Turn),
    waitForBeaconsWithSmartDetection testName expected timeout t env = Done r t' rest ->
    let B := beaconsReceived t in
    w_duration r = clock t' - clock t /\
    w_passed r = smartSatisfied t' B expected /\
    (forall before after,
        env = (before ++ after ++ rest)%list -> after <> [] ->
        smartSatisfied (ticks before t) B expected = false) /\
    (w_passed r = true -> w_error r = None) /\
    (w_passed r = false ->
     timeout <= clock t' - clock t /\ w_contentType r = None /\
     w_error r
     = Some ("Timeout after " ++ showZ (clock t' - clock t) ++ "ms. Missing: "
             ++ join ", "
                  ((if arrayIncludes expected "AppLaunchComplete"
                       && negb (isFresh t' B "AppLaunchComplete")
                    then ["AppLaunchComplete"] else []) ++
                   (if arrayIncludes expected "VideoPlaybackStart"
                       && negb (vodPair t' B || livePair t' B)
                    then ["Video playback beacons (VOD or Live)"] else []))%list)).
Proof.
  intros testName expected timeout t env r t' rest Hrun B.
  unfold waitForBeaconsWithSmartDetection in Hrun. fold B in Hrun.
  destruct (pollSmart_done _ _ _ _ _ _ _ _ _ Hrun) as (used & -> & _ & Hsat & _ & Hnone).
  pose proof (pollSmart_last_check _ _ _ _ _ _ _ _ _ Hrun) as Hrep.
  destruct Hrep as (tq & Hrcv & Hclk & Hcheck).
  pose proof (checkBeaconsSmart_report expected B (clock t) timeout tq) as Hreport.
  rewrite Hcheck in Hreport. cbn [fst] in Hreport.
  destruct Hreport as (Hd & Hok & Hbad). rewrite Hclk in Hd, Hbad.
  unfold vodPair, livePair in Hbad.
  rewrite !(isFresh_ext tq t' B _ Hrcv) in Hbad.
  split; [exact Hd|]. split; [exact Hsat|]. split; [|split; [exact Hok|exact Hbad]].
  intros before after Henv Hafter. rewrite app_assoc in Henv.
  apply app_inv_tail in Henv. apply (Hnone before after); assumption.
Qed.

Lemma X9_smart_wait_resolves_at_once_witness :
  exists r t' rest,
    waitForBeaconsWithSmartDetection "Deep Link Launch Test"
      ["AppLaunchComplete"; "VideoPlaybackStart"] 30000 freshTester liveThenVod
    = Done r t' rest
    /\ w_duration r = clock t' - clock freshTester.
Proof.
  destruct (waitForBeaconsWithSmartDetection "Deep Link Launch Test"
              ["AppLaunchComplete"; "VideoPlaybackStart"] 30000 freshTester liveThenVod)
    as [r t' rest| |] eqn:E; [|vm_compute in E; discriminate ..].
  exists r, t', rest. split; [reflexivity|].
  exact (proj1 (X9_smart_wait_resolves_at_once _ _ _ _ _ _ _ _ E)).
Defined.

(** ** The phases of a run *)

Lemma checkBeaconsSmart_frame (expected : list string) (B : gset string)
    (startTime timeout : Z) (t : Tester) :
  let t1 := snd (checkBeaconsSmart expected B startTime timeout t) in
  testResults t1 = testResults t /\ options t1 = options t /\ issued t1 = issued t.
Proof.
  unfold checkBeaconsSmart.
  destruct (checkVideo expected B t) as [[found started] [c|]];
    repeat match goal with |- context [if ?b then _ else _] => destruct b end;
    repeat split.
Qed.

Lemma pollSmart_frame (expected : list string) (B : gset string) (startTime timeout : Z) :
  forall (env : list Turn) (t : Tester) (r : WaitResult) (t' : Tester) (rest : list Turn),
    pollSmart expected B startTime timeout t env = Done r t' rest ->
    testResults t' = testResults t /\ options t' = options t /\
    exists used, env = (used ++ rest)%list /\
                 issued t' = (issued t ++ repeat (ESleep 500) (length used))%list.
Proof.
  induction env as [|turn env IH]; intros t r t' rest Hrun; simpl in Hrun;
    pose proof (checkBeaconsSmart_frame expected B startTime timeout t) as Hf;
    destruct (checkBeaconsSmart expected B startTime timeout t) as [[r0|] t1];
    cbn [snd] in Hf; destruct Hf as (F1 & F2 & F3); try discriminate;
    try (inversion Hrun; subst; split; [exact F1|]; split; [exact F2|]; exists [];
         simpl; rewrite app_nil_r; split; [reflexivity|exact F3]).
  destruct (IH _ _ _ _ Hrun) as (H1 & H2 & used & -> & H3).
  destruct (tick_frame turn t1) as (G1 & G2 & G3).
  rewrite H1, G1, F1, H2, G2, F2. split; [reflexivity|]. split; [reflexivity|].
  exists (turn :: used). split; [reflexivity|].
  rewrite H3, G3, F3, <- app_assoc. reflexivity.
Qed.

(** [runDeepLinkTest], one suspension at a time *)
Lemma runDeepLinkTest_unfold (testName cmd : string) (t : Tester) (env : list Turn) :
  runDeepLinkTest testName cmd t env =
  match env with
  | [] => Starved
  | turn :: env1 =>
      let params := [("contentId", contentId t); ("mediaType", mediaType t)] in
      let t1 := deliver turn (issue (ECommand cmd params) (clearBeacons t)) in
      if isAccepted (reply turn) then
        match waitForBeaconsWithSmartDetection testName (requiredBeacons cmd t)
                                               (waitTime t) t1 env1 with
        | Done result t2 rest =>
            let testResult := mkTestResult testName cmd (requiredBeacons cmd t) t2 result in
            Done testResult (pushResult testResult t2) rest
        | Threw message t2 rest => Threw message t2 rest
        | Starved => Starved
        end
      else Done (failedToSend testName cmd) (pushResult (failedToSend testName cmd) t1) env1
  end.
Proof.
  unfold runDeepLinkTest, sendEcpCommand, await, modify, get, mbind, M_bind, pure.
  destruct env as [|turn env1]; [reflexivity|].
  destruct (reply turn); cbn [isAccepted negb]; [|reflexivity].
  destruct (waitForBeaconsWithSmartDetection _ _ _ _ _); reflexivity.
Qed.

(** what a test phase leaves behind *)
Lemma runDeepLinkTest_outcome :
  forall (testName cmd : string) (t : Tester) (env : list Turn),
    match runDeepLinkTest testName cmd t env with
    | Done tr t' rest =>
        testResults t' = (testResults t ++ [tr])%list /\
        Tester.testName tr = testName /\ command tr = cmd /\
        options t' = options t /\
        exists polls,
          issued t'
          = (issued t ++ ECommand cmd [("contentId", contentId t); ("mediaType", mediaType t)]
                      :: repeat (ESleep 500) polls)%list
    | Threw _ _ _ => False
    | Starved => True
    end.
Proof.
  intros testName cmd t env. rewrite runDeepLinkTest_unfold.
  destruct env as [|turn env1]; [exact I|]. cbv zeta.
  set (t1 := deliver turn _).
  assert (Ht1 : testResults t1 = testResults t /\ options t1 = options t /\
                issued t1 = (issued t ++ [ECommand cmd [("contentId", contentId t);
                                                        ("mediaType", mediaType t)]])%list).
  { subst t1. rewrite testResults_deliver, options_deliver, issued_deliver. repeat split. }
  destruct Ht1 as (R1 & O1 & I1).
  destruct (isAccepted (reply turn)).
  - unfold waitForBeaconsWithSmartDetection.
    pose proof (pollSmart_never_throws (requiredBeacons cmd t) (beaconsReceived t1)
                  (clock t1) (waitTime t) env1 t1) as Hnt.
    destruct (pollSmart _ _ _ _ _ _) as [result t2 rest|m t2 rest|] eqn:E;
      [|eapply Hnt; reflexivity|exact I].
    destruct (pollSmart_frame _ _ _ _ _ _ _ _ _ E) as (R2 & O2 & used & _ & I2).
    cbn [testResults pushResult setTestResults options issued mkTestResult
           Tester.testName command].
    rewrite R2, R1, O2, O1, I2, I1. repeat split.
    exists (length used). rewrite <- app_assoc. reflexivity.
  - cbn [testResults pushResult setTestResults options issued failedToSend
           Tester.testName command].
    rewrite R1, O1, I1. repeat split. exists 0%nat. reflexivity.
Qed.

(** X10: a test phase that returns has added exactly one entry to the list
    of test results, the one it returns, carrying the phase's name and
    command; the entries before it are untouched.  Besides the command it
    only started poll timers, and it never throws. *)
Theorem X10_phase_adds_one_result :
  forall (testName cmd : string) (t : Tester) (env : list Turn),
    match runDeepLinkTest testName cmd t env with
    | Done tr t' rest =>
        testResults t' = (testResults t ++ [tr])%list /\
        Tester.testName tr = testName /\ command tr = cmd /\
        options t' = options t /\
        exists polls,
          issued t'
          = (issued t ++ ECommand cmd [("contentId", contentId t); ("mediaType", mediaType t)]
                      :: repeat (ESleep 500) polls)%list
    | Threw _ _ _ => False
    | Starved => True
    end.
Proof. exact runDeepLinkTest_outcome. Qed.



(** ** How many results a run can hold *)

Lemma adds_same {A} (k : nat) (t t' : Tester) (o : Outcome A) :
  options t' = options t -> testResults t' = testResults t ->
  match o with Done _ u _ | Threw _ u _ => u = t' | Starved => True end ->
  addsAtMost k t o.
Proof.
  intros Ho Hr Hu. destruct o as [a u rest|m u rest|]; [| |exact I]; subst u;
    (split; [exact Ho|]; exists []; rewrite app_nil_r; split; [exact Hr|simpl; lia]).
Qed.

Lemma adds_bind {A B} (k1 k2 : nat) (m : M A) (f : A -> M B) (t : Tester) (env : list Turn) :
  addsAtMost k1 t (m t env) ->
  (forall a t1 env1, options t1 = options t -> addsAtMost k2 t1 (f a t1 env1)) ->
  addsAtMost (k1 + k2) t ((m ≫= f) t env).
Proof.
  intros Hm Hf. unfold mbind, M_bind.
  destruct (m t env) as [a t1 rest|msg t1 rest|]; [| |exact I].
  - destruct Hm as (Ho & l1 & Hr & Hl). specialize (Hf a t1 rest Ho).
    destruct (f a t1 rest) as [b t2 rest2|msg t2 rest2|]; [| |exact I];
      destruct Hf as (Ho2 & l2 & Hr2 & Hl2);
      (split; [congruence|]; exists (l1 ++ l2)%list; rewrite Hr2, Hr, <- app_assoc;
       split; [reflexivity|rewrite length_app; lia]).
  - destruct Hm as (Ho & l1 & Hr & Hl). split; [exact Ho|].
    exists l1. split; [exact Hr|lia].
Qed.

Lemma adds_bind0 {A B} (k : nat) (m : M A) (f : A -> M B) (t : Tester) (env : list Turn) :
  addsAtMost 0 t (m t env) ->
  (forall a t1 env1, options t1 = options t -> addsAtMost k t1 (f a t1 env1)) ->
  addsAtMost k t ((m ≫= f) t env).
Proof. intros. apply (adds_bind 0 k); assumption. Qed.

Lemma adds_pure {A} (k : nat) (a : A) (t : Tester) (env : list Turn) :
  addsAtMost k t (pure a t env).
Proof. apply (adds_same k t t); reflexivity. Qed.

Lemma adds_throw {A} (k : nat) (message : string) (t : Tester) (env : list Turn) :
  addsAtMost k t (@throw A message t env).
Proof. apply (adds_same k t t); reflexivity. Qed.

Lemma adds_get (k : nat) (t : Tester) (env : list Turn) : addsAtMost k t (get t env).
Proof. apply (adds_same k t t); reflexivity. Qed.

Lemma adds_await (k : nat) (e : Effect) (t : Tester) (env : list Turn) :
  addsAtMost k t (await e t env).
Proof.
  unfold await. destruct env as [|turn rest]; [exact I|].
  apply (adds_same k t (deliver turn (issue e t)));
    [rewrite options_deliver; reflexivity|rewrite testResults_deliver; reflexivity
    |reflexivity].
Qed.

Lemma adds_sleep (k : nat) (ms : Z) (t : Tester) (env : list Turn) :
  addsAtMost k t (sleep ms t env).
Proof.
  unfold sleep. apply adds_bind0; [apply adds_await|]. intros; apply adds_pure.
Qed.

Lemma adds_sendEcpCommand (k : nat) cmd params (t : Tester) (env : list Turn) :
  addsAtMost k t (sendEcpCommand cmd params t env).
Proof.
  unfold sendEcpCommand. apply adds_bind0; [apply adds_await|]. intros; apply adds_pure.
Qed.

Lemma adds_sendEcpKeypress (k : nat) key (t : Tester) (env : list Turn) :
  addsAtMost k t (sendEcpKeypress key t env).
Proof.
  unfold sendEcpKeypress. apply adds_bind0; [apply adds_await|]. intros; apply adds_pure.
Qed.

Lemma adds_waitForBeacons (k : nat) name expected timeout (t : Tester) (env : list Turn) :
  addsAtMost k t (waitForBeacons name expected timeout t env).
Proof.
  unfold waitForBeacons.
  pose proof (pollExact_never_throws expected (beaconsReceived t) (clock t) timeout env
                None t) as Hnt.
  destruct (pollExact _ _ _ _ _ _ _) as [r t' rest|m t' rest|] eqn:E;
    [|exfalso; eapply Hnt; reflexivity|exact I].
  destruct (pollExact_done _ _ _ _ _ _ _ _ _ _ E) as (used & _ & -> & _).
  destruct (ticks_frame used t) as (Hr & Ho & _).
  split; [exact Ho|]. exists []. rewrite app_nil_r. split; [exact Hr|simpl; lia].
Qed.

Lemma adds_runDeepLinkTest (k : nat) name cmd (t : Tester) (env : list Turn) :
  addsAtMost (S k) t (runDeepLinkTest name cmd t env).
Proof.
  pose proof (runDeepLinkTest_outcome name cmd t env) as H.
  destruct (runDeepLinkTest name cmd t env) as [tr t' rest|m t' rest|];
    [|contradiction|exact I].
  destruct H as (Hr & _ & _ & Ho & _). split; [exact Ho|].
  exists [tr]. split; [exact Hr|simpl; lia].
Qed.

Lemma adds_runInputTest (k : nat) (t : Tester) (env : list Turn) :
  addsAtMost (S k) t (runInputTest t env).
Proof.
  unfold runInputTest. apply adds_bind0; [apply adds_get|]. intros t0 t1 env1 _.
  assert (Htail : forall u e,
             addsAtMost (S k) u
               ((_ ← sleep 2000;
                 _ ← runDeepLinkTest "Deep Link Input Test" "input"; pure tt) u e)).
  { intros u e. apply adds_bind0; [apply adds_sleep|]. intros.
    apply (adds_bind 1 k); [apply adds_runDeepLinkTest|]. intros. apply adds_pure. }
  destruct (negb (isSignedIn t0)); [|apply Htail].
  apply adds_bind0; [apply adds_sendEcpKeypress|]. intros.
  apply adds_bind0; [apply adds_sleep|]. intros ? u ? ?.
  apply adds_bind0; [apply (adds_same 0 _ (clearBeacons u)); reflexivity|]. intros.
  apply adds_bind0; [apply adds_sendEcpCommand|]. intros ok ? ? ?.
  destruct (negb ok); [apply adds_pure|].
  apply adds_bind0; [apply adds_waitForBeacons|]. intros r ? ? ?.
  destruct (negb (w_passed r)); [apply adds_pure|apply Htail].
Qed.

Lemma adds_inputPhase (t : Tester) (env : list Turn) :
  addsAtMost (if opt_launchOnly (options t) then 0 else 1) t (inputPhase t env).
Proof.
  unfold inputPhase, mbind, M_bind, get.
  destruct (opt_launchOnly (options t)); cbn [negb];
    [apply adds_pure|apply adds_runInputTest].
Qed.

Lemma adds_runDeepLinkTests (t : Tester) (env : list Turn) :
  addsAtMost ((if opt_inputOnly (options t) then 0 else 1)
              + (if opt_launchOnly (options t) then 0 else 1)) t
             (runDeepLinkTests t env).
Proof.
  unfold runDeepLinkTests. apply adds_bind0; [apply adds_sleep|]. intros _ t1 env1 Ho1.
  unfold mbind at 1, M_bind at 1, get. rewrite Ho1.
  destruct (opt_inputOnly (options t)); cbn [negb].
  - rewrite <- Ho1. apply adds_inputPhase.
  - apply (adds_bind 1); [apply adds_runDeepLinkTest|]. intros r t2 env2 Ho2.
    destruct (negb (passed r) && _); [apply adds_pure|].
    apply adds_bind0; [apply adds_sleep|]. intros _ t3 env3 Ho3.
    replace (options t) with (options t3) by congruence. apply adds_inputPhase.
Qed.

Lemma adds_runTestsBody (t : Tester) (env : list Turn) :
  addsAtMost ((if opt_inputOnly (options t) then 0 else 1)
              + (if opt_launchOnly (options t) then 0 else 1)) t
             (runTestsBody t env).
Proof.
  unfold runTestsBody. apply adds_bind0.
  { unfold connectTelnet. apply adds_bind0; [apply adds_await|]. intros r ? ? ?.
    destruct r; [apply adds_pure|apply adds_throw]. }
  intros _ t1 env1 Ho1. unfold mbind at 1, M_bind at 1, get.
  apply adds_bind0.
  { destruct (isSignedIn t1); [|apply adds_pure].
    unfold handleSignIn. apply adds_bind0; [apply adds_get|]. intros t2 t3 env3 Ho3.
    apply adds_bind0.
    - destruct (isGiven (opt_script (options t2))); [|apply adds_throw].
      apply adds_bind0; [apply adds_await|]. intros r ? ? ?.
      destruct r; [apply adds_pure|apply adds_throw].
    - intros. apply adds_bind0; [apply adds_get|]. intros t5 t6 env6 Ho6.
      apply adds_bind0; [|intros; apply adds_sleep].
      apply (adds_same 0 _ (setSignInDuration (Some (clock t5 - clock t2)) t6));
        reflexivity. }
  intros _ t2 env2 Ho2. replace (options t) with (options t2) by congruence.
  apply adds_runDeepLinkTests.
Qed.

Lemma formatResults_counts (overrideSuccess : option bool) (t : Tester) :
  let report := formatResults overrideSuccess t in
  totalTests report = length (testResults t) /\
  length (tests report) = totalTests report /\
  (passedTests report + failedTests report = totalTests report)%nat.
Proof.
  cbn. rewrite length_map. split; [reflexivity|]. split; [reflexivity|].
  assert (H : (length (List.filter passed (testResults t)) <= length (testResults t))%nat).
  { induction (testResults t) as [|x l IH]; simpl; [lia|].
    destruct (passed x); simpl; lia. }
  lia.
Qed.

(** X12: a run that returns has added at most two entries to the list of
    test results, at most one for the launch test (none with the input-only
    option) and at most one for the input test (none with the launch-only
    option), and has left the earlier entries untouched.  The report counts
    that list: total = passed + failed = number of reported tests.  With both
    options set a run from an empty list reports no test and no success. *)
Theorem X12_run_holds_at_most_two_results :
  forall (t : Tester) (env : list Turn) (report : Report) (t' : Tester) (rest : list Turn),
    runTests t env = Done report t' rest ->
    (exists added,
        testResults t' = (testResults t ++ added)%list /\
        (length added <= (if opt_inputOnly (options t) then 0 else 1)
                         + (if opt_launchOnly (options t) then 0 else 1))%nat) /\
    totalTests report = length (testResults t') /\
    length (tests report) = totalTests report /\
    (passedTests report + failedTests report = totalTests report)%nat /\
    (testResults t = [] ->
     opt_inputOnly (options t) = true -> opt_launchOnly (options t) = true ->
     totalTests report = 0%nat /\ success report = false).
Proof.
  intros t env report t' rest Hrun. unfold runTests in Hrun.
  pose proof (adds_runTestsBody t env) as Hadds.
  assert (Hkey : exists (o : option bool) tb,
             report = formatResults o (issue EDisconnect tb) /\
             t' = issue EDisconnect tb /\
             (o = None \/ o = Some false) /\
             exists added,
               testResults tb = (testResults t ++ added)%list /\
               (length added <= (if opt_inputOnly (options t) then 0 else 1)
                                + (if opt_launchOnly (options t) then 0 else 1))%nat).
  { destruct (runTestsBody t env) as [[] tb restb|m tb restb|]; [| |discriminate];
      inversion Hrun; subst; destruct Hadds as (_ & added & Hr & Hl).
    - exists None, tb. repeat split; eauto.
    - exists (Some false), tb. repeat split; eauto. }
  destruct Hkey as (o & tb & -> & -> & Ho & added & Hr & Hl).
  destruct (formatResults_counts o (issue EDisconnect tb)) as (C1 & C2 & C3).
  split; [exists added; split; [exact Hr|exact Hl]|].
  split; [exact C1|]. split; [exact C2|]. split; [exact C3|].
  intros Hnil Hi Hlo. rewrite Hi, Hlo in Hl. rewrite Hnil in Hr.
  destruct added; [|simpl in Hl; lia].
  assert (Hempty : testResults (issue EDisconnect tb) = []) by exact Hr.
  split; [rewrite C1, Hempty; reflexivity|].
  destruct Ho as [-> | ->]; [|reflexivity].
  unfold formatResults; cbn [success]. rewrite Hempty. reflexivity.
Qed.

Lemma X12_run_holds_at_most_two_results_witness :
  exists report t' rest,
    runTests freshTester
      [quiet 1100 []; quiet 4100 [];
       {| arrived := []; reply := Rejected "refused"; resumedAt := 4200 |}]
    = Done report t' rest
    /\ (passedTests report + failedTests report = totalTests report)%nat.
Proof.
  destruct (runTests freshTester
              [quiet 1100 []; quiet 4100 [];
               {| arrived := []; reply := Rejected "refused"; resumedAt := 4200 |}])
    as [report t' rest| |] eqn:E; [|vm_compute in E; discriminate ..].
  exists report, t', rest. split; [reflexivity|].
  exact (proj1 (proj2 (proj2 (proj2 (X12_run_holds_at_most_two_results _ _ _ _ _ E))))).
Defined.

(** ** Runs that end early *)

Lemma signInDuration_deliver (turn : Turn) (t : Tester) :
  signInDuration (deliver turn t) = signInDuration t.
Proof. unfold deliver. simpl. apply fold_onTelnetData_frame. Qed.

(** X13: when the device refuses the launch command, the sequence of tests
    ends there: the failed launch test is the only entry added, and after
    the three-second settle and the command nothing more is requested, so
    the input test is not attempted even though it was not switched off. *)
Theorem X13_refused_launch_ends_the_sequence :
  forall (t : Tester) (settle launch : Turn) (env : list Turn) (message : string),
    opt_inputOnly (options t) = false ->
    reply launch = Rejected message ->
    exists t',
      runDeepLinkTests t (settle :: launch :: env) = Done tt t' env /\
      testResults t' =
        (testResults t ++ [failedToSend "Deep Link Launch Test" "launch"])%list /\
      issued t' =
        (issued t ++ [ESleep 3000;
                      ECommand "launch" [("contentId", contentId t);
                                         ("mediaType", mediaType t)]])%list.
Proof.
  intros t settle launch env message Hin Hrej.
  unfold runDeepLinkTests, sleep, await, get, mbind, M_bind, pure.
  cbv beta iota. rewrite options_deliver. cbn [options issue]. rewrite Hin. cbn [negb].
  rewrite runDeepLinkTest_unfold. cbv zeta. rewrite Hrej. cbn [isAccepted].
  cbv beta iota. cbn [passed error failedToSend negb andb].
  rewrite bool_decide_eq_true_2 by reflexivity.
  eexists. split; [reflexivity|].
  cbn [testResults issued pushResult setTestResults].
  rewrite !testResults_deliver, !issued_deliver.
  cbn [testResults issued issue clearBeacons setBeacons].
  rewrite testResults_deliver, issued_deliver. cbn [testResults issued issue].
  unfold contentId, mediaType. cbn [options]. rewrite options_deliver. cbn [options].
  rewrite <- app_assoc. split; reflexivity.
Qed.

Lemma X13_refused_launch_ends_the_sequence_witness :
  exists t',
    runDeepLinkTests freshTester
      [quiet 4000 [];
       {| arrived := []; reply := Rejected "ECONNREFUSED"; resumedAt := 4100 |};
       quiet 9000 []]
    = Done tt t' [quiet 9000 []] /\
    testResults t' = [failedToSend "Deep Link Launch Test" "launch"].
Proof.
  destruct (X13_refused_launch_ends_the_sequence freshTester (quiet 4000 [])
              {| arrived := []; reply := Rejected "ECONNREFUSED"; resumedAt := 4100 |}
              [quiet 9000 []] "ECONNREFUSED" eq_refl eq_refl) as (t' & H1 & H2 & _).
  exists t'. split; [exact H1|exact H2].
Defined.

(** X14: when the telnet connection fails, the run does not throw: it
    returns a report whose success flag is false, having requested nothing
    of the device but the connection and the disconnection.  The list of
    test results and the sign-in duration are as they were. *)
Theorem X14_refused_connection_is_reported :
  forall (t : Tester) (connect : Turn) (env : list Turn) (message : string),
    reply connect = Rejected message ->
    exists report t',
      runTests t (connect :: env) = Done report t' env /\
      success report = false /\
      totalTests report = length (testResults t) /\
      reportSignInDuration report = signInDuration t /\
      testResults t' = testResults t /\
      issued t' = (issued t ++ [EConnect; EDisconnect])%list.
Proof.
  intros t connect env message Hrej.
  unfold runTests, runTestsBody, connectTelnet, await, mbind, M_bind.
  cbv beta iota. rewrite Hrej. unfold throw. cbv beta iota zeta.
  eexists _, _. split; [reflexivity|].
  cbn [success totalTests reportSignInDuration formatResults testResults issued
       signInDuration issue].
  rewrite testResults_deliver, issued_deliver, signInDuration_deliver.
  cbn [testResults issued signInDuration issue]. rewrite <- app_assoc.
  repeat split.
Qed.

Lemma X14_refused_connection_is_reported_witness :
  exists report t',
    runTests freshTester
      [{| arrived := []; reply := Rejected "Telnet connection timeout";
          resumedAt := 11000 |}] = Done report t' [] /\
    success report = false.
Proof.
  destruct (X14_refused_connection_is_reported freshTester
              {| arrived := []; reply := Rejected "Telnet connection timeout";
                 resumedAt := 11000 |} [] "Telnet connection timeout" eq_refl)
    as (report & t' & H1 & H2 & _).
  exists report, t'. split; [exact H1|exact H2].
Defined.

(** X15: in signed-in mode a sign-in that fails ends the run before any
    test: with no script configured nothing is run at all, with a script
    that fails only the script was run.  Either way the report says failure,
    no test result is added, no sign-in duration is recorded, and the tester
    sends no deep-link command and no keypress of its own. *)
Theorem X15_failed_sign_in_ends_the_run :
  forall (t : Tester) (connect : Turn) (env : list Turn),
    isSignedIn t = true ->
    reply connect = Accepted ->
    (isGiven (opt_script (options t)) = true ->
     exists script message, head env = Some script /\ reply script = Rejected message) ->
    exists report t' rest,
      runTests t (connect :: env) = Done report t' rest /\
      success report = false /\
      reportSignInDuration report = signInDuration t /\
      testResults t' = testResults t /\
      issued t' =
        (issued t ++ [EConnect] ++
         (if isGiven (opt_script (options t))
          then [ERunScript (default "" (opt_script (options t)))] else []) ++
         [EDisconnect])%list /\
      rest = (if isGiven (opt_script (options t)) then tl env else env).
Proof.
  intros t connect env Hsigned Hok Hwhy.
  unfold runTests, runTestsBody, connectTelnet, await, get, mbind, M_bind.
  cbv beta iota. rewrite Hok. unfold pure. cbv beta iota.
  assert (Hs : isSignedIn (deliver connect (issue EConnect t)) = true).
  { unfold isSignedIn in *. rewrite options_deliver. exact Hsigned. }
  rewrite Hs. unfold handleSignIn, get, mbind, M_bind. cbv beta iota zeta.
  rewrite options_deliver. cbn [options issue].
  destruct (isGiven (opt_script (options t))) eqn:Eg.
  - destruct (Hwhy eq_refl) as (script & message & Henv & Hrej).
    destruct env as [|script' env']; [discriminate|]. simpl in Henv.
    inversion Henv; subst script'. unfold await. rewrite Hrej. unfold throw.
    cbv beta iota zeta. eexists _, _, _. split; [reflexivity|].
    cbn [success reportSignInDuration formatResults testResults issued
         signInDuration issue].
    rewrite !testResults_deliver, !issued_deliver, !signInDuration_deliver.
    cbn [testResults issued signInDuration issue].
    rewrite !testResults_deliver, !issued_deliver, !signInDuration_deliver.
    cbn [testResults issued signInDuration issue tl].
    rewrite <- !app_assoc. repeat split.
  - unfold throw. cbv beta iota zeta. eexists _, _, _. split; [reflexivity|].
    cbn [success reportSignInDuration formatResults testResults issued
         signInDuration issue].
    rewrite !testResults_deliver, !issued_deliver, !signInDuration_deliver.
    cbn [testResults issued signInDuration issue].
    rewrite <- !app_assoc. repeat split.
Qed.

Lemma X15_failed_sign_in_ends_the_run_witness :
  exists report t' rest,
    runTests
      (newTester {| opt_content := "1234"; opt_type := "movie"; opt_wait := 30;
                    opt_signedIn := true; opt_script := Some "signin.rasp";
                    opt_launchOnly := false; opt_inputOnly := false;
                    opt_expectBeacon := None |} 1000)
      [quiet 1100 [];
       {| arrived := []; reply := Rejected "RASP script file not found: signin.rasp";
          resumedAt := 1200 |}] = Done report t' rest /\
    success report = false /\
    issued t' = [EConnect; ERunScript "signin.rasp"; EDisconnect].
Proof.
  destruct (X15_failed_sign_in_ends_the_run
              (newTester {| opt_content := "1234"; opt_type := "movie"; opt_wait := 30;
                            opt_signedIn := true; opt_script := Some "signin.rasp";
                            opt_launchOnly := false; opt_inputOnly := false;
                            opt_expectBeacon := None |} 1000)
              (quiet 1100 [])
              [{| arrived := []; reply := Rejected "RASP script file not found: signin.rasp";
                  resumedAt := 1200 |}]
              eq_refl eq_refl
              (fun _ => ex_intro _ _ (ex_intro _ _ (conj eq_refl eq_refl))))
    as (report & t' & rest & H1 & H2 & _ & _ & H3 & _).
  exists report, t', rest. split; [exact H1|]. split; [exact H2|exact H3].
Defined.

(** ** The report's test entries *)

Lemma lastN_suffix {A} (n : nat) (a : list A) :
  exists older, a = (older ++ lastN n a)%list /\ length (lastN n a) = Nat.min n (length a).
Proof.
  unfold lastN. exists (firstn (length a - n) a). split.
  - symmetry. apply firstn_skipn.
  - rewrite length_skipn. lia.
Qed.

(** X16: the report lists the test results in order, one entry each.  A
    passing entry, and every entry when no telnet line was kept, is reported
    as it is.  A failing entry is reported with one field added, the most
    recent telnet lines: the last ten of the buffer, or all of it when it
    holds fewer; nothing else of the entry changes. *)
Theorem X16_report_attaches_recent_logs :
  forall (overrideSuccess : option bool) (t : Tester),
    Forall2
      (fun result reported =>
         if passed result || (length (telnetLogBuffer t) =? 0)%nat
         then reported = result
         else exists older logs,
             telnetLogBuffer t = (older ++ logs)%list /\
             length logs = Nat.min 10 (length (telnetLogBuffer t)) /\
             reported = withLogs logs result)
      (testResults t) (tests (formatResults overrideSuccess t)).
Proof.
  intros o t. cbn [tests formatResults].
  induction (testResults t) as [|r l IH]; [constructor|].
  cbn [map]. constructor; [|exact IH].
  destruct (passed r); cbn [negb andb orb]; [reflexivity|].
  destruct (length (telnetLogBuffer t)) eqn:El; [reflexivity|].
  cbn [Nat.ltb Nat.leb Nat.eqb].
  destruct (lastN_suffix 10 (telnetLogBuffer t)) as (older & H1 & H2).
  exists older, (lastN 10 (telnetLogBuffer t)).
  rewrite <- El. repeat split; assumption.
Qed.

(** ** Typing text through the tester *)

Import TesterText.

Lemma typed_cons (ms : Z) (c : ascii) (text : string) :
  typed ms (String c text) =
  (EKeypress ("Lit_" ++ RaspRunner.encodeURIComponent c) :: ESleep ms :: typed ms text)%list.
Proof. reflexivity. Qed.

(** X17: sending a text of ASCII characters through the tester never
    throws.  When it reports success it has sent one keypress per character,
    in order, each followed by a 100 ms pause, and used two turns per
    character.  When it reports failure it stopped at the first refused
    character: the characters before it were sent with their pauses, the
    refused one is the last request, and the rest of the text was not tried.
    It can only be left waiting when the run has fewer than two turns per
    character.  The test results are untouched. *)
Theorem X17_sendEcpText_stops_at_first_refusal :
  forall (text : string) (t : Tester) (env : list Turn),
    asciiText text = true ->
    match sendEcpText text t env with
    | Done sent t' rest =>
        testResults t' = testResults t /\
        if sent then
          issued t' = (issued t ++ typed 100 text)%list /\
          length env = (length rest + 2 * String.length text)%nat
        else
          exists before c after,
            text = before ++ String c after /\
            issued t' =
              (issued t ++ typed 100 before
                 ++ [EKeypress ("Lit_" ++ RaspRunner.encodeURIComponent c)])%list
    | Threw _ _ _ => False
    | Starved => (length env < 2 * String.length text)%nat
    end.
Proof.
  intros text t env _. revert t env.
  induction text as [|c text IH]; intros t env.
  - cbn. rewrite app_nil_r. repeat split. lia.
  - cbn [sendEcpText]. unfold await, sleep, mbind, M_bind, pure.
    destruct env as [|key env]; [cbn; lia|]. cbv beta iota.
    destruct (reply key) as [|message].
    + unfold await. destruct env as [|pause env]; [cbn; lia|]. cbv beta iota.
      specialize (IH (deliver pause (issue (ESleep 100) (deliver key
                        (issue (EKeypress ("Lit_" ++ RaspRunner.encodeURIComponent c)) t))))
                     env).
      destruct (sendEcpText text _ env) as [sent t' rest|m t' rest|];
        [|exact IH|cbn [length String.length]; lia].
      destruct IH as (Hr & IH).
      rewrite !testResults_deliver in Hr. cbn [testResults issue] in Hr.
      rewrite !testResults_deliver in Hr. cbn [testResults issue] in Hr.
      split; [exact Hr|].
      assert (Hi : issued (deliver pause (issue (ESleep 100) (deliver key
                      (issue (EKeypress ("Lit_" ++ RaspRunner.encodeURIComponent c)) t))))
                   = (issued t ++ [EKeypress ("Lit_" ++ RaspRunner.encodeURIComponent c);
                                   ESleep 100])%list).
      { rewrite issued_deliver. cbn [issued issue]. rewrite issued_deliver.
        cbn [issued issue]. rewrite <- app_assoc. reflexivity. }
      rewrite Hi in IH. destruct sent.
      * destruct IH as (IH1 & IH2). split.
        -- rewrite IH1, typed_cons, <- app_assoc. reflexivity.
        -- cbn [length String.length]. lia.
      * destruct IH as (before & c' & after & -> & IH).
        exists (String c before), c', after. split; [reflexivity|].
        rewrite IH, typed_cons, <- !app_assoc. reflexivity.
    + split; [rewrite testResults_deliver; reflexivity|].
      exists "", c, text. split; [reflexivity|].
      rewrite issued_deliver. reflexivity.
Qed.

Lemma X17_sendEcpText_stops_at_first_refusal_witness :
  match sendEcpText "ok" freshTester
          [quiet 1100 []; quiet 1200 [];
           {| arrived := []; reply := Rejected "refused"; resumedAt := 1300 |}] with
  | Done sent t' rest =>
      testResults t' = testResults freshTester /\
      if sent then
        issued t' = (issued freshTester ++ typed 100 "ok")%list /\
        length [quiet 1100 []; quiet 1200 [];
                {| arrived := []; reply := Rejected "refused"; resumedAt := 1300 |}]
        = (length rest + 2 * String.length "ok")%nat
      else
        exists before c after,
          "ok" = before ++ String c after /\
          issued t' =
            (issued freshTester ++ typed 100 before
               ++ [EKeypress ("Lit_" ++ RaspRunner.encodeURIComponent c)])%list
  | Threw _ _ _ => False
  | Starved =>
      (length [quiet 1100 []; quiet 1200 [];
               {| arrived := []; reply := Rejected "refused"; resumedAt := 1300 |}]
       < 2 * String.length "ok")%nat
  end.
Proof.
  exact (X17_sendEcpText_stops_at_first_refusal "ok" freshTester
           [quiet 1100 []; quiet 1200 [];
            {| arrived := []; reply := Rejected "refused"; resumedAt := 1300 |}] eq_refl).
Defined.

(** ** The input test of a signed-in app *)

(** X18: in signed-in mode the input test has no warm-up: after a pause of
    2000 ms the first request is the input command with the content id and
    the media type, and everything after it is a poll timer.  No Home key and
    no plain launch is sent, so the state the sign-in script left is kept.
    The test adds exactly one result, named Deep Link Input Test, and never
    throws. *)
Theorem X18_signed_in_input_test_has_no_warm_up :
  forall (t : Tester) (env : list Turn),
    isSignedIn t = true ->
    match runInputTest t env with
    | Done _ t' _ =>
        (exists polls,
            issued t' =
              (issued t ++ [ESleep 2000;
                            ECommand "input" [("contentId", contentId t);
                                              ("mediaType", mediaType t)]]
                        ++ repeat (ESleep 500) polls)%list) /\
        exists tr,
          testResults t' = (testResults t ++ [tr])%list /\
          testName tr = "Deep Link Input Test" /\ command tr = "input"
    | Threw _ _ _ => False
    | Starved => True
    end.
Proof.
  intros t env Hsigned.
  unfold runInputTest, get, mbind at 1, M_bind at 1. rewrite Hsigned. cbn [negb].
  unfold sleep, await, mbind, M_bind, pure.
  destruct env as [|pause env]; [exact I|]. cbv beta iota.
  set (t1 := deliver pause (issue (ESleep 2000) t)).
  pose proof (runDeepLinkTest_outcome "Deep Link Input Test" "input" t1 env) as H.
  destruct (runDeepLinkTest "Deep Link Input Test" "input" t1 env) as [tr t' rest|m t' rest|];
    [|exact H|exact I].
  destruct H as (Hr & Hn & Hc & _ & polls & Hi).
  assert (Ht1 : testResults t1 = testResults t /\ issued t1 = (issued t ++ [ESleep 2000])%list
                /\ options t1 = options t).
  { subst t1. rewrite testResults_deliver, issued_deliver, options_deliver. repeat split. }
  destruct Ht1 as (R1 & I1 & O1). split.
  - exists polls. rewrite Hi, I1, <- app_assoc. unfold contentId, mediaType. rewrite O1.
    reflexivity.
  - exists tr. rewrite Hr, R1. repeat split; assumption.
Qed.

Lemma X18_signed_in_input_test_has_no_warm_up_witness :
  match runInputTest
          (newTester {| opt_content := "1234"; opt_type := "series"; opt_wait := 30;
                        opt_signedIn := true; opt_script := Some "signin.rasp";
                        opt_launchOnly := false; opt_inputOnly := false;
                        opt_expectBeacon := None |} 1000)
          [quiet 3000 []; quiet 3100 []] with
  | Done _ t' _ =>
      (exists polls,
          issued t' =
            ([] ++ [ESleep 2000;
                    ECommand "input" [("contentId", "1234"); ("mediaType", "series")]]
                ++ repeat (ESleep 500) polls)%list) /\
      exists tr,
        testResults t' = ([] ++ [tr])%list /\
        testName tr = "Deep Link Input Test" /\ command tr = "input"
  | Threw _ _ _ => False
  | Starved => True
  end.
Proof.
  exact (X18_signed_in_input_test_has_no_warm_up
           (newTester {| opt_content := "1234"; opt_type := "series"; opt_wait := 30;
                         opt_signedIn := true; opt_script := Some "signin.rasp";
                         opt_launchOnly := false; opt_inputOnly := false;
                         opt_expectBeacon := None |} 1000)
           [quiet 3000 []; quiet 3100 []] eq_refl).
Defined.

(** ** The script runner's requests *)

(** X19: the runner types a text of ASCII characters one at a time, each keypress
    followed by a 50 ms pause.  Unlike the tester's own text sender it does
    not swallow a refusal: the first refused keypress is thrown with the
    device's message, after the characters before it were sent and before
    any later character is tried.  Without a refusal every character is sent,
    using two turns each; it can only be left waiting when the run has fewer
    turns than that. *)
Theorem X19_runner_typing_throws_at_first_refusal :
  forall (text : string) (issued : list Effect) (env : list Reply),
    asciiText text = true ->
    match RaspRunner.sendCharacters text issued env with
    | RaspRunner.Done issued' rest =>
        issued' = (issued ++ typed 50 text)%list /\
        length env = (length rest + 2 * String.length text)%nat
    | RaspRunner.Threw message issued' rest =>
        exists before c after,
          text = before ++ String c after /\
          issued' =
            (issued ++ typed 50 before
               ++ [EKeypress ("Lit_" ++ RaspRunner.encodeURIComponent c)])%list /\
          nth_error env (2 * String.length before) = Some (Rejected message) /\
          length env = (length rest + 2 * String.length before + 1)%nat
    | RaspRunner.Starved => (length env < 2 * String.length text)%nat
    end.
Proof.
  intros text issued env _. revert issued env.
  induction text as [|c text IH]; intros issued env.
  - cbn. rewrite app_nil_r. split; [reflexivity|lia].
  - cbn [RaspRunner.sendCharacters].
    destruct env as [|[|message] env]; [cbn; lia| |].
    + destruct env as [|pause env]; [cbn; lia|].
      specialize (IH ((issued ++ [EKeypress ("Lit_" ++ RaspRunner.encodeURIComponent c)])
                        ++ [ESleep 50])%list env).
      destruct (RaspRunner.sendCharacters text _ env) as [issued' rest|m issued' rest|].
      * destruct IH as (-> & Hl). split.
        -- rewrite typed_cons, <- !app_assoc. reflexivity.
        -- cbn [length String.length]. lia.
      * destruct IH as (before & c' & after & -> & -> & Hn & Hl).
        exists (String c before), c', after. split; [reflexivity|]. split.
        -- rewrite typed_cons, <- !app_assoc. reflexivity.
        -- split.
           ++ replace (2 * String.length (String c before))%nat
                with (S (S (2 * String.length before))) by (cbn [String.length]; lia).
              exact Hn.
           ++ cbn [length String.length]. lia.
      * cbn [length String.length]. lia.
    + exists "", c, text. split; [reflexivity|]. split; [reflexivity|].
      split; [reflexivity|]. cbn [length String.length]. lia.
Qed.

Lemma X19_runner_typing_throws_at_first_refusal_witness :
  match RaspRunner.sendCharacters "ok" [] [Accepted; Accepted; Rejected "refused"] with
  | RaspRunner.Done issued' rest =>
      issued' = ([] ++ typed 50 "ok")%list /\
      length [Accepted; Accepted; Rejected "refused"]
      = (length rest + 2 * String.length "ok")%nat
  | RaspRunner.Threw message issued' rest =>
      exists before c after,
        "ok" = before ++ String c after /\
        issued' =
          ([] ++ typed 50 before
             ++ [EKeypress ("Lit_" ++ RaspRunner.encodeURIComponent c)])%list /\
        nth_error [Accepted; Accepted; Rejected "refused"] (2 * String.length before)
        = Some (Rejected message) /\
        length [Accepted; Accepted; Rejected "refused"]
        = (length rest + 2 * String.length before + 1)%nat
  | RaspRunner.Starved =>
      (length [Accepted; Accepted; Rejected "refused"] < 2 * String.length "ok")%nat
  end.
Proof.
  exact (X19_runner_typing_throws_at_first_refusal "ok" []
           [Accepted; Accepted; Rejected "refused"] eq_refl).
Defined.

Lemma toLowerCase_single (c : ascii) : toLowerCase (String c "") = String (lowerChar c) "".
Proof. reflexivity. Qed.

Lemma mappedKey_single (c : ascii) : RaspKeys.mappedKey (String c "") = None.
Proof.
  unfold RaspKeys.mappedKey, RaspKeys.keyMappings, RaspKeys.ownEntry.
  cbn [String.eqb]. rewrite ?andb_false_r, ?Tauto.if_same. 
  repeat match goal with
         | |- context [if Ascii.eqb ?a ?b then false else false] =>
             replace (if Ascii.eqb a b then false else false) with false
               by (destruct (Ascii.eqb a b); reflexivity)
         end.
  reflexivity.
Qed.

(** X20: every key name the validator accepts reaches the device in one of
    two ways.  A name with an entry in the runner's table is sent as the
    entry's value, whatever its case.  The other accepted names (select,
    play, rev, fwd in any case, and a single letter or digit) have no entry
    and are sent exactly as the script wrote them. *)
Theorem X20_validated_key_is_mapped_or_sent_as_written :
  forall (key : string),
    asciiText key = true ->
    arrayIncludes RaspValidator.validKeys (toLowerCase key)
    || RaspValidator.isSingleAlnum key = true ->
    (exists name,
        In (toLowerCase key, name) RaspKeys.keyMappings /\ RaspKeys.actualKey key = name)
    \/ (RaspKeys.actualKey key = key /\
        (In (toLowerCase key) ["select"; "play"; "rev"; "fwd"]
         \/ RaspValidator.isSingleAlnum key = true)).
Proof.
  intros key _ Hok. apply orb_true_iff in Hok. destruct Hok as [Hin|Hsingle].
  - unfold arrayIncludes, RaspValidator.validKeys in Hin. unfold RaspKeys.actualKey.
    cbn [existsb] in Hin. rewrite orb_false_r in Hin.
    repeat (apply orb_true_iff in Hin; destruct Hin as [Hin|Hin]);
      apply String.eqb_eq in Hin; rewrite Hin;
      first [ left; eexists; split; [|reflexivity]; cbn; tauto
            | right; split; [reflexivity|left; cbn; tauto] ].
  - right. split; [|right; exact Hsingle].
    destruct key as [|c [|]]; try discriminate.
    unfold RaspKeys.actualKey. rewrite toLowerCase_single, mappedKey_single. reflexivity.
Qed.

Lemma X20_validated_key_is_mapped_or_sent_as_written_witness :
  (exists name,
      In (toLowerCase "OK", name) RaspKeys.keyMappings /\ RaspKeys.actualKey "OK" = name)
  \/ (RaspKeys.actualKey "OK" = "OK" /\
      (In (toLowerCase "OK") ["select"; "play"; "rev"; "fwd"]
       \/ RaspValidator.isSingleAlnum "OK" = true)).
Proof.
  apply X20_validated_key_is_mapped_or_sent_as_written; reflexivity.
Defined.

(** ** The script validator *)

Section ValidatorFacts.

Variable numberToStringOther : float -> string.
Variable stringToNumber : string -> float.

Abbreviation validateStep := (RaspValidator.validateStep numberToStringOther stringToNumber).
Abbreviation forEachStep := (RaspValidator.forEachStep numberToStringOther stringToNumber).
Abbreviation validateSteps := (RaspValidator.validateSteps numberToStringOther stringToNumber).
Abbreviation validate := (RaspValidator.validate numberToStringOther stringToNumber).

Lemma validateStep_errors (defaultWait : Value) (count index : nat) (step : Value)
    (errors : list string) (total : Value) :
  fst (validateStep defaultWait count index step errors total) = errors
  \/ exists detail,
      fst (validateStep defaultWait count index step errors total)
      = (errors ++ [(RaspValidator.stepLabel index ++ ": " ++ detail)%string])%list.
Proof.
  unfold RaspValidator.validateStep, RaspValidator.pushTo.
  repeat match goal with
         | |- context [if ?b then _ else _] => destruct b
         | |- context [match getProp ?v ?k with _ => _ end] => destruct (getProp v k)
         end; cbn [fst];
    first [ left; reflexivity
          | right; eexists; reflexivity
          | right; exists "Must be an object"; reflexivity
          | right; exists "Must contain exactly one action"; reflexivity
          | right; eexists ("Unknown step type " ++ _); reflexivity
          | right; exists "launch requires a string channel ID"; reflexivity
          | right; exists "press requires a string key name"; reflexivity
          | right; exists "text requires a string value"; reflexivity
          | right; exists "pause requires a positive number of seconds"; reflexivity ].
Qed.

Lemma forEachStep_errors (defaultWait : Value) (count : nat) (steps : list Value) :
  forall (index : nat) (errors : list string) (total : Value),
    exists added,
      fst (forEachStep defaultWait count index steps errors total) = (errors ++ added)%list /\
      (length added <= length steps)%nat /\
      Forall (fun message =>
                exists i detail, (index <= i < index + length steps)%nat /\
                                 message = RaspValidator.stepLabel i ++ ": " ++ detail)
             added.
Proof.
  induction steps as [|step steps IH]; intros index errors total.
  - exists []. cbn. rewrite app_nil_r. repeat split; [lia|constructor].
  - cbn [RaspValidator.forEachStep].
    pose proof (validateStep_errors defaultWait count index step errors total) as Hs.
    destruct (validateStep defaultWait count index step errors total) as [errors1 [total1|m]];
      cbn [fst] in Hs.
    + destruct (IH (S index) errors1 total1) as (added & -> & Hl & Hf).
      assert (Hf' : Forall (fun message =>
                exists i detail, (index <= i < index + length (step :: steps))%nat /\
                                 message = RaspValidator.stepLabel i ++ ": " ++ detail)
                added).
      { eapply Forall_impl; [exact Hf|]. intros m (i & d & Hi & ->).
        exists i, d. split; [cbn [length]; lia|reflexivity]. }
      destruct Hs as [->|(detail & ->)].
      * exists added. repeat split; [cbn [length]; lia|exact Hf'].
      * exists ((RaspValidator.stepLabel index ++ ": " ++ detail)%string :: added).
        rewrite <- app_assoc. repeat split; [cbn [length]; lia|].
        constructor; [|exact Hf']. exists index, detail. split; [cbn [length]; lia|reflexivity].
    + cbn [fst]. destruct Hs as [->|(detail & ->)].
      * exists []. rewrite app_nil_r. repeat split; [cbn; lia|constructor].
      * exists [RaspValidator.stepLabel index ++ ": " ++ detail].
        repeat split; [cbn [length]; lia|].
        constructor; [|constructor]. exists index, detail.
        split; [cbn [length]; lia|reflexivity].
Qed.

(** X21: validating the steps never rewrites the error list it is given:
    it only appends.  It appends at most one message per step, also when it
    ends early by throwing, and every message it appends starts with the
    position of a step of the script: Step i followed by a colon, counted
    from 1. *)
Theorem X21_step_errors_are_appended_and_name_their_step :
  forall (steps : list Value) (errors : list string) (params : Value),
    exists added,
      fst (validateSteps steps errors params) = (errors ++ added)%list /\
      (length added <= length steps)%nat /\
      Forall (fun message =>
                exists i detail, (i < length steps)%nat /\
                                 message = RaspValidator.stepLabel i ++ ": " ++ detail)
             added.
Proof.
  intros steps errors params. unfold RaspValidator.validateSteps.
  destruct (getProp _ "default_keypress_wait") as [wait|m].
  - destruct (forEachStep_errors (if truthy wait then wait else VNum 1) (length steps)
                steps 0 errors (VNum 0)) as (added & H1 & H2 & H3).
    exists added.
    destruct (forEachStep _ _ _ _ _ _) as [errors1 [total|m]]; cbn [fst] in *;
      (split; [exact H1|]; split; [exact H2|]; eapply Forall_impl; [exact H3|];
       intros msg (i & d & Hi & ->); exists i, d; split; [lia|reflexivity]).
  - exists []. cbn [fst]. rewrite app_nil_r. repeat split; [cbn; lia|constructor].
Qed.

Ltac pause_case H1 H2 :=
  cbn [arrayIncludes existsb RaspValidator.validStepTypes];
  change (String.eqb "pause" "launch") with false;
  change (String.eqb "pause" "press") with false;
  change (String.eqb "pause" "text") with false;
  change (String.eqb "pause" "pause") with true;
  cbn [orb negb]; rewrite H1, H2; cbn [orb]; eexists; reflexivity.

Lemma validateStep_wellFormed (defaultWait : Value) (count index : nat) (step : Value)
    (errors : list string) (total : Value) :
  wellFormedStep numberToStringOther step ->
  exists total', validateStep defaultWait count index step errors total
                 = (errors, Normal total').
Proof.
  intros Hw. destruct step as [| | | | | |fields]; try contradiction.
  destruct fields as [|[kind v] [|]]; try contradiction; [|destruct v; contradiction].
  unfold RaspValidator.validateStep.
  cbn [truthy typeof negb orb String.eqb keys map fst length Nat.eqb hd lookupField].
  change (String.eqb "object" "object") with true. cbn [negb orb].
  rewrite String.eqb_refl.
  destruct v as [| | | |s| |]; cbn [wellFormedStep] in Hw;
    try (destruct Hw as (-> & H1 & H2); pause_case H1 H2).
  destruct Hw as (Hs & [->|[->|[(-> & Hkey)|(-> & H1 & H2)]]]);
    [| | |pause_case H1 H2];
    assert (Ht : truthy (VStr s) = true)
      by (cbn [truthy]; destruct (String.eqb_spec s ""); [contradiction|reflexivity]);
    rewrite ?Ht; cbn [arrayIncludes existsb RaspValidator.validStepTypes typeof getProp].
  - change (String.eqb "launch" "launch") with true.
    change (String.eqb "string" "string") with true.
    cbn [orb negb]. eexists. reflexivity.
  - change (String.eqb "text" "launch") with false.
    change (String.eqb "text" "press") with false.
    change (String.eqb "text" "text") with true.
    change (String.eqb "string" "string") with true.
    cbn [orb negb]. eexists. reflexivity.
  - change (String.eqb "press" "launch") with false.
    change (String.eqb "press" "press") with true.
    change (String.eqb "string" "string") with true.
    cbn [orb negb].
    assert (Hk : negb (arrayIncludes RaspValidator.validKeys (toLowerCase s))
                 && negb (RaspValidator.isSingleAlnum s) = false).
    { destruct Hkey as [-> | ->]; [reflexivity|]. rewrite andb_false_r. reflexivity. }
    rewrite Hk. eexists. reflexivity.
Qed.

Lemma forEachStep_wellFormed (defaultWait : Value) (count : nat) (steps : list Value) :
  Forall (wellFormedStep numberToStringOther) steps ->
  forall (index : nat) (errors : list string) (total : Value),
    exists total', forEachStep defaultWait count index steps errors total
                   = (errors, Normal total').
Proof.
  induction 1 as [|step steps Hstep _ IH]; intros index errors total.
  - eexists. reflexivity.
  - cbn [RaspValidator.forEachStep].
    destruct (validateStep_wellFormed defaultWait count index step errors total Hstep)
      as (total1 & ->).
    apply IH.
Qed.

Lemma validateParams_wellFormed (params : Value) :
  wellFormedParams params -> truthy params = true ->
  RaspValidator.validateParams params [] = [].
Proof.
  intros Hw Ht. destruct params as [| | | | | |fields]; try contradiction; [discriminate|].
  destruct Hw as (H1 & H2 & H3). unfold RaspValidator.validateParams. cbn [getProp].
  destruct H1 as [-> |(x1 & ->)], H2 as [-> |(x2 & ->)], H3 as [-> |(x3 & ->)];
    cbn [truthy typeof andb];
    change (String.eqb "number" "number") with true;
    change (String.eqb "object" "object") with true;
    cbn [negb]; rewrite ?andb_false_r; reflexivity.
Qed.

(** X22: the validator accepts every script of the intended form.  When
    the params section is absent or well formed and every step is a record
    with one of the four actions and a fitting value (a non-empty string for
    launch and text, a known key name or a single letter or digit for press,
    a value read as a number that is not negative for pause), the result is
    valid, lists no error and counts every step; validation does not throw.
    An empty list of steps is accepted. *)
Theorem X22_well_formed_script_is_valid :
  forall (scriptPath : string) (fields : list (string * Value)) (steps : list Value),
    lookupField fields "steps" = VArr steps ->
    wellFormedParams (lookupField fields "params") ->
    Forall (wellFormedStep numberToStringOther) steps ->
    let result := validate scriptPath (RaspValidator.Parsed (VObj fields)) in
    RaspValidator.valid result = true /\
    RaspValidator.errors result = [] /\
    RaspValidator.stepCount result = length steps.
Proof.
  intros scriptPath fields steps Hsteps Hparams Hwf.
  unfold RaspValidator.validate. cbn [truthy negb getProp]. rewrite Hsteps.
  cbn [truthy negb].
  assert (He : (if truthy (lookupField fields "params")
                then RaspValidator.validateParams (lookupField fields "params") []
                else []) = []).
  { destruct (truthy (lookupField fields "params")) eqn:Et; [|reflexivity].
    apply validateParams_wellFormed; assumption. }
  rewrite He. unfold RaspValidator.validateSteps.
  assert (Hget : exists wait,
             getProp match lookupField fields "params" with
                     | VUndefined => VObj []
                     | _ => lookupField fields "params"
                     end "default_keypress_wait" = Normal wait).
  { destruct (lookupField fields "params"); try contradiction; eexists; reflexivity. }
  destruct Hget as (wait & ->).
  destruct (forEachStep_wellFormed (if truthy wait then wait else VNum 1) (length steps)
              steps Hwf 0 [] (VNum 0)) as (total & ->).
  repeat split.
Qed.

(** X23: a script whose params section is present but empty, which the
    YAML reader hands over as null, is rejected whatever its steps are: no
    step is looked at, the one error listed is the runtime's complaint about
    reading default_keypress_wait of null, reported as a YAML parse failure,
    while the step count is still the number of steps. *)
Theorem X23_empty_params_section_is_rejected :
  forall (scriptPath : string) (fields : list (string * Value)) (steps : list Value),
    lookupField fields "params" = VNull ->
    lookupField fields "steps" = VArr steps ->
    validate scriptPath (RaspValidator.Parsed (VObj fields))
    = {| RaspValidator.valid := false;
         RaspValidator.errors :=
           ["Failed to parse YAML: Cannot read properties of null (reading 'default_keypress_wait')"];
         RaspValidator.stepCount := length steps;
         RaspValidator.estimatedDuration := 0 |}.
Proof.
  intros scriptPath fields steps Hparams Hsteps.
  unfold RaspValidator.validate. cbn [truthy negb getProp]. rewrite Hsteps, Hparams.
  reflexivity.
Qed.

(** X24: a parsed script whose steps entry is missing, or is anything but
    a list, is never valid: it counts no step, estimates no duration, and
    the last error listed says which of the two it was. *)
Theorem X24_steps_must_be_a_list :
  forall (scriptPath : string) (script : Value),
    truthy script = true ->
    (forall items, getProp script "steps" <> Normal (VArr items)) ->
    let result := validate scriptPath (RaspValidator.Parsed script) in
    RaspValidator.valid result = false /\
    RaspValidator.stepCount result = 0%nat /\
    RaspValidator.estimatedDuration result = 0%float /\
    (last (RaspValidator.errors result)
     = Some ("Script must contain a " ++ quoted "steps" ++ " section")
     \/ last (RaspValidator.errors result) = Some (quoted "steps" ++ " must be an array")).
Proof.
  intros scriptPath script Ht Hsteps.
  unfold RaspValidator.validate. rewrite Ht. cbn [negb].
  assert (Hlen : forall (l : list string) m,
             (length (RaspValidator.pushTo l m) =? 0)%nat = false).
  { intros l m. unfold RaspValidator.pushTo. rewrite length_app. cbn [length].
    apply Nat.eqb_neq. lia. }
  assert (Hlast : forall (l : list string) m, last (RaspValidator.pushTo l m) = Some m).
  { intros l m. unfold RaspValidator.pushTo. apply last_snoc. }
  destruct (getProp script "steps") as [v|m] eqn:Ev.
  - destruct (truthy v) eqn:Etv; cbn [negb].
    + destruct v; try discriminate;
        try (exfalso; eapply Hsteps; reflexivity);
        cbn [RaspValidator.mkResult RaspValidator.valid RaspValidator.stepCount
             RaspValidator.estimatedDuration RaspValidator.errors];
        rewrite Hlen, Hlast; repeat split; right; reflexivity.
    + cbn [RaspValidator.mkResult RaspValidator.valid RaspValidator.stepCount
             RaspValidator.estimatedDuration RaspValidator.errors].
      rewrite Hlen, Hlast. repeat split. left. reflexivity.
  - cbn [truthy negb RaspValidator.mkResult RaspValidator.valid RaspValidator.stepCount
         RaspValidator.estimatedDuration RaspValidator.errors].
    rewrite Hlen, Hlast. repeat split. left. reflexivity.
Qed.

End ValidatorFacts.

Lemma X22_well_formed_script_is_valid_witness :
  let result := RaspValidator.validate (fun _ => "0") (fun _ => 0%float) "signin.rasp"
                  (RaspValidator.Parsed
                     (VObj [("steps", VArr [VObj [("launch", VStr "MyApp")];
                                            VObj [("press", VStr "OK")];
                                            VObj [("text", VStr "script-login")]])])) in
  RaspValidator.valid result = true /\
  RaspValidator.errors result = [] /\
  RaspValidator.stepCount result = 3%nat.
Proof.
  apply (X22_well_formed_script_is_valid (fun _ => "0") (fun _ => 0%float) "signin.rasp"
           [("steps", VArr [VObj [("launch", VStr "MyApp")];
                            VObj [("press", VStr "OK")];
                            VObj [("text", VStr "script-login")]])]
           [VObj [("launch", VStr "MyApp")]; VObj [("press", VStr "OK")];
            VObj [("text", VStr "script-login")]]).
  - reflexivity.
  - exact I.
  - apply List.Forall_cons; [split; [discriminate|left; reflexivity]|].
    apply List.Forall_cons;
      [split; [discriminate|right; right; left; split; [reflexivity|left; reflexivity]]|].
    apply List.Forall_cons; [split; [discriminate|right; left; reflexivity]|].
    apply List.Forall_nil.
Defined.

Lemma X23_empty_params_section_is_rejected_witness :
  RaspValidator.validate (fun _ => "0") (fun _ => 0%float) "signin.rasp"
    (RaspValidator.Parsed
       (VObj [("params", VNull); ("steps", VArr [VObj [("press", VStr "ok")]])]))
  = {| RaspValidator.valid := false;
       RaspValidator.errors :=
         ["Failed to parse YAML: Cannot read properties of null (reading 'default_keypress_wait')"];
       RaspValidator.stepCount := 1;
       RaspValidator.estimatedDuration := 0 |}.
Proof.
  apply (X23_empty_params_section_is_rejected (fun _ => "0") (fun _ => 0%float) "signin.rasp"
           [("params", VNull); ("steps", VArr [VObj [("press", VStr "ok")]])]
           [VObj [("press", VStr "ok")]]); reflexivity.
Defined.

Lemma X24_steps_must_be_a_list_witness :
  let result := RaspValidator.validate (fun _ => "0") (fun _ => 0%float) "signin.rasp"
                  (RaspValidator.Parsed (VObj [("steps", VStr "press ok")])) in
  RaspValidator.valid result = false /\
  RaspValidator.stepCount result = 0%nat /\
  RaspValidator.estimatedDuration result = 0%float /\
  (last (RaspValidator.errors result)
   = Some ("Script must contain a " ++ quoted "steps" ++ " section")
   \/ last (RaspValidator.errors result) = Some (quoted "steps" ++ " must be an array")).
Proof.
  apply (X24_steps_must_be_a_list (fun _ => "0") (fun _ => 0%float) "signin.rasp" (VObj [("steps", VStr "press ok")]));
    [reflexivity|discriminate].
Defined.

(** ** The address check of the command line *)

Lemma matchOctet_sound (s r : string) :
  Cli.matchOctet s = Some r -> exists a, s = a ++ r /\ octetLike a.
Proof.
  unfold Cli.matchOctet, octetLike. intros H.
  destruct s as [|a s]; [discriminate|].
  destruct (isDigit a) eqn:Ea; [|discriminate].
  destruct s as [|b s].
  { inversion H; subst. exists (String a ""). cbn. rewrite Ea. repeat split; lia. }
  destruct (isDigit b) eqn:Eb.
  2:{ inversion H; subst. exists (String a ""). cbn. rewrite Ea. repeat split; lia. }
  destruct s as [|c s].
  { inversion H; subst. exists (String a (String b "")). cbn. rewrite Ea, Eb.
    repeat split; lia. }
  destruct (isDigit c) eqn:Ec; inversion H; subst.
  - exists (String a (String b (String c ""))). cbn. rewrite Ea, Eb, Ec. repeat split; lia.
  - exists (String a (String b "")). cbn. rewrite Ea, Eb. repeat split; lia.
Qed.

Lemma matchOctet_complete (a r : string) :
  octetLike a -> (r = "" \/ exists r', r = String "." r') ->
  Cli.matchOctet (a ++ r) = Some r.
Proof.
  unfold octetLike. intros ((Hlo & Hhi) & Hd) Hr.
  assert (Hnext : match r with
                  | String c _ => isDigit c = false
                  | EmptyString => True
                  end).
  { destruct Hr as [->|(r' & ->)]; [exact I|reflexivity]. }
  destruct a as [|x [|y [|z [|]]]]; cbn in Hlo, Hhi, Hd; try lia.
  - rewrite andb_true_r in Hd. cbn. rewrite Hd.
    destruct r; [reflexivity|]. rewrite Hnext. reflexivity.
  - apply andb_prop in Hd. destruct Hd as (Hx & Hy). rewrite andb_true_r in Hy.
    cbn. rewrite Hx, Hy. destruct r; [reflexivity|]. rewrite Hnext. reflexivity.
  - apply andb_prop in Hd. destruct Hd as (Hx & Hd).
    apply andb_prop in Hd. destruct Hd as (Hy & Hz). rewrite andb_true_r in Hz.
    cbn. rewrite Hx, Hy, Hz. reflexivity.
Qed.

Lemma matchDot_sound (s r : string) : Cli.matchDot s = Some r -> s = String "." r.
Proof.
  unfold Cli.matchDot. destruct s as [|c s]; [discriminate|].
  destruct (Ascii.eqb_spec c "."); [|discriminate]. intros H. inversion H. subst.
  reflexivity.
Qed.

(** X25: the address check of the command line accepts exactly the texts
    made of four groups of one to three decimal digits separated by single
    dots, with nothing before or after.  The groups are not read as numbers:
    no range is checked. *)
Theorem X25_address_check_is_four_digit_groups :
  forall (ip : string),
    Cli.ipRegexTest ip = true <->
    exists a b c d,
      ip = a ++ "." ++ b ++ "." ++ c ++ "." ++ d /\
      octetLike a /\ octetLike b /\ octetLike c /\ octetLike d.
Proof.
  intros ip. split.
  - unfold Cli.ipRegexTest. intros H.
    destruct (Cli.matchOctet ip) as [s1|] eqn:E1; [|discriminate].
    destruct (Cli.matchDot s1) as [s2|] eqn:D1; [|discriminate].
    destruct (Cli.matchOctet s2) as [s3|] eqn:E2; [|discriminate].
    destruct (Cli.matchDot s3) as [s4|] eqn:D2; [|discriminate].
    destruct (Cli.matchOctet s4) as [s5|] eqn:E3; [|discriminate].
    destruct (Cli.matchDot s5) as [s6|] eqn:D3; [|discriminate].
    destruct (Cli.matchOctet s6) as [[|]|] eqn:E4; try discriminate.
    destruct (matchOctet_sound _ _ E1) as (a & -> & Ha).
    destruct (matchOctet_sound _ _ E2) as (b & -> & Hb).
    destruct (matchOctet_sound _ _ E3) as (c & -> & Hc).
    destruct (matchOctet_sound _ _ E4) as (d & -> & Hd).
    rewrite (matchDot_sound _ _ D1), (matchDot_sound _ _ D2), (matchDot_sound _ _ D3).
    exists a, b, c, d. repeat split; try assumption; try apply Ha; try apply Hb;
      try apply Hc; try apply Hd.
    assert (Hnil : forall s : string, s ++ "" = s).
    { induction s as [|x s IH]; [reflexivity|]. cbn. rewrite IH. reflexivity. }
    rewrite Hnil. reflexivity.
  - intros (a & b & c & d & -> & Ha & Hb & Hc & Hd).
    unfold Cli.ipRegexTest. change ("." ++ ?s) with (String "." s).
    rewrite (matchOctet_complete a _ Ha) by (right; eexists; reflexivity).
    cbn [Cli.matchDot Ascii.eqb Bool.eqb].
    change ("." ++ c ++ "." ++ d) with (String "." (c ++ String "." d)).
    rewrite (matchOctet_complete b _ Hb) by (right; eexists; reflexivity).
    cbn [Cli.matchDot Ascii.eqb Bool.eqb].
    rewrite (matchOctet_complete c _ Hc) by (right; eexists; reflexivity).
    cbn [Cli.matchDot Ascii.eqb Bool.eqb].
    assert (Hnil : forall s : string, s ++ "" = s).
    { induction s as [|x s IH]; [reflexivity|]. cbn. rewrite IH. reflexivity. }
    rewrite <- (Hnil d) at 1.
    rewrite (matchOctet_complete d "" Hd) by (left; reflexivity). reflexivity.
Qed.
